(** * Zabbix sender: wire framing, statistics parsing, redirect following
      and host fallback

    A shallow embedding of the Go package (sender.go, packet.go,
    response.go, zabbix_sender.go).  Go strings are byte strings and are
    modelled by [string]; [[]byte] buffers are [list byte]; [int] is taken
    to be 64 bits wide and is modelled by [Z].  The TCP peer and the
    functions of [encoding/json] and [strconv.ParseFloat] are outside the
    package: they enter through the classes [Peer], [Json] and [Floats],
    and every property below holds for all their instances. *)

From Stdlib Require Import ZArith List String Ascii Bool Lia.
From Stdlib.Strings Require Import Byte.
Import ListNotations.
Local Open Scope string_scope.
Local Open Scope list_scope.
Local Open Scope Z_scope.


(** ** Results of fallible calls *)

Inductive result (E A : Type) : Type :=
| Ok (a : A)
| Err (e : E).
Arguments Ok {E A} a.
Arguments Err {E A} e.

(** ** Go standard library functions used by the package *)

Definition code (c : ascii) : Z := Z.of_N (N_of_ascii c).

Definition chr (z : Z) : ascii := ascii_of_N (Z.to_N z).

Fixpoint len (s : string) : Z :=
  match s with
  | EmptyString => 0
  | String _ rest => 1 + len rest
  end.

Fixpoint rev_onto (s acc : string) : string :=
  match s with
  | EmptyString => acc
  | String c rest => rev_onto rest (String c acc)
  end.

Definition rev_string (s : string) : string := rev_onto s EmptyString.

Module strings.

(** [strings.Contains(s, sep)] for a separator of one byte. *)
Fixpoint Contains (s : string) (sep : ascii) : bool :=
  match s with
  | EmptyString => false
  | String c rest => Ascii.eqb c sep || Contains rest sep
  end.

(** [strings.Split(s, sep)] for a separator of one byte: the pieces
    between the separators, one more than there are separators. *)
Fixpoint Split (s : string) (sep : ascii) : list string :=
  match s with
  | EmptyString => [EmptyString]
  | String c rest =>
      if Ascii.eqb c sep then EmptyString :: Split rest sep
      else match Split rest sep with
           | piece :: pieces => String c piece :: pieces
           | [] => [String c EmptyString]
           end
  end.

(** The table [asciiSpace]: tab, line feed, vertical tab, form feed,
    carriage return and space. *)
Definition asciiSpace (c : ascii) : bool :=
  let n := code c in
  ((9 <=? n) && (n <=? 13) || (n =? 32))%Z.

(** Drops one leading white space rune ([unicode.IsSpace]) given the
    bytes in reading order; [None] when the string does not start with
    one.  The runes beyond ASCII are U+0085, U+00A0, U+1680,
    U+2000..U+200A, U+2028, U+2029, U+202F, U+205F and U+3000 in UTF-8. *)
Definition dropSpaceLeft (s : string) : option string :=
  match s with
  | String c0 r0 =>
      if asciiSpace c0 then Some r0 else
      match r0 with
      | String c1 r1 =>
          let b0 := code c0 in
          let b1 := code c1 in
          if ((b0 =? 194) && ((b1 =? 133) || (b1 =? 160)))%Z then Some r1 else
          match r1 with
          | String c2 r2 =>
              let b2 := code c2 in
              if ((b0 =? 225) && (b1 =? 154) && (b2 =? 128)
                  || (b0 =? 226) && (b1 =? 128)
                     && ((128 <=? b2) && (b2 <=? 138)
                         || (b2 =? 168) || (b2 =? 169) || (b2 =? 175))
                  || (b0 =? 226) && (b1 =? 129) && (b2 =? 159)
                  || (b0 =? 227) && (b1 =? 128) && (b2 =? 128))%Z
              then Some r2 else None
          | EmptyString => None
          end
      | EmptyString => None
      end
  | EmptyString => None
  end.

(** The same for the last rune, given the bytes in reverse order: the
    encodings above start with a leading byte and continue with
    continuation bytes only, so [utf8.DecodeLastRuneInString] finds one
    exactly when the reversed bytes start with its reversed encoding. *)
Definition dropSpaceRight (s : string) : option string :=
  match s with
  | String c0 r0 =>
      if asciiSpace c0 then Some r0 else
      match r0 with
      | String c1 r1 =>
          let b0 := code c0 in
          let b1 := code c1 in
          if ((b1 =? 194) && ((b0 =? 133) || (b0 =? 160)))%Z then Some r1 else
          match r1 with
          | String c2 r2 =>
              let b2 := code c2 in
              if ((b2 =? 225) && (b1 =? 154) && (b0 =? 128)
                  || (b2 =? 226) && (b1 =? 128)
                     && ((128 <=? b0) && (b0 <=? 138)
                         || (b0 =? 168) || (b0 =? 169) || (b0 =? 175))
                  || (b2 =? 226) && (b1 =? 129) && (b0 =? 159)
                  || (b2 =? 227) && (b1 =? 128) && (b0 =? 128))%Z
              then Some r2 else None
          | EmptyString => None
          end
      | EmptyString => None
      end
  | EmptyString => None
  end.

Fixpoint trimWith (drop : string -> option string) (fuel : nat) (s : string)
  : string :=
  match fuel with
  | O => s
  | S fuel' =>
      match drop s with
      | Some rest => trimWith drop fuel' rest
      | None => s
      end
  end.

(** [strings.TrimSpace]: white space runes removed at both ends.  Each
    call of [drop] removes at least one byte, so a budget of the length
    of the string is never exhausted. *)
Definition TrimSpace (s : string) : string :=
  let left := trimWith dropSpaceLeft (String.length s) s in
  rev_string (trimWith dropSpaceRight (String.length left) (rev_string left)).

End strings.

Module strconv.

Inductive NumError : Type :=
| ErrSyntax
| ErrRange.

Definition digit (c : ascii) : option Z :=
  let n := code c in
  if ((48 <=? n) && (n <=? 57))%Z then Some (n - 48)%Z else None.

Definition maxUint64 : Z := 18446744073709551615.

(** The loop of [ParseUint(s, 10, 64)] from accumulator [n]. *)
Fixpoint parseDigits (s : string) (n : Z) : Z * option NumError :=
  match s with
  | EmptyString => (n, None)
  | String c rest =>
      match digit c with
      | None => (0%Z, Some ErrSyntax)
      | Some d =>
          if (n >=? maxUint64 / 10 + 1)%Z then (maxUint64, Some ErrRange)
          else
            let n1 := (n * 10 + d)%Z in
            if (n1 >? maxUint64)%Z then (maxUint64, Some ErrRange)
            else parseDigits rest n1
      end
  end.

Definition ParseUint (s : string) : Z * option NumError :=
  match s with
  | EmptyString => (0%Z, Some ErrSyntax)
  | _ => parseDigits s 0%Z
  end.

(** [ParseInt(s, 10, 0)] on a 64-bit platform. *)
Definition ParseInt (s : string) : Z * option NumError :=
  match s with
  | EmptyString => (0%Z, Some ErrSyntax)
  | String c rest =>
      let neg := Ascii.eqb c "-" in
      let body := if Ascii.eqb c "+" || neg then rest else s in
      let cutoff := (2 ^ 63)%Z in
      match ParseUint body with
      | (_, Some ErrSyntax) => (0%Z, Some ErrSyntax)
      | (un, _) =>
          if negb neg && (un >=? cutoff)%Z then ((cutoff - 1)%Z, Some ErrRange)
          else if neg && (un >? cutoff)%Z then ((- cutoff)%Z, Some ErrRange)
          else ((if neg then - un else un)%Z, None)
      end
  end.

(** [strconv.Atoi]: the value and the error are both returned; its fast
    path for short inputs computes what [ParseInt(s, 10, 0)] does. *)
Definition Atoi (s : string) : Z * option NumError := ParseInt s.

End strconv.


Module net.

Fixpoint IndexByte (s : string) (c : ascii) : option nat :=
  match s with
  | EmptyString => None
  | String c0 rest =>
      if Ascii.eqb c0 c then Some O else option_map S (IndexByte rest c)
  end.

Fixpoint LastIndexByte (s : string) (c : ascii) : option nat :=
  match s with
  | EmptyString => None
  | String c0 rest =>
      match LastIndexByte rest c with
      | Some i => Some (S i)
      | None => if Ascii.eqb c0 c then Some O else None
      end
  end.

(** [s[lo:]] and [s[lo:hi]] on indices that are in range. *)
Definition from (lo : nat) (s : string) : string :=
  substring lo (String.length s - lo) s.

Definition between (lo hi : nat) (s : string) : string :=
  substring lo (hi - lo) s.

Definition has (s : string) (c : ascii) : bool :=
  match IndexByte s c with Some _ => true | None => false end.

(** [net.SplitHostPort]: the port follows the last colon; a host in
    square brackets may hold colons itself. *)
Definition SplitHostPort (hostport : string) : result string (string * string) :=
  match LastIndexByte hostport ":" with
  | None => Err "missing port in address"
  | Some i =>
      let finish (host : string) (j k : nat) :=
        if has (from j hostport) "[" then Err "unexpected '[' in address"
        else if has (from k hostport) "]" then Err "unexpected ']' in address"
        else Ok (host, from (S i) hostport) in
      match hostport with
      | String "[" _ =>
          match IndexByte hostport "]" with
          | None => Err "missing ']' in address"
          | Some close =>
              if Nat.eqb (S close) (String.length hostport)
              then Err "missing port in address"
              else if Nat.eqb (S close) i
              then finish (between 1 close hostport) 1%nat (S close)
              else if has (between (S close) (S (S close)) hostport) ":"
              then Err "too many colons in address"
              else Err "missing port in address"
          end
      | _ =>
          let host := between 0 i hostport in
          if has host ":" then Err "too many colons in address"
          else finish host O O
      end
  end.

End net.

(** ** Data model (packet.go, response.go, zabbix_sender.go, sender.go) *)

(** [Metric]; the fields that share a name with a field of [Packet] carry
    the prefix [Metric_]. *)
Record Metric : Type := {
  Metric_Host : string;
  Key : string;
  Value : string;
  Metric_Clock : Z;
  Metric_NS : Z;
  Active : bool
}.

Record Packet : Type := {
  Request : string;
  Data : list Metric;
  Clock : Z;
  NS : Z;
  Host : string;
  HostMetadata : string
}.

Record RedirectInfo : Type := {
  Revision : Z;
  Address : string
}.

(** [Response]; its field [Response] is [Response_] here, and the pointer
    [Redirect] is an option. *)
Record Response : Type := {
  Response_ : string;
  Info : string;
  Redirect : option RedirectInfo
}.

(** The zero value of [Response], the initial value of a named result. *)
Definition zeroResponse : Response :=
  {| Response_ := ""; Info := ""; Redirect := None |}.

(** [ResponseInfo]; [Spent] is a [time.Duration], in nanoseconds. *)
Record ResponseInfo : Type := {
  Processed : Z;
  Failed : Z;
  Total : Z;
  Spent : Z
}.

(** [Sender]; the three timeouts are durations in nanoseconds. *)
Record Sender : Type := {
  Hosts : list string;
  PrimaryHost : string;
  MaxRedirects : Z;
  UpdateHost : bool;
  ConnectTimeout : Z;
  ReadTimeout : Z;
  WriteTimeout : Z
}.

(** The largest [int] (64 bits). *)
Definition maxInt : Z := 2 ^ 63 - 1.

(** The value an [int] holds after an operation whose mathematical result
    is [z]: two's complement wrap-around. *)
Definition int (z : Z) : Z := (z + 2 ^ 63) mod 2 ^ 64 - 2 ^ 63.

Definition defaultConnectTimeout : Z := 5 * 1000000000.
Definition defaultWriteTimeout : Z := 5 * 1000000000.
Definition defaultReadTimeout : Z := 15 * 1000000000.
Definition defaultMaxRedirects : Z := 3.
Definition defaultUpdateHost : bool := false.

(** ** Errors

    The package builds its errors with [fmt.Errorf]; there is one
    constructor per call site, carrying the arguments of the format. *)
Inductive Error : Type :=
| ConnectFailed (host : string) (timeout : Z) (cause : string)
| WriteFailed (host : string) (timeout : Z) (cause : string)
| ReadFailed (host : string) (timeout : Z) (cause : string)
| ResponseTooShort (host : string) (n : Z)
| InvalidHeader (header expected : list byte)
| InvalidResponse (host : string) (cause : string)
| SendOnceFailed (currentHost : string) (cause : Error)
| FailedWithoutRedirect (currentHost : string) (response : string)
| InvalidRedirectAddress (addr : string)
| MaxRedirectsExceeded (startHost : string)
| AllHostsFailed (n : Z)
| SendingPacket (cause : Error)
| AutoregistrationFailed
| ResponseNotSuccess (response : string)
| SplitSegments (n : Z) (info : string)
| SplitTokens (n : Z) (segment : string)
| SecondsSpent (value : string) (cause : string).

(** The error taxonomy of the specification. *)
Inductive ErrorKind : Type :=
| ConnectError
| IOError
| ProtocolError
| RejectedError
| InvalidRedirectError
| RedirectLimitExceeded
| AllHostsFailedError
| ParseError
| InvalidStateError.

(** The kind of each error; the two wrappers ("sendOnce to ... failed",
    "sending packet") pass on the kind of what they wrap. *)
Fixpoint kind (e : Error) : ErrorKind :=
  match e with
  | ConnectFailed _ _ _ => ConnectError
  | WriteFailed _ _ _ => IOError
  | ReadFailed _ _ _ => IOError
  | ResponseTooShort _ _ => ProtocolError
  | InvalidHeader _ _ => ProtocolError
  | InvalidResponse _ _ => ProtocolError
  | SendOnceFailed _ cause => kind cause
  | FailedWithoutRedirect _ _ => RejectedError
  | InvalidRedirectAddress _ => InvalidRedirectError
  | MaxRedirectsExceeded _ => RedirectLimitExceeded
  | AllHostsFailed _ => AllHostsFailedError
  | SendingPacket cause => kind cause
  | AutoregistrationFailed => RejectedError
  | ResponseNotSuccess _ => InvalidStateError
  | SplitSegments _ _ => ParseError
  | SplitTokens _ _ => ParseError
  | SecondsSpent _ _ => ParseError
  end.

(** ** Addresses (response.go, zabbix_sender.go) *)

(** [normalizeHost] ensures the address has a port; defaults to 10051 if
    missing. *)
Definition normalizeHost (addr : string) : string :=
  let addr := strings.TrimSpace addr in
  if String.eqb addr "" then addr
  else if strings.Contains addr ":" then addr
  else addr ++ ":10051".

(** The package has two revisions of [parseHostPort]; the drivers below
    are written against either. *)
Class Build : Type := {
  parseHostPort : string -> result Error string
}.

(** The revision of response.go in package [zabbix]. *)
Definition parseHostPort_contains (addr : string) : result Error string :=
  if negb (strings.Contains addr ":") then Err (InvalidRedirectAddress addr)
  else Ok addr.

(** The revision of response.go in package [zabbix_sender]:
    [parseHostPort] validates and returns a normalized host:port address. *)
Definition parseHostPort_split (addr : string) : result Error string :=
  let addr := normalizeHost addr in
  match net.SplitHostPort addr with
  | Err _ => Err (InvalidRedirectAddress addr)
  | Ok (host, port) =>
      if String.eqb host "" || String.eqb port ""
      then Err (InvalidRedirectAddress addr)
      else Ok addr
  end.

Definition zabbix : Build := {| parseHostPort := parseHostPort_contains |}.

Definition zabbix_sender : Build := {| parseHostPort := parseHostPort_split |}.

(** [NewSender] creates sender for single host. *)
Definition NewSender (host : string) : Sender :=
  {| Hosts := [normalizeHost host];
     PrimaryHost := "";
     MaxRedirects := defaultMaxRedirects;
     UpdateHost := defaultUpdateHost;
     ConnectTimeout := defaultConnectTimeout;
     ReadTimeout := defaultReadTimeout;
     WriteTimeout := defaultWriteTimeout |}.

(** [NewSenderHosts] creates sender for multiple hosts. *)
Definition NewSenderHosts (hosts : list string) : Sender :=
  {| Hosts := map normalizeHost hosts;
     PrimaryHost := "";
     MaxRedirects := defaultMaxRedirects;
     UpdateHost := defaultUpdateHost;
     ConnectTimeout := defaultConnectTimeout;
     ReadTimeout := defaultReadTimeout;
     WriteTimeout := defaultWriteTimeout |}.



(** ** Statistics parser (response.go) *)

(** [strconv.ParseFloat(value, 64)] and the conversion
    [int64(f * 1000000000.0)] work on binary floating point numbers. *)
Class Floats : Type := {
  float64 : Type;
  ParseFloat : string -> result string float64;
  nanoseconds : float64 -> Z
}.

Definition newResponseInfo : ResponseInfo :=
  {| Processed := 0; Failed := 0; Total := 0; Spent := 0 |}.

Definition withProcessed (v : Z) (ret : ResponseInfo) : ResponseInfo :=
  {| Processed := v; Failed := Failed ret; Total := Total ret; Spent := Spent ret |}.

Definition withFailed (v : Z) (ret : ResponseInfo) : ResponseInfo :=
  {| Processed := Processed ret; Failed := v; Total := Total ret; Spent := Spent ret |}.

Definition withTotal (v : Z) (ret : ResponseInfo) : ResponseInfo :=
  {| Processed := Processed ret; Failed := Failed ret; Total := v; Spent := Spent ret |}.

Definition withSpent (v : Z) (ret : ResponseInfo) : ResponseInfo :=
  {| Processed := Processed ret; Failed := Failed ret; Total := Total ret; Spent := v |}.

(** The body of the loop of [GetInfo] over the segments.  The error of
    [strconv.Atoi] is assigned to [err] and not read again; that of
    [strconv.ParseFloat] is returned. *)
Definition GetInfo_segment `{Floats} (ret : ResponseInfo) (segment : string)
  : result Error ResponseInfo :=
  let sp2 := strings.Split segment ":" in
  if negb (Nat.eqb (List.length sp2) 2)
  then Err (SplitTokens (Z.of_nat (List.length sp2)) segment)
  else
    let key := strings.TrimSpace (nth 0 sp2 "") in
    let value := strings.TrimSpace (nth 1 sp2 "") in
    if String.eqb key "processed" then Ok (withProcessed (fst (strconv.Atoi value)) ret)
    else if String.eqb key "failed" then Ok (withFailed (fst (strconv.Atoi value)) ret)
    else if String.eqb key "total" then Ok (withTotal (fst (strconv.Atoi value)) ret)
    else if String.eqb key "seconds spent" then
      match ParseFloat value with
      | Err cause => Err (SecondsSpent value cause)
      | Ok f => Ok (withSpent (nanoseconds f) ret)
      end
    else Ok ret.

Fixpoint GetInfo_segments `{Floats} (sp : list string) (ret : ResponseInfo)
  : result Error ResponseInfo :=
  match sp with
  | [] => Ok ret
  | segment :: rest =>
      match GetInfo_segment ret segment with
      | Err e => Err e
      | Ok ret' => GetInfo_segments rest ret'
      end
  end.

(** [GetInfo] parses success response "info" field into statistics. *)
Definition GetInfo `{Floats} (r : Response) : result Error ResponseInfo :=
  if negb (String.eqb (Response_ r) "success")
  then Err (ResponseNotSuccess (Response_ r))
  else
    let sp := strings.Split (Info r) ";" in
    if negb (Nat.eqb (List.length sp) 4)
    then Err (SplitSegments (Z.of_nat (List.length sp)) (Info r))
    else GetInfo_segments sp newResponseInfo.

(** ** Framing codec (packet.go, sender.go) *)

Class Json : Type := {
  (** [json.Marshal(packet)] *)
  json_Marshal : Packet -> list byte;
  (** [json.Unmarshal(data, &res)] on a zero [res]: what is left in [res],
      and the error *)
  json_Unmarshal : list byte -> Response * option string
}.

(** The conversion [byte(v)]. *)
Definition byteOf (v : Z) : byte :=
  match Byte.of_N (Z.to_N (v mod 256)) with
  | Some b => b
  | None => x00
  end.

Definition valueOf (b : byte) : Z := Z.of_N (Byte.to_N b).

(** The conversion [uint32(n)] of an [int]. *)
Definition uint32 (n : Z) : Z := n mod 2 ^ 32.

Module binary.

(** [binary.LittleEndian.PutUint32(b, v)] on a buffer of four bytes or
    more. *)
Definition PutUint32 (b : list byte) (v : Z) : list byte :=
  byteOf v :: byteOf (Z.shiftr v 8) :: byteOf (Z.shiftr v 16)
  :: byteOf (Z.shiftr v 24) :: skipn 4 b.

(** [binary.LittleEndian.PutUint64(b, v)] on a buffer of eight bytes or
    more. *)
Definition PutUint64 (b : list byte) (v : Z) : list byte :=
  byteOf v :: byteOf (Z.shiftr v 8) :: byteOf (Z.shiftr v 16)
  :: byteOf (Z.shiftr v 24) :: byteOf (Z.shiftr v 32)
  :: byteOf (Z.shiftr v 40) :: byteOf (Z.shiftr v 48)
  :: byteOf (Z.shiftr v 56) :: skipn 8 b.

(** The little-endian value of a run of bytes; on eight bytes it is
    [binary.LittleEndian.Uint64]. *)
Fixpoint Uint (b : list byte) : Z :=
  match b with
  | [] => 0
  | b0 :: rest => valueOf b0 + 256 * Uint rest
  end.

End binary.

(** [getHeader] return zabbix header. *)
Definition getHeader : list byte := [x5a; x42; x58; x44; x01].

(** [DataLen] Packet class method, return 8 bytes with packet length in
    little endian order. *)
Definition DataLen `{Json} (p : Packet) : list byte :=
  let dataLen := repeat x00 8 in
  let JSONData := json_Marshal p in
  binary.PutUint32 dataLen (uint32 (Z.of_nat (List.length JSONData))).

(** The buffer that [sendOnce] fills and writes. *)
Definition requestBuffer `{Json} (packet : Packet) : list byte :=
  let dataPacket := json_Marshal packet in
  let buffer := getHeader ++ DataLen packet in
  buffer ++ dataPacket.

(** The slices [b[:hi]] and [b[lo:]]; [None] stands for the run-time panic
    on an index beyond the length. *)
Definition sliceTo (b : list byte) (hi : nat) : option (list byte) :=
  if Nat.leb hi (List.length b) then Some (firstn hi b) else None.

Definition sliceFrom (b : list byte) (lo : nat) : option (list byte) :=
  if Nat.leb lo (List.length b) then Some (skipn lo b) else None.

Definition bytes_Equal (a b : list byte) : bool :=
  if list_eq_dec Byte.byte_eq_dec a b then true else false.

(** ** The sender and its peer *)

(** What the sender does that an observer can tell apart: a TCP exchange
    (dial [host], write [buffer], read to the end of the stream), the entry
    of a redirect-following drive, and an assignment to [s.PrimaryHost]. *)
Inductive Event : Type :=
| Exchange (host : string) (buffer : list byte)
| Drive (startHost : string)
| StorePrimaryHost (host : string).

(** How one exchange ends for the sender. *)
Inductive Transfer : Type :=
| DialError (cause : string)
| WriteError (cause : string)
| ReadError (cause : string)
| Received (response : list byte).

(** The peer decides each exchange from what happened before it, the
    address dialled and the bytes written (it sees the bytes only once the
    connection stands; a dial or a deadline that fails is its answer
    too). *)
Class Peer : Type := {
  exchange : list Event -> string -> list byte -> Transfer
}.

Record Machine : Type := {
  sender : Sender;
  trace : list Event
}.

(** A method on [*Sender]: it may read and update the machine and may
    panic ([None]). *)
Definition M (A : Type) : Type := Machine -> option (A * Machine).

Definition ret {A : Type} (a : A) : M A := fun m => Some (a, m).

Definition bind {A B : Type} (c : M A) (k : A -> M B) : M B :=
  fun m =>
    match c m with
    | Some (a, m') => k a m'
    | None => None
    end.

Definition panic {A : Type} : M A := fun _ => None.

Notation "x <- c ;; k" := (bind c (fun x => k))
  (at level 61, c at next level, right associativity).
Notation "' pat <- c ;; k" := (bind c (fun x => match x with pat => k end))
  (at level 61, pat pattern, c at next level, right associativity).
Notation "c ;; k" := (bind c (fun _ => k))
  (at level 61, right associativity).

Definition self : M Sender := fun m => Some (sender m, m).

Definition emit (e : Event) : M unit :=
  fun m => Some (tt, {| sender := sender m; trace := trace m ++ [e] |}).

Definition withPrimaryHost (host : string) (s : Sender) : Sender :=
  {| Hosts := Hosts s;
     PrimaryHost := host;
     MaxRedirects := MaxRedirects s;
     UpdateHost := UpdateHost s;
     ConnectTimeout := ConnectTimeout s;
     ReadTimeout := ReadTimeout s;
     WriteTimeout := WriteTimeout s |}.

(** The assignment [s.PrimaryHost = host]. *)
Definition storePrimaryHost (host : string) : M unit :=
  fun m =>
    Some (tt, {| sender := withPrimaryHost host (sender m);
                 trace := trace m ++ [StorePrimaryHost host] |}).

(** Dial, write and read: the peer's answer, and the exchange recorded.
    [net.DialTimeout] turns down an empty address ("missing address")
    without reaching the peer. *)
Definition transfer `{Peer} (host : string) (buffer : list byte) : M Transfer :=
  fun m =>
    Some (if String.eqb host "" then DialError "missing address"
          else exchange (trace m) host buffer,
          {| sender := sender m; trace := trace m ++ [Exchange host buffer] |}).

(** ** Single-attempt transport (sender.go) *)

Definition sendOnce `{Json} `{Peer} (packet : Packet) (host : string)
  : M (Response * option Error) :=
  s <- self;;
  answer <- transfer host (requestBuffer packet);;
  match answer with
  | DialError cause =>
      ret (zeroResponse, Some (ConnectFailed host (ConnectTimeout s) cause))
  | WriteError cause =>
      ret (zeroResponse, Some (WriteFailed host (WriteTimeout s) cause))
  | ReadError cause =>
      ret (zeroResponse, Some (ReadFailed host (ReadTimeout s) cause))
  | Received response =>
      if Nat.ltb (List.length response) 13
      then ret (zeroResponse,
                Some (ResponseTooShort host (Z.of_nat (List.length response))))
      else
        match sliceTo response 5, sliceFrom response 13 with
        | Some header, Some data =>
            if negb (bytes_Equal header getHeader)
            then ret (zeroResponse, Some (InvalidHeader header getHeader))
            else
              match json_Unmarshal data with
              | (res, Some cause) => ret (res, Some (InvalidResponse host cause))
              | (res, None) => ret (res, None)
              end
        | _, _ => panic
        end
  end.

(** ** Redirect-following driver (sender.go) *)

(** The loop of [sendWithRedirects] with [rounds] iterations left; [res]
    is the response of the last attempt. *)
Fixpoint redirectLoop `{Build} `{Json} `{Peer} (rounds : nat) (packet : Packet)
  (startHost currentHost : string) (res : Response)
  : M (Response * option Error) :=
  match rounds with
  | O => ret (res, Some (MaxRedirectsExceeded startHost))
  | S rounds' =>
      '(res, err) <- sendOnce packet currentHost;;
      match err with
      | Some e => ret (res, Some (SendOnceFailed currentHost e))
      | None =>
          if String.eqb (Response_ res) "success" then ret (res, None)
          else
            match Redirect res with
            | None =>
                ret (res, Some (FailedWithoutRedirect currentHost (Response_ res)))
            | Some redirect =>
                if String.eqb (Address redirect) ""
                then ret (res, Some (FailedWithoutRedirect currentHost (Response_ res)))
                else
                  match parseHostPort (Address redirect) with
                  | Err e => ret (res, Some e)
                  | Ok newHost =>
                      redirectLoop rounds' packet startHost newHost res
                  end
            end
      end
  end.

(** [sendWithRedirects]: [redirectCount] runs from 0 to [s.MaxRedirects]
    inclusive, which makes [s.MaxRedirects + 1] iterations (none when
    [s.MaxRedirects] is negative) for every [s.MaxRedirects] below
    [maxInt].  At [maxInt] the counter wraps around before the guard can
    fail; [countedLoop] below is the loop with its counter, and the
    theorems that depend on the limit assume [s.MaxRedirects < maxInt]. *)
Definition sendWithRedirects `{Build} `{Json} `{Peer} (packet : Packet)
  (startHost : string) : M (Response * option Error) :=
  s <- self;;
  emit (Drive startHost);;
  redirectLoop (Z.to_nat (MaxRedirects s + 1)) packet startHost startHost
    zeroResponse.

(** The loop of [sendWithRedirects] as it is written, guard and counter
    included: [redirectCount] is an [int], compared with [s.MaxRedirects]
    before each iteration and incremented, with wrap-around, after it.
    [fuel] bounds the iterations that are run; the result is [None] for a
    loop that is still running when they are used up. *)
Fixpoint countedLoop `{Build} `{Json} `{Peer} (fuel : nat) (packet : Packet)
  (startHost currentHost : string) (redirectCount : Z) (res : Response)
  : M (option (Response * option Error)) :=
  match fuel with
  | O => ret None
  | S fuel' =>
      s <- self;;
      if redirectCount <=? MaxRedirects s then
        '(res, err) <- sendOnce packet currentHost;;
        match err with
        | Some e => ret (Some (res, Some (SendOnceFailed currentHost e)))
        | None =>
            if String.eqb (Response_ res) "success" then ret (Some (res, None))
            else
              match Redirect res with
              | None =>
                  ret (Some (res, Some (FailedWithoutRedirect currentHost
                                          (Response_ res))))
              | Some redirect =>
                  if String.eqb (Address redirect) ""
                  then ret (Some (res, Some (FailedWithoutRedirect currentHost
                                               (Response_ res))))
                  else
                    match parseHostPort (Address redirect) with
                    | Err e => ret (Some (res, Some e))
                    | Ok newHost =>
                        countedLoop fuel' packet startHost newHost
                          (int (redirectCount + 1)) res
                    end
              end
        end
      else ret (Some (res, Some (MaxRedirectsExceeded startHost)))
  end.

(** [sendWithRedirects] over [countedLoop]. *)
Definition sendWithRedirects_counted `{Build} `{Json} `{Peer} (fuel : nat)
  (packet : Packet) (startHost : string)
  : M (option (Response * option Error)) :=
  emit (Drive startHost);;
  countedLoop fuel packet startHost startHost 0 zeroResponse.

(** What a run that returns gives to one that may be cut short. *)
Definition returned {A : Type} (r : option (A * Machine))
  : option (option A * Machine) :=
  match r with
  | Some (a, m) => Some (Some a, m)
  | None => None
  end.

(** ** Host fallback and cache driver (sender.go) *)

(** The loop of [Send] over [s.Hosts], from [hosts] on. *)
Fixpoint fallback `{Build} `{Json} `{Peer} (packet : Packet)
  (hosts : list string) (res : Response) : M (Response * option Error) :=
  match hosts with
  | [] =>
      s <- self;;
      ret (res, Some (AllHostsFailed (Z.of_nat (List.length (Hosts s)))))
  | host :: rest =>
      '(res, err) <- sendWithRedirects packet host;;
      match err with
      | None => storePrimaryHost host;; ret (res, None)
      | Some _ => fallback packet rest res
      end
  end.

(** [Send] sends single packet with redirect/HA handling.  Caches
    working PrimaryHost for future calls. *)
Definition Send `{Build} `{Json} `{Peer} (packet : Packet)
  : M (Response * option Error) :=
  s <- self;;
  if negb (String.eqb (PrimaryHost s) "") then
    '(res, err) <- sendWithRedirects packet (PrimaryHost s);;
    match err with
    | None => ret (res, None)
    | Some _ =>
        storePrimaryHost "";;
        fallback packet (Hosts s) res
    end
  else fallback packet (Hosts s) zeroResponse.

(** ** Registration (sender.go) *)

Definition activeChecks (host hostmetadata : string) : Packet :=
  {| Request := "active checks"; Data := []; Clock := 0; NS := 0;
     Host := host; HostMetadata := hostmetadata |}.

(** [RegisterHost] sends host autoregistration request ("active
    checks").  Retries once as Zabbix requires 2 calls for confirmation. *)
Definition RegisterHost `{Build} `{Json} `{Peer} (host hostmetadata : string)
  : M (option Error) :=
  '(res, err) <- Send (activeChecks host hostmetadata);;
  match err with
  | Some e => ret (Some (SendingPacket e))
  | None =>
      if String.eqb (Response_ res) "success" then ret None
      else
        '(res, err) <- Send (activeChecks host hostmetadata);;
        match err with
        | Some e => ret (Some (SendingPacket e))
        | None =>
            if String.eqb (Response_ res) "failed"
            then ret (Some AutoregistrationFailed)
            else ret None
        end
  end.

(** ** Sample environments

    A model of [json.Marshal] on packets whose strings are ASCII, the mock
    server of the package's tests, and peers that follow a script. *)

Definition quote : ascii := chr 34.

Definition backslash : ascii := chr 92.

Definition hexDigit (n : Z) : ascii :=
  if n <? 10 then chr (48 + n) else chr (87 + n).

(** One byte of a string inside a JSON string literal, as [encoding/json]
    writes it with HTML escaping on (Go 1.22: the short forms for
    backspace and form feed); bytes from 128 on are copied. *)
Definition escapeByte (c : ascii) : string :=
  let n := code c in
  if (n =? 34) || (n =? 92) then String backslash (String c "")
  else if n =? 8 then String backslash "b"
  else if n =? 12 then String backslash "f"
  else if n =? 10 then String backslash "n"
  else if n =? 13 then String backslash "r"
  else if n =? 9 then String backslash "t"
  else if (n <? 32) || (n =? 60) || (n =? 62) || (n =? 38)
  then String backslash
         ("u00" ++ String (hexDigit (n / 16)) (String (hexDigit (n mod 16)) ""))
  else String c "".

Fixpoint escape (s : string) : string :=
  match s with
  | EmptyString => EmptyString
  | String c rest => escapeByte c ++ escape rest
  end.

Definition jsonString (s : string) : string :=
  String quote (escape s ++ String quote "").

Definition jsonKey (name : string) : string := jsonString name ++ ":".

Fixpoint decimalDigits (fuel : nat) (n : Z) (acc : string) : string :=
  match fuel with
  | O => acc
  | S fuel' =>
      let acc' := String (chr (48 + n mod 10)) acc in
      if n <? 10 then acc' else decimalDigits fuel' (n / 10) acc'
  end.

Definition jsonInt (n : Z) : string :=
  if n <? 0 then String "-" (decimalDigits 20 (- n) "")
  else decimalDigits 20 n "".

Definition marshalMetric (m : Metric) : string :=
  "{" ++ jsonKey "host" ++ jsonString (Metric_Host m)
  ++ "," ++ jsonKey "key" ++ jsonString (Key m)
  ++ "," ++ jsonKey "value" ++ jsonString (Value m)
  ++ (if Metric_Clock m =? 0 then ""
      else "," ++ jsonKey "clock" ++ jsonInt (Metric_Clock m))
  ++ (if Metric_NS m =? 0 then "" else "," ++ jsonKey "ns" ++ jsonInt (Metric_NS m))
  ++ "}".

Fixpoint joinComma (items : list string) : string :=
  match items with
  | [] => ""
  | [item] => item
  | item :: rest => item ++ "," ++ joinComma rest
  end.

Definition marshalPacket (p : Packet) : string :=
  "{" ++ jsonKey "request" ++ jsonString (Request p)
  ++ (match Data p with
      | [] => ""
      | data => "," ++ jsonKey "data" ++ "[" ++ joinComma (map marshalMetric data) ++ "]"
      end)
  ++ (if Clock p =? 0 then "" else "," ++ jsonKey "clock" ++ jsonInt (Clock p))
  ++ (if NS p =? 0 then "" else "," ++ jsonKey "ns" ++ jsonInt (NS p))
  ++ (if String.eqb (Host p) "" then "" else "," ++ jsonKey "host" ++ jsonString (Host p))
  ++ (if String.eqb (HostMetadata p) "" then ""
      else "," ++ jsonKey "host_metadata" ++ jsonString (HostMetadata p))
  ++ "}".

(** A JSON text written with apostrophes for its quotation marks. *)
Fixpoint jsonText (s : string) : string :=
  match s with
  | EmptyString => EmptyString
  | String c rest => String (if Ascii.eqb c "'" then quote else c) (jsonText rest)
  end.

Definition redirectTo (address : string) : Response :=
  {| Response_ := "failed"; Info := "";
     Redirect := Some {| Revision := 1; Address := address |} |}.

(** Response bodies and what [json.Unmarshal] makes of them. *)
Definition knownResponses : list (string * Response) :=
  [ (jsonText "{'response':'success'}",
     {| Response_ := "success"; Info := ""; Redirect := None |});
    (jsonText "{'response':'success','info':'processed: 1; failed: 0; total: 1; seconds spent: 0.000030'}",
     {| Response_ := "success";
        Info := "processed: 1; failed: 0; total: 1; seconds spent: 0.000030";
        Redirect := None |});
    (jsonText "{'response':'failed'}",
     {| Response_ := "failed"; Info := ""; Redirect := None |});
    (jsonText "{'response':'failed','info':'host [prueba] not found'}",
     {| Response_ := "failed"; Info := "host [prueba] not found"; Redirect := None |});
    (jsonText "{'response':'failed','redirect':{'revision':1,'address':'b:10051'}}",
     redirectTo "b:10051");
    (jsonText "{'response':'failed','redirect':{'revision':1,'address':'c:10051'}}",
     redirectTo "c:10051");
    (jsonText "{'response':'failed','redirect':{'revision':1,'address':'b:zabbix-trapper'}}",
     redirectTo "b:zabbix-trapper") ].

Fixpoint lookupResponse (table : list (string * Response)) (data : list byte)
  : Response * option string :=
  match table with
  | [] => (zeroResponse, Some "invalid character looking for beginning of value")
  | (text, res) :: rest =>
      if bytes_Equal (list_byte_of_string text) data then (res, None)
      else lookupResponse rest data
  end.

(** [encoding/json] on ASCII packets and on the response bodies above;
    other bodies are reported as undecodable. *)
Definition sampleJson : Json :=
  {| json_Marshal := fun p => list_byte_of_string (marshalPacket p);
     json_Unmarshal := lookupResponse knownResponses |}.

(** [encodeDataLength] of the tests encodes length as 8-byte little
    endian. *)
Definition encodeDataLength (length : Z) : list byte :=
  binary.PutUint64 (repeat x00 8) length.

(** The bytes [writeZabbixResponse] of the tests' mock server writes. *)
Definition writeZabbixResponse (jsonData : string) : list byte :=
  getHeader ++ encodeDataLength (len jsonData) ++ list_byte_of_string jsonData.

Definition answers (jsonData : string) : Transfer :=
  Received (writeZabbixResponse (jsonText jsonData)).

Definition refuses : Transfer := DialError "connection refused".

Definition succeeds : Transfer := answers "{'response':'success'}".

Definition fails : Transfer := answers "{'response':'failed'}".

Definition redirects : Transfer :=
  answers "{'response':'failed','redirect':{'revision':1,'address':'b:10051'}}".


Definition prueba : Packet := activeChecks "prueba" "prueba".

Definition exchanges (t : list Event) : nat :=
  List.length (filter (fun e => match e with Exchange _ _ => true | _ => false end) t).

(** The peer that answers the n-th exchange with the n-th entry of
    [script], and refuses once the script is used up. *)
Definition scripted (script : list Transfer) : Peer :=
  {| exchange := fun t _ _ => nth (exchanges t) script refuses |}.

(** The peer whose answer depends on the address alone. *)
Definition byAddress (answer : string -> Transfer) : Peer :=
  {| exchange := fun _ host _ => answer host |}.

Definition boot (s : Sender) : Machine := {| sender := s; trace := [] |}.

(** A string of [n] letters a. *)
Fixpoint letters (n : nat) : string :=
  match n with
  | O => EmptyString
  | S n' => String "a" (letters n')
  end.

(** The events a call appended to the trace. *)
Definition since (before : Machine) (after : Machine) : list Event :=
  skipn (List.length (trace before)) (trace after).

Fixpoint driveStarts (t : list Event) : list string :=
  match t with
  | [] => []
  | Drive startHost :: rest => startHost :: driveStarts rest
  | _ :: rest => driveStarts rest
  end.

Fixpoint dialled (t : list Event) : list string :=
  match t with
  | [] => []
  | Exchange host _ :: rest => host :: dialled rest
  | _ :: rest => dialled rest
  end.

Fixpoint stores (t : list Event) : list string :=
  match t with
  | [] => []
  | StorePrimaryHost host :: rest => host :: stores rest
  | _ :: rest => stores rest
  end.

(** The machine with the events [t] appended to its trace. *)
Definition extend (m : Machine) (t : list Event) : Machine :=
  {| sender := sender m; trace := trace m ++ t |}.

Definition withUpdateHost (flag : bool) (s : Sender) : Sender :=
  {| Hosts := Hosts s;
     PrimaryHost := PrimaryHost s;
     MaxRedirects := MaxRedirects s;
     UpdateHost := flag;
     ConnectTimeout := ConnectTimeout s;
     ReadTimeout := ReadTimeout s;
     WriteTimeout := WriteTimeout s |}.

(** A chain of [n] redirects met by the attempts from [host] on: each
    attempt is answered by a response that is not a success and carries a
    redirect descriptor with a non-empty address that [parseHostPort]
    accepts; [final] speaks of the address and the machine the chain ends
    at. *)
Fixpoint redirectChain `{Build} `{Json} `{Peer} (n : nat) (packet : Packet)
  (host : string) (m : Machine) (final : string -> Machine -> Prop) : Prop :=
  match n with
  | O => final host m
  | S n' =>
      exists res redirect newHost m',
        sendOnce packet host m = Some ((res, None), m') /\
        Response_ res <> "success" /\
        Redirect res = Some redirect /\
        Address redirect <> "" /\
        parseHostPort (Address redirect) = Ok newHost /\
        redirectChain n' packet newHost m' final
  end.



(** A registration packet whose JSON encoding is 2^32 bytes long. *)
Definition hugePacket : Packet :=
  activeChecks (letters (Z.to_nat 4294967259)) "".

(** The machine after the assignment [s.PrimaryHost = host]. *)
Definition stored (host : string) (m : Machine) : Machine :=
  {| sender := withPrimaryHost host (sender m);
     trace := trace m ++ [StorePrimaryHost host] |}.

(** A dialled address is the one the drive started at or one that
    [parseHostPort] returned. *)
Definition reached `{Build} (start host : string) : Prop :=
  host = start \/ exists addr, parseHostPort addr = Ok host.

(** What the loop over [hosts] does from machine [m]: it appends [t] to
    the trace and ends in [m'] with [res] and [err].  It fails once every
    address has failed, having started one drive per address in order; it
    succeeds at the first address [host], at index [k], whose drive
    succeeds, and stores that address. *)
Definition fallbackOutcome `{Build} `{Json} `{Peer} (packet : Packet)
  (hosts : list string) (m : Machine) (res : Response) (err : option Error)
  (m' : Machine) (t : list Event) : Prop :=
  trace m' = trace m ++ t
  /\ Forall (fun host => exists start, In start hosts /\ reached start host)
       (dialled t)
  /\ match err with
     | Some e =>
         e = AllHostsFailed (Z.of_nat (List.length (Hosts (sender m))))
         /\ sender m' = sender m
         /\ driveStarts t = hosts
         /\ stores t = []
     | None =>
         exists k host pre m2,
           nth_error hosts k = Some host
           /\ driveStarts pre = firstn k hosts
           /\ sendWithRedirects packet host (extend m pre) = Some ((res, None), m2)
           /\ m' = stored host m2
           /\ sender m' = withPrimaryHost host (sender m)
           /\ Response_ res = "success"
           /\ driveStarts t = firstn (S k) hosts
           /\ stores t = [host]
     end.

(** ** Observers, sample senders and tactics for the runs *)

(** Runs the left-hand side of an equation on concrete inputs. *)
Ltac run :=
  match goal with
  | |- ?lhs = _ =>
      let v := eval vm_compute in lhs in
      exact (eq_refl v <: lhs = v)
  end.

Ltac redirected :=
  do 4 eexists;
  split; [run|];
  split; [vm_compute; discriminate|];
  split; [reflexivity|];
  split; [vm_compute; discriminate|];
  split; [reflexivity|].

(** The peer that refuses every connection. *)
Definition nobody : Peer := byAddress (fun _ => refuses).

(** The peer at which only the address [host] accepts. *)
Definition only (host : string) : Peer :=
  byAddress (fun addr => if String.eqb addr host then succeeds else refuses).

(** A sender over one configured address with a cached primary. *)
Definition cachedSender (cached : string) (hosts : list string) : Sender :=
  withPrimaryHost cached (NewSenderHosts hosts).

(** What a caller and an observer see of a run: the value returned, the
    sender left behind and the events of the run. *)
Definition observe {A : Type} (run : M A) (m : Machine)
  : option (A * Sender * list Event) :=
  match run m with
  | Some (a, m') => Some (a, sender m', since m m')
  | None => None
  end.

Definition report {A : Type} (seen : option (A * Sender * list Event))
  : option (A * string * list string * list string) :=
  match seen with
  | Some (a, s, t) => Some (a, PrimaryHost s, driveStarts t, stores t)
  | None => None
  end.

Definition abc : list string := ["a:10051"; "b:10051"; "c:10051"].

(** The machine with the flag [UpdateHost] set to [flag]. *)
Definition flagged (flag : bool) (m : Machine) : Machine :=
  {| sender := withUpdateHost flag (sender m); trace := trace m |}.

Definition flaggedRun {A : Type} (flag : bool) (r : option (A * Machine))
  : option (A * Machine) :=
  match r with
  | Some (a, m') => Some (a, flagged flag m')
  | None => None
  end.

(** The value returned and the addresses dialled. *)
Definition dials {A : Type} (seen : option (A * Sender * list Event))
  : option (A * list string) :=
  match seen with
  | Some (a, _, t) => Some (a, dialled t)
  | None => None
  end.

(** ** Metrics, packets and batches (zabbix_sender.go, packet.go, sender.go) *)

(** A [time.Time], as far as the package reads it. *)
Record Time : Type := {
  Unix : Z;
  Nanosecond : Z
}.

(** [NewMetric] creates a Zabbix metric; [t] optionally sets custom
    timestamp (the variadic argument, of which the first entry counts). *)
Definition NewMetric (host key value : string) (agentActive : bool)
  (t : list Time) : Metric :=
  match t with
  | [] =>
      {| Metric_Host := host; Key := key; Value := value;
         Metric_Clock := 0; Metric_NS := 0; Active := agentActive |}
  | t0 :: _ =>
      {| Metric_Host := host; Key := key; Value := value;
         Metric_Clock := Unix t0; Metric_NS := Nanosecond t0;
         Active := agentActive |}
  end.

(** [NewPacket] return a zabbix packet with a list of metrics. *)
Definition NewPacket (data : list Metric) (agentActive : bool) (t : list Time)
  : Packet :=
  let request := if agentActive then "agent data" else "sender data" in
  match t with
  | [] =>
      {| Request := request; Data := data; Clock := 0; NS := 0;
         Host := ""; HostMetadata := "" |}
  | t0 :: _ =>
      {| Request := request; Data := data; Clock := Unix t0;
         NS := Nanosecond t0; Host := ""; HostMetadata := "" |}
  end.

(** The first loop of [SendMetrics] over a batch of [*Metric], a nil
    pointer being [None]: [metrics[i].Active] panics on it. *)
Fixpoint separate (metrics : list (option Metric))
  (trapperMetrics activeMetrics : list Metric)
  : option (list Metric * list Metric) :=
  match metrics with
  | [] => Some (trapperMetrics, activeMetrics)
  | None :: _ => None
  | Some metric :: rest =>
      if Active metric
      then separate rest trapperMetrics (activeMetrics ++ [metric])
      else separate rest (trapperMetrics ++ [metric]) activeMetrics
  end.

(** [SendMetrics] sends mixed active+trapper metrics.  Automatically
    separates into "agent data" and "sender data" packets.  The result is
    the pair (resActive, errActive) and the pair (resTrapper,
    errTrapper). *)
Definition SendMetrics `{Build} `{Json} `{Peer} (metrics : list (option Metric))
  : M ((Response * option Error) * (Response * option Error)) :=
  match separate metrics [] [] with
  | None => panic
  | Some (trapperMetrics, activeMetrics) =>
      trapper <- (if Nat.ltb 0 (List.length trapperMetrics)
                  then Send (NewPacket trapperMetrics false [])
                  else ret (zeroResponse, None));;
      active <- (if Nat.ltb 0 (List.length activeMetrics)
                 then Send (NewPacket activeMetrics true [])
                 else ret (zeroResponse, None));;
      ret (active, trapper)
  end.

(** ** The mock server of the tests *)

Record ZabbixRequestData : Type := {
  Data_Host : string;
  Data_Key : string;
  Data_Value : string;
  Data_Clock : Z;
  Data_NS : Z
}.

Record ZabbixRequest : Type := {
  Request_Request : string;
  Request_Data : list ZabbixRequestData;
  Request_Clock : Z;
  Request_NS : Z;
  Request_Host : string;
  Request_HostMetadata : string
}.

(** [json.Unmarshal(content, &request)] into a [ZabbixRequest]. *)
Class RequestJson : Type := {
  unmarshalRequest : list byte -> result string ZabbixRequest
}.

Module io.

Inductive ReadError : Type :=
| EOF
| ErrUnexpectedEOF.

(** [io.ReadFull(conn, buf)] for a buffer of [n] bytes, on a connection
    that delivers [stream] and is closed after it: the bytes read or the
    error, and what is left of the stream. *)
Definition ReadFull (n : nat) (stream : list byte)
  : result ReadError (list byte) * list byte :=
  if Nat.leb n (List.length stream)
  then (Ok (firstn n stream), skipn n stream)
  else (Err (match stream with [] => EOF | _ => ErrUnexpectedEOF end), []).

End io.

Inductive MockError : Type :=
| ReadHeader (cause : io.ReadError)
| ReadDataLength (cause : io.ReadError)
| ReadContent (cause : io.ReadError)
| UnmarshalRequest (cause : string).

(** [readZabbixRequest] reads and parses a Zabbix protocol request (for
    a data length that [make] can allocate); it returns the request or the
    error, and what is left of the stream. *)
Definition readZabbixRequest `{RequestJson} (conn : list byte)
  : result MockError ZabbixRequest * list byte :=
  match io.ReadFull 5 conn with
  | (Err e, conn) => (Err (ReadHeader e), conn)
  | (Ok header, conn) =>
      match io.ReadFull 8 conn with
      | (Err e, conn) => (Err (ReadDataLength e), conn)
      | (Ok dataLengthRaw, conn) =>
          let dataLength := binary.Uint dataLengthRaw in
          match io.ReadFull (Z.to_nat dataLength) conn with
          | (Err e, conn) => (Err (ReadContent e), conn)
          | (Ok content, conn) =>
              match unmarshalRequest content with
              | Err cause => (Err (UnmarshalRequest cause), conn)
              | Ok request => (Ok request, conn)
              end
          end
      end
  end.

(** The buffers written in the exchanges of a trace. *)
Fixpoint buffers (t : list Event) : list (list byte) :=
  match t with
  | [] => []
  | Exchange _ buffer :: rest => buffer :: buffers rest
  | _ :: rest => buffers rest
  end.

(** The kinds of error a single attempt ends with. *)
Definition transportKind (k : ErrorKind) : Prop :=
  k = ConnectError \/ k = IOError \/ k = ProtocolError.

(** The kinds of error a redirect-following drive ends with. *)
Definition driveKind (k : ErrorKind) : Prop :=
  transportKind k \/ k = RejectedError \/ k = InvalidRedirectError
  \/ k = RedirectLimitExceeded.

(** The number of iterations of the loop of [sendWithRedirects]. *)
Definition iterations (s : Sender) : nat := Z.to_nat (MaxRedirects s + 1).

(** A segment of an info string that [GetInfo] gets past: two tokens,
    and a value that [strconv.ParseFloat] takes if the key is "seconds
    spent". *)
Definition segmentAccepted `{Floats} (segment : string) : Prop :=
  let sp2 := strings.Split segment ":" in
  List.length sp2 = 2%nat
  /\ (strings.TrimSpace (nth 0 sp2 "") = "seconds spent" ->
      exists f, ParseFloat (strings.TrimSpace (nth 1 sp2 "")) = Ok f).

(** ** Further samples *)

(** [json.Unmarshal] of the mock server on the registration request of
    the examples; other contents are reported as undecodable. *)
Definition sampleRequestJson : RequestJson :=
  {| unmarshalRequest := fun content =>
       if bytes_Equal content (@json_Marshal sampleJson prueba)
       then Ok {| Request_Request := "active checks"; Request_Data := [];
                  Request_Clock := 0; Request_NS := 0;
                  Request_Host := "prueba"; Request_HostMetadata := "prueba" |}
       else Err "invalid character looking for beginning of value" |}.

(** The number of the examples, held as the nanoseconds it converts to;
    other texts are reported as no numbers. *)
Definition sampleFloats : Floats :=
  {| float64 := Z;
     ParseFloat := fun value =>
       if String.eqb value "0.000030" then Ok 30000 else Err "invalid syntax";
     nanoseconds := fun f => f |}.

Definition ping : Metric := NewMetric "zabbixAgent1" "ping" "13" true [].

Definition pong : Metric := NewMetric "zabbixTrapper1" "pong" "13" false [].

Definition withMaxRedirects (limit : Z) (s : Sender) : Sender :=
  {| Hosts := Hosts s;
     PrimaryHost := PrimaryHost s;
     MaxRedirects := limit;
     UpdateHost := UpdateHost s;
     ConnectTimeout := ConnectTimeout s;
     ReadTimeout := ReadTimeout s;
     WriteTimeout := WriteTimeout s |}.

(** ** The walk of a send over the address list *)

(** The drives from the addresses [hosts], started one after the other
    from machine [m], all fail; [res'] is the response of the last one
    ([res] when there is none) and [m'] the machine it leaves. *)
Fixpoint failedDrives `{Build} `{Json} `{Peer} (packet : Packet)
  (hosts : list string) (res : Response) (m : Machine) (res' : Response)
  (m' : Machine) : Prop :=
  match hosts with
  | [] => res' = res /\ m' = m
  | host :: rest =>
      exists res1 e1 m1,
        sendWithRedirects packet host m = Some ((res1, Some e1), m1)
        /\ failedDrives packet rest res1 m1 res' m'
  end.

(** Where a send that goes to the address list starts on it.  Without a
    cached address ([cleared] is [false]) that is the machine [m] the send
    starts from, with the zero response; with a cached address whose drive
    fails ([cleared] is [true]) it is the machine that drive leaves, once
    the cache has been cleared, with the response of that drive. *)
Definition listStart `{Build} `{Json} `{Peer} (packet : Packet) (m : Machine)
  (cleared : bool) (res0 : Response) (m0 : Machine) : Prop :=
  if cleared
  then PrimaryHost (sender m) <> ""
       /\ exists e1 m1,
            sendWithRedirects packet (PrimaryHost (sender m)) m
            = Some ((res0, Some e1), m1)
            /\ m0 = stored "" m1
  else PrimaryHost (sender m) = "" /\ res0 = zeroResponse /\ m0 = m.

(** The assignments a send makes before it goes to the address list. *)
Definition clearing (cleared : bool) : list string :=
  if cleared then [""] else [].

(** ** The info string of a server *)

(** The number of digits [decimalDigits] writes. *)
Fixpoint width (fuel : nat) (n : Z) : Z :=
  match fuel with
  | O => 0
  | S fuel' => if n <? 10 then 1 else 1 + width fuel' (n / 10)
  end.

(** A counter of the info string as the server prints it: a signed
    integer in decimal. *)
Definition counter (n : Z) : string := jsonInt n.

(** The info string of a processed request. *)
Definition infoOf (processed failed total : Z) (seconds : string) : string :=
  "processed: " ++ counter processed ++ "; failed: " ++ counter failed
  ++ "; total: " ++ counter total ++ "; seconds spent: " ++ seconds.

Fixpoint every (P : ascii -> Prop) (s : string) : Prop :=
  match s with
  | EmptyString => True
  | String c rest => P c /\ every P rest
  end.

(** A decimal digit, and a byte of a counter. *)
Definition figure (c : ascii) : Prop := 48 <= code c <= 57.

Definition numeral (c : ascii) : Prop := code c = 45 \/ figure c.

(** * Properties *)

(** ** Strings and bytes *)

Lemma length_append (a b : string) :
  String.length (a ++ b) = (String.length a + String.length b)%nat.
Proof.
  induction a as [|c a IH]; simpl; [reflexivity | now rewrite IH].
Qed.

Lemma append_assoc (a b c : string) :
  ((a ++ b) ++ c)%string = (a ++ b ++ c)%string.
Proof.
  induction a as [|x a IH]; simpl; [reflexivity | now rewrite IH].
Qed.

Lemma length_list_byte_of_string (s : string) :
  List.length (list_byte_of_string s) = String.length s.
Proof.
  unfold list_byte_of_string. rewrite length_map.
  induction s as [|c s IH]; simpl; [reflexivity | now rewrite IH].
Qed.

Lemma length_letters (n : nat) : String.length (letters n) = n.
Proof.
  induction n as [|n IH]; simpl; [reflexivity | now rewrite IH].
Qed.

Lemma escape_letters (n : nat) : escape (letters n) = letters n.
Proof.
  induction n as [|n IH]; simpl; [reflexivity | now rewrite IH].
Qed.

Lemma valueOf_byteOf (v : Z) : valueOf (byteOf v) = v mod 256.
Proof.
  unfold valueOf, byteOf.
  assert (Hr : 0 <= v mod 256 < 256) by (apply Z.mod_pos_bound; lia).
  destruct (Byte.of_N (Z.to_N (v mod 256))) as [b|] eqn:E.
  - apply Byte.to_of_N in E. rewrite E. lia.
  - apply Byte.of_N_None_iff in E. lia.
Qed.

Lemma Uint_PutUint32_zero (v : Z) :
  0 <= v < 2 ^ 32 ->
  binary.Uint (binary.PutUint32 (repeat x00 8) v) = v.
Proof.
  intros Hv. unfold binary.PutUint32. cbn [repeat skipn binary.Uint].
  rewrite !valueOf_byteOf, !Z.shiftr_div_pow2 by lia.
  change (valueOf x00) with 0.
  change (2 ^ 8) with 256. change (2 ^ 16) with (256 * 256).
  change (2 ^ 24) with (256 * 256 * 256).
  change (2 ^ 32) with (256 * 256 * 256 * 256) in Hv.
  rewrite <- !Z.div_div by lia.
  pose proof (Z.div_mod v 256 ltac:(lia)) as E0.
  pose proof (Z.div_mod (v / 256) 256 ltac:(lia)) as E1.
  pose proof (Z.div_mod (v / 256 / 256) 256 ltac:(lia)) as E2.
  pose proof (Z.mod_pos_bound v 256 ltac:(lia)).
  pose proof (Z.mod_pos_bound (v / 256) 256 ltac:(lia)).
  pose proof (Z.mod_pos_bound (v / 256 / 256) 256 ltac:(lia)).
  assert (0 <= v / 256 / 256 / 256 < 256).
  { split.
    - repeat apply Z.div_pos; lia.
    - repeat (apply Z.div_lt_upper_bound; [lia|]). lia. }
  rewrite (Z.mod_small (v / 256 / 256 / 256) 256) by lia.
  lia.
Qed.

(** ** Framing codec *)

Section Framing.

Context `{Json}.

Lemma length_DataLen (p : Packet) : List.length (DataLen p) = 8%nat.
Proof. reflexivity. Qed.

(** X20: for every packet whose JSON encoding is shorter than 2^32 bytes,
    the buffer written is the 5 constant bytes "ZBXD" and 0x01, then 8
    bytes holding the byte length of the JSON encoding as a little-endian
    unsigned integer, then the JSON encoding itself. *)
Theorem requestBuffer_layout (p : Packet) :
  Z.of_nat (List.length (json_Marshal p)) < 2 ^ 32 ->
  requestBuffer p
    = (list_byte_of_string "ZBXD" ++ [x01]) ++ DataLen p ++ json_Marshal p
  /\ List.length (DataLen p) = 8%nat
  /\ binary.Uint (DataLen p) = Z.of_nat (List.length (json_Marshal p)).
Proof.
  intros Hlen. split; [|split].
  - unfold requestBuffer. now rewrite <- app_assoc.
  - apply length_DataLen.
  - unfold DataLen, uint32.
    rewrite Z.mod_small by lia.
    apply Uint_PutUint32_zero. lia.
Qed.

End Framing.

Lemma marshalPacket_letters (n : nat) :
  n <> O ->
  marshalPacket (activeChecks (letters n) "")
  = (jsonText "{'request':'active checks','host':'" ++ letters n
     ++ jsonText "'}")%string.
Proof.
  intros Hn. destruct n as [|n]; [congruence|].
  unfold marshalPacket, activeChecks, jsonString, jsonKey.
  cbn [Request Data Clock NS Host HostMetadata].
  rewrite escape_letters.
  generalize (letters (S n)) (eq_refl : String.eqb (letters (S n)) "" = false).
  intros host ->. cbn. now rewrite append_assoc.
Qed.

Lemma length_marshalPacket_letters (n : nat) :
  n <> O ->
  Z.of_nat (List.length (@json_Marshal sampleJson (activeChecks (letters n) "")))
  = 37 + Z.of_nat n.
Proof.
  intros Hn. cbn [json_Marshal sampleJson].
  rewrite length_list_byte_of_string, marshalPacket_letters by assumption.
  rewrite !length_append, length_letters.
  change (String.length (jsonText "{'request':'active checks','host':'")) with 35%nat.
  change (String.length (jsonText "'}")) with 2%nat.
  lia.
Qed.

(** C9 (the code at the failing input): the JSON encoding of
    [hugePacket] is 2^32 bytes long; the 8 length bytes that [DataLen]
    returns for it are all zero, so the buffer written is the header, 8
    zero bytes and the 2^32 bytes of the encoding, and the length field
    does not hold the length of the encoding. *)
Theorem DataLen_wraps_at_4GiB :
  Z.of_nat (List.length (@json_Marshal sampleJson hugePacket)) = 2 ^ 32
  /\ @DataLen sampleJson hugePacket = repeat x00 8
  /\ @requestBuffer sampleJson hugePacket
     = (list_byte_of_string "ZBXD" ++ [x01]) ++ repeat x00 8
       ++ @json_Marshal sampleJson hugePacket
  /\ binary.Uint (@DataLen sampleJson hugePacket)
     <> Z.of_nat (List.length (@json_Marshal sampleJson hugePacket)).
Proof.
  assert (Hlen : Z.of_nat (List.length (@json_Marshal sampleJson hugePacket))
                 = 4294967296).
  { unfold hugePacket.
    generalize (Z2Nat.id 4294967259 ltac:(lia)).
    generalize (Z.to_nat 4294967259). intros n Hn.
    rewrite length_marshalPacket_letters by lia. lia. }
  assert (Hzero : @DataLen sampleJson hugePacket = repeat x00 8).
  { unfold DataLen. rewrite Hlen. reflexivity. }
  split; [exact Hlen|]. split; [exact Hzero|]. split.
  - unfold requestBuffer. rewrite Hzero. now rewrite <- app_assoc.
  - rewrite Hzero, Hlen. discriminate.
Qed.

(** X20 (witness): the buffer written for a registration packet. *)
Lemma requestBuffer_layout_witness :
  Z.of_nat (List.length (@json_Marshal sampleJson (activeChecks "prueba" "prueba")))
    < 2 ^ 32
  /\ @requestBuffer sampleJson (activeChecks "prueba" "prueba")
     = (list_byte_of_string "ZBXD" ++ [x01])
       ++ @DataLen sampleJson (activeChecks "prueba" "prueba")
       ++ @json_Marshal sampleJson (activeChecks "prueba" "prueba")
  /\ List.length (@DataLen sampleJson (activeChecks "prueba" "prueba")) = 8%nat
  /\ binary.Uint (@DataLen sampleJson (activeChecks "prueba" "prueba"))
     = Z.of_nat (List.length (@json_Marshal sampleJson (activeChecks "prueba" "prueba"))).
Proof.
  split.
  - vm_compute. reflexivity.
  - apply (@requestBuffer_layout sampleJson (activeChecks "prueba" "prueba")).
    vm_compute. reflexivity.
Defined.

(** ** Single-attempt transport *)

Section Transport.

Context `{Json} `{Peer}.

(** One attempt never panics: it returns a response and an error value,
    leaves the sender as it is and records one exchange. *)
Lemma sendOnce_effect (packet : Packet) (host : string) (m : Machine) :
  exists res err,
    sendOnce packet host m
    = Some ((res, err), extend m [Exchange host (requestBuffer packet)]).
Proof.
  unfold sendOnce, bind, self, transfer, ret, extend. cbn [sender trace].
  set (buffer := requestBuffer packet).
  destruct (if String.eqb host "" then DialError "missing address"
            else exchange (trace m) host buffer)
    as [cause|cause|cause|response]; try (do 2 eexists; reflexivity).
  destruct (Nat.ltb_spec (List.length response) 13);
    [do 2 eexists; reflexivity|].
  unfold sliceTo, sliceFrom.
  destruct (Nat.leb_spec 5 (List.length response)); [|lia].
  destruct (Nat.leb_spec 13 (List.length response)); [|lia].
  destruct (bytes_Equal (firstn 5 response) getHeader); cbn [negb];
    [|do 2 eexists; reflexivity].
  destruct (json_Unmarshal (skipn 13 response)) as [res [cause|]];
    do 2 eexists; reflexivity.
Qed.

(** An attempt at the empty address fails. *)
Lemma sendOnce_missing_address (packet : Packet) (m : Machine) :
  exists e m',
    sendOnce packet "" m = Some ((zeroResponse, Some e), m').
Proof. do 2 eexists. reflexivity. Qed.

(** C10: when the bytes received are fewer than 13, or are at least 13
    and do not start with the 5 bytes of the header, the attempt returns
    (it does not panic) with an error of kind ProtocolError. *)
Theorem sendOnce_malformed (packet : Packet) (host : string) (m m' : Machine)
  (response : list byte) :
  transfer host (requestBuffer packet) m = Some (Received response, m') ->
  (List.length response < 13)%nat
  \/ ((13 <= List.length response)%nat /\ firstn 5 response <> getHeader) ->
  exists e,
    sendOnce packet host m = Some ((zeroResponse, Some e), m')
    /\ kind e = ProtocolError.
Proof.
  intros Hrecv Hbad.
  unfold sendOnce, bind, self. cbn [sender]. rewrite Hrecv.
  destruct Hbad as [Hshort | [Hlong Hhead]].
  - destruct (Nat.ltb_spec (List.length response) 13); [|lia].
    eexists. split; reflexivity.
  - destruct (Nat.ltb_spec (List.length response) 13); [lia|].
    unfold sliceTo, sliceFrom.
    destruct (Nat.leb_spec 5 (List.length response)); [|lia].
    destruct (Nat.leb_spec 13 (List.length response)); [|lia].
    unfold bytes_Equal.
    destruct (list_eq_dec Byte.byte_eq_dec (firstn 5 response) getHeader);
      [contradiction|].
    cbn [negb]. eexists. split; reflexivity.
Qed.

End Transport.

(** C10 (witness): a response of 3 bytes, and the response of the test
    [TestInvalidResponseHeader], which starts with "BXD". *)
Lemma sendOnce_malformed_witness :
  (exists e,
     @sendOnce sampleJson (scripted [Received [x5a; x42; x58]])
       prueba "a:10051" (boot (NewSender "a"))
     = Some ((zeroResponse, Some e),
             extend (boot (NewSender "a"))
               [Exchange "a:10051" (@requestBuffer sampleJson prueba)])
     /\ kind e = ProtocolError)
  /\ (exists e,
     @sendOnce sampleJson
       (scripted [Received (list_byte_of_string "BXD" ++ [x01] ++ repeat x00 8
                            ++ list_byte_of_string (jsonText "{'response':'success'}"))])
       prueba "a:10051" (boot (NewSender "a"))
     = Some ((zeroResponse, Some e),
             extend (boot (NewSender "a"))
               [Exchange "a:10051" (@requestBuffer sampleJson prueba)])
     /\ kind e = ProtocolError).
Proof.
  split.
  - apply (@sendOnce_malformed sampleJson (scripted [Received [x5a; x42; x58]])
             prueba "a:10051" (boot (NewSender "a")) _ [x5a; x42; x58]).
    + reflexivity.
    + left. vm_compute. lia.
  - eapply (@sendOnce_malformed sampleJson _ prueba "a:10051" (boot (NewSender "a"))).
    + reflexivity.
    + right. split.
      * vm_compute. lia.
      * vm_compute. discriminate.
Defined.

(** ** Statistics parser *)

Section Statistics.

Context `{Floats}.

(** The integer fields take the value [strconv.Atoi] returns and drop its
    error. *)
Lemma GetInfo_segment_integer (ret : ResponseInfo) (segment key value : string) :
  strings.Split segment ":" = [key; value] ->
  strings.TrimSpace key = "processed" ->
  GetInfo_segment ret segment
  = Ok (withProcessed (fst (strconv.Atoi (strings.TrimSpace value))) ret).
Proof.
  intros Hsplit Hkey. unfold GetInfo_segment.
  rewrite Hsplit. cbn [List.length Nat.eqb negb nth]. rewrite Hkey.
  reflexivity.
Qed.

(** The errors of [GetInfo]: a status that is not "success", a wrong
    number of segments or of tokens, and a value of "seconds spent" that
    [strconv.ParseFloat] turns down.  No error comes from an integer
    field. *)
Lemma GetInfo_errors (r : Response) (e : Error) :
  GetInfo r = Err e ->
  e = ResponseNotSuccess (Response_ r)
  \/ (exists n, e = SplitSegments n (Info r))
  \/ (exists n segment, e = SplitTokens n segment)
  \/ (exists value cause, e = SecondsSpent value cause /\ ParseFloat value = Err cause).
Proof.
  unfold GetInfo.
  destruct (negb (String.eqb (Response_ r) "success")); [intros [= <-]; now left|].
  destruct (negb (Nat.eqb (List.length (strings.Split (Info r) ";")) 4));
    [intros [= <-]; right; left; now eexists|].
  generalize newResponseInfo.
  induction (strings.Split (Info r) ";") as [|segment rest IH]; intros ret;
    cbn [GetInfo_segments]; [discriminate|].
  destruct (GetInfo_segment ret segment) as [ret'|e'] eqn:Hsegment; [apply IH|].
  intros [= <-]. right. right. revert Hsegment. unfold GetInfo_segment.
  destruct (negb (Nat.eqb (List.length (strings.Split segment ":")) 2));
    [intros [= <-]; left; now do 2 eexists|].
  repeat match goal with
         | |- context [if String.eqb ?a ?b then _ else _] =>
             destruct (String.eqb a b); [discriminate|]
         end.
  destruct (String.eqb (strings.TrimSpace (nth 0 (strings.Split segment ":") ""))
              "seconds spent"); [|discriminate].
  destruct (ParseFloat (strings.TrimSpace (nth 1 (strings.Split segment ":") "")))
    as [f|cause] eqn:Hfloat; [discriminate|].
  intros [= <-]. right. now do 2 eexists.
Qed.

(** C4 (the code at the failing input): the value of "processed" is not
    an integer, and [GetInfo] returns statistics with [Processed] at 0
    whenever the value of "seconds spent" parses; its only error here is
    that of [strconv.ParseFloat]. *)
Theorem GetInfo_bad_integer :
  strconv.Atoi "abc" = (0, Some strconv.ErrSyntax)
  /\ GetInfo {| Response_ := "success";
                Info := "processed: abc; failed: 0; total: 1; seconds spent: 0.000030";
                Redirect := None |}
     = match ParseFloat "0.000030" with
       | Ok f =>
           Ok {| Processed := 0; Failed := 0; Total := 1; Spent := nanoseconds f |}
       | Err cause => Err (SecondsSpent "0.000030" cause)
       end.
Proof.
  split; [reflexivity|].
  unfold GetInfo. cbn [Response_ Info].
  change (strings.Split
            "processed: abc; failed: 0; total: 1; seconds spent: 0.000030" ";")
    with ["processed: abc"; " failed: 0"; " total: 1"; " seconds spent: 0.000030"].
  cbn [String.eqb Ascii.eqb Bool.eqb negb List.length Nat.eqb GetInfo_segments].
  unfold GetInfo_segment.
  change (strings.Split "processed: abc" ":") with ["processed"; " abc"].
  change (strings.Split " failed: 0" ":") with [" failed"; " 0"].
  change (strings.Split " total: 1" ":") with [" total"; " 1"].
  change (strings.Split " seconds spent: 0.000030" ":")
    with [" seconds spent"; " 0.000030"].
  cbn [List.length Nat.eqb negb nth].
  change (strings.TrimSpace "processed") with "processed".
  change (strings.TrimSpace " abc") with "abc".
  change (strings.TrimSpace " failed") with "failed".
  change (strings.TrimSpace " 0") with "0".
  change (strings.TrimSpace " total") with "total".
  change (strings.TrimSpace " 1") with "1".
  change (strings.TrimSpace " seconds spent") with "seconds spent".
  change (strings.TrimSpace " 0.000030") with "0.000030".
  cbn [String.eqb Ascii.eqb Bool.eqb].
  change (strconv.Atoi "abc") with (0, Some strconv.ErrSyntax).
  change (strconv.Atoi "0") with (0, @None strconv.NumError).
  change (strconv.Atoi "1") with (1, @None strconv.NumError).
  cbn [fst]. destruct (ParseFloat "0.000030"); reflexivity.
Qed.

End Statistics.

(** ** Redirect-following driver *)

Lemma extend_nil (m : Machine) : extend m [] = m.
Proof. destruct m. unfold extend. cbn. now rewrite app_nil_r. Qed.

Lemma extend_extend (m : Machine) (t1 t2 : list Event) :
  extend (extend m t1) t2 = extend m (t1 ++ t2).
Proof. unfold extend. cbn. now rewrite app_assoc. Qed.

Lemma driveStarts_app (t1 t2 : list Event) :
  driveStarts (t1 ++ t2) = driveStarts t1 ++ driveStarts t2.
Proof.
  induction t1 as [|[host buffer|startHost|host] t1 IH]; cbn;
    [reflexivity | assumption | now rewrite IH | assumption].
Qed.

Lemma stores_app (t1 t2 : list Event) :
  stores (t1 ++ t2) = stores t1 ++ stores t2.
Proof.
  induction t1 as [|[host buffer|startHost|host] t1 IH]; cbn;
    [reflexivity | assumption | assumption | now rewrite IH].
Qed.

Lemma dialled_app (t1 t2 : list Event) :
  dialled (t1 ++ t2) = dialled t1 ++ dialled t2.
Proof.
  induction t1 as [|[host buffer|startHost|host] t1 IH]; cbn;
    [reflexivity | now rewrite IH | assumption | assumption].
Qed.

Section Redirects.

Context `{Build} `{Json} `{Peer}.

Lemma redirectLoop_effect (rounds : nat) (packet : Packet)
  (startHost currentHost : string) (res0 : Response) (m : Machine) :
  exists res err t,
    redirectLoop rounds packet startHost currentHost res0 m
    = Some ((res, err), extend m t)
    /\ driveStarts t = [] /\ stores t = []
    /\ (err = None ->
        Response_ res = "success" /\ rounds <> O /\ currentHost <> "")
    /\ (rounds <> O ->
        exists rest, t = Exchange currentHost (requestBuffer packet) :: rest)
    /\ Forall (reached currentHost) (dialled t).
Proof.
  revert currentHost res0 m.
  induction rounds as [|rounds IH]; intros currentHost res0 m.
  - exists res0, (Some (MaxRedirectsExceeded startHost)), [].
    cbn [redirectLoop]. unfold ret. rewrite extend_nil.
    repeat split; try reflexivity; try discriminate; try congruence.
    constructor.
  - cbn [redirectLoop]. unfold bind at 1.
    destruct (sendOnce_effect packet currentHost m) as (res & err & Honce).
    rewrite Honce.
    set (e := Exchange currentHost (requestBuffer packet)).
    assert (Hone : forall (res' : Response) (err' : option Error),
               (err' = None -> Response_ res' = "success" /\ currentHost <> "") ->
               exists res1 err1 t,
                 Some ((res', err'), extend m [e]) = Some ((res1, err1), extend m t)
                 /\ driveStarts t = [] /\ stores t = []
                 /\ (err1 = None ->
                     Response_ res1 = "success" /\ S rounds <> O /\ currentHost <> "")
                 /\ (S rounds <> O -> exists rest, t = e :: rest)
                 /\ Forall (reached currentHost) (dialled t)).
    { intros res' err' Hok. exists res', err', [e].
      split; [reflexivity|]. split; [reflexivity|]. split; [reflexivity|].
      split; [|split].
      - intros Hnone. destruct (Hok Hnone). repeat split; assumption || discriminate.
      - intros _. now exists [].
      - cbn. constructor; [now left | constructor]. }
    destruct err as [failure|]; [apply Hone; discriminate|].
    assert (Hhost : currentHost <> "").
    { intros ->. destruct (sendOnce_missing_address packet m) as (e0 & m0 & Hmiss).
      rewrite Hmiss in Honce. discriminate. }
    destruct (String.eqb (Response_ res) "success") eqn:Hstatus.
    { apply Hone. intros _. split; [now apply String.eqb_eq | exact Hhost]. }
    destruct (Redirect res) as [redirect|]; [|apply Hone; discriminate].
    destruct (String.eqb (Address redirect) ""); [apply Hone; discriminate|].
    destruct (parseHostPort (Address redirect)) as [newHost|failure] eqn:Hparse;
      [|apply Hone; discriminate].
    destruct (IH newHost res (extend m [e]))
      as (res1 & err1 & t & Hrun & Hd & Hs & Hok & _ & Hdial).
    exists res1, err1, (e :: t). rewrite Hrun, extend_extend.
    split; [reflexivity|]. split; [exact Hd|]. split; [exact Hs|].
    split; [|split].
    + intros Hnone. destruct (Hok Hnone) as (Hsucc & _).
      repeat split; assumption || discriminate.
    + intros _. now exists t.
    + cbn. constructor; [now left|].
      eapply Forall_impl; [|exact Hdial].
      intros host [-> | Hp]; right; [now exists (Address redirect) | exact Hp].
Qed.

(** A drive never panics; it leaves the sender as it is, starts no other
    drive and assigns nothing; it returns without error only with the
    status "success", and then [MaxRedirects] is not negative and the
    starting address is not empty. *)
Lemma sendWithRedirects_effect (packet : Packet) (startHost : string)
  (m : Machine) :
  exists res err t,
    sendWithRedirects packet startHost m
    = Some ((res, err), extend m (Drive startHost :: t))
    /\ driveStarts t = [] /\ stores t = []
    /\ (err = None ->
        Response_ res = "success"
        /\ 0 <= MaxRedirects (sender m) /\ startHost <> "")
    /\ (0 <= MaxRedirects (sender m) ->
        exists rest, t = Exchange startHost (requestBuffer packet) :: rest)
    /\ Forall (reached startHost) (dialled t).
Proof.
  unfold sendWithRedirects, bind, self, emit. cbn [sender trace].
  change {| sender := sender m; trace := trace m ++ [Drive startHost] |}
    with (extend m [Drive startHost]).
  destruct (redirectLoop_effect (Z.to_nat (MaxRedirects (sender m) + 1)) packet
              startHost startHost zeroResponse (extend m [Drive startHost]))
    as (res & err & t & Hrun & Hd & Hs & Hok & Hfirst & Hdial).
  exists res, err, t. rewrite Hrun, extend_extend.
  split; [reflexivity|]. split; [exact Hd|]. split; [exact Hs|].
  split; [|split; [|exact Hdial]].
  - intros Hnone. destruct (Hok Hnone) as (Hsucc & Hrounds & Hhost).
    repeat split; try assumption. lia.
  - intros Hmax. apply Hfirst. lia.
Qed.

Lemma redirectLoop_chain_success (n : nat) (packet : Packet)
  (startHost currentHost : string) (res0 res : Response) (m m' : Machine) :
  redirectChain n packet currentHost m
    (fun host mk =>
       sendOnce packet host mk = Some ((res, None), m')
       /\ Response_ res = "success") ->
  redirectLoop (S n) packet startHost currentHost res0 m = Some ((res, None), m').
Proof.
  revert currentHost res0 m.
  induction n as [|n IH]; intros currentHost res0 m Hchain.
  - destruct Hchain as [Honce Hstatus].
    cbn [redirectLoop]. unfold bind at 1. rewrite Honce.
    apply String.eqb_eq in Hstatus. now rewrite Hstatus.
  - destruct Hchain as (r & redirect & newHost & m1 & Honce & Hstatus & Hred & Haddr & Hparse & Hrest).
    change (redirectLoop (S (S n)) packet startHost currentHost res0 m)
      with (bind (sendOnce packet currentHost)
              (fun x => match x with
                 | (res, err) =>
                   match err with
                   | Some e => ret (res, Some (SendOnceFailed currentHost e))
                   | None =>
                     if String.eqb (Response_ res) "success" then ret (res, None)
                     else
                       match Redirect res with
                       | None => ret (res, Some (FailedWithoutRedirect currentHost (Response_ res)))
                       | Some redirect =>
                         if String.eqb (Address redirect) ""
                         then ret (res, Some (FailedWithoutRedirect currentHost (Response_ res)))
                         else
                           match parseHostPort (Address redirect) with
                           | Err e => ret (res, Some e)
                           | Ok newHost => redirectLoop (S n) packet startHost newHost res
                           end
                       end
                   end
                 end) m).
    unfold bind at 1. rewrite Honce.
    apply String.eqb_neq in Hstatus, Haddr.
    rewrite Hstatus, Hred, Haddr, Hparse.
    now apply IH.
Qed.

Lemma redirectLoop_chain_limit (n : nat) (packet : Packet)
  (startHost currentHost : string) (res0 : Response) (m : Machine) :
  redirectChain n packet currentHost m (fun _ _ => True) ->
  exists res m',
    redirectLoop n packet startHost currentHost res0 m
    = Some ((res, Some (MaxRedirectsExceeded startHost)), m').
Proof.
  revert currentHost res0 m.
  induction n as [|n IH]; intros currentHost res0 m Hchain.
  - now exists res0, m.
  - destruct Hchain as (r & redirect & newHost & m1 & Honce & Hstatus & Hred & Haddr & Hparse & Hrest).
    cbn [redirectLoop]. unfold bind at 1. rewrite Honce.
    apply String.eqb_neq in Hstatus, Haddr.
    rewrite Hstatus, Hred, Haddr, Hparse.
    now apply IH.
Qed.

(** C2: from one starting address, with [MaxRedirects] a number of
    redirects, not negative and with [MaxRedirects + 1] an [int] too: when
    the attempts meet a chain of exactly [MaxRedirects] redirects and the
    next attempt is answered "success", the drive returns that response
    without error; when they meet a chain of exactly [MaxRedirects + 1]
    redirects, the drive ends with the error "max redirects exceeded", of
    kind RedirectLimitExceeded. *)
Theorem sendWithRedirects_limit (packet : Packet) (startHost : string)
  (m : Machine) :
  0 <= MaxRedirects (sender m) < maxInt ->
  (forall res m',
      redirectChain (Z.to_nat (MaxRedirects (sender m))) packet startHost
        (extend m [Drive startHost])
        (fun host mk =>
           sendOnce packet host mk = Some ((res, None), m')
           /\ Response_ res = "success") ->
      sendWithRedirects packet startHost m = Some ((res, None), m'))
  /\ (redirectChain (Z.to_nat (MaxRedirects (sender m) + 1)) packet startHost
        (extend m [Drive startHost]) (fun _ _ => True) ->
      exists res m',
        sendWithRedirects packet startHost m
        = Some ((res, Some (MaxRedirectsExceeded startHost)), m')
        /\ kind (MaxRedirectsExceeded startHost) = RedirectLimitExceeded).
Proof.
  intros [Hmax _]. split.
  - intros res m' Hchain.
    unfold sendWithRedirects, bind, self, emit. cbn [sender trace].
    replace (Z.to_nat (MaxRedirects (sender m) + 1))
      with (S (Z.to_nat (MaxRedirects (sender m)))) by lia.
    now apply redirectLoop_chain_success.
  - intros Hchain.
    apply redirectLoop_chain_limit
      with (startHost := startHost) (res0 := zeroResponse) in Hchain.
    destruct Hchain as (res & m' & Hrun).
    exists res, m'. split; [exact Hrun | reflexivity].
Qed.

End Redirects.

(** C2 (witness): the default limit of 3; three redirects and a success,
    and four redirects. *)
Lemma sendWithRedirects_limit_witness :
  0 <= MaxRedirects (NewSender "a") < maxInt
  /\ (exists m',
        @sendWithRedirects zabbix sampleJson
          (scripted [redirects; redirects; redirects; succeeds])
          prueba "a:10051" (boot (NewSender "a"))
        = Some (({| Response_ := "success"; Info := ""; Redirect := None |}, None), m'))
  /\ (exists res m',
        @sendWithRedirects zabbix sampleJson
          (scripted [redirects; redirects; redirects; redirects; succeeds])
          prueba "a:10051" (boot (NewSender "a"))
        = Some ((res, Some (MaxRedirectsExceeded "a:10051")), m')).
Proof.
  split; [vm_compute; split; [discriminate | reflexivity]|]. split.
  - eexists.
    apply (@sendWithRedirects_limit zabbix sampleJson
             (scripted [redirects; redirects; redirects; succeeds])
             prueba "a:10051" (boot (NewSender "a")));
      [vm_compute; split; [discriminate | reflexivity]|].
    change (Z.to_nat (MaxRedirects (sender (boot (NewSender "a"))))) with 3%nat.
    cbn [redirectChain].
    redirected. redirected. redirected.
    split; [run | reflexivity].
  - destruct (@sendWithRedirects_limit zabbix sampleJson
             (scripted [redirects; redirects; redirects; redirects; succeeds])
             prueba "a:10051" (boot (NewSender "a"))) as [_ Hlimit];
      [vm_compute; split; [discriminate | reflexivity]|].
    destruct Hlimit as (res & m' & Hrun & _).
    + change (Z.to_nat (MaxRedirects (sender (boot (NewSender "a"))) + 1)) with 4%nat.
      cbn [redirectChain].
      redirected. redirected. redirected. redirected.
      exact I.
    + now exists res, m'.
Defined.

(** ** Host fallback and cache driver *)

Section Fallback.

Context `{Build} `{Json} `{Peer}.

Lemma fallback_effect (packet : Packet) (hosts : list string) (res0 : Response)
  (m : Machine) :
  exists res err m' t,
    fallback packet hosts res0 m = Some ((res, err), m')
    /\ fallbackOutcome packet hosts m res err m' t.
Proof.
  revert res0 m. induction hosts as [|host rest IH]; intros res0 m.
  - exists res0, (Some (AllHostsFailed (Z.of_nat (List.length (Hosts (sender m)))))),
      m, [].
    split; [reflexivity|]. unfold fallbackOutcome.
    rewrite app_nil_r. repeat split; constructor.
  - cbn [fallback]. unfold bind at 1.
    destruct (sendWithRedirects_effect packet host m)
      as (res1 & err1 & t1 & Hrun & Hd & Hs & Hok & _ & Hdial).
    rewrite Hrun. destruct err1 as [e1|].
    + destruct (IH res1 (extend m (Drive host :: t1)))
        as (res & err & m' & t & Hrest & Htrace & Hdial' & Hcase).
      exists res, err, m', ((Drive host :: t1) ++ t).
      split; [exact Hrest|]. unfold fallbackOutcome.
      split; [|split].
      * rewrite Htrace. cbn [extend trace]. now rewrite app_assoc.
      * rewrite dialled_app. apply Forall_app. split.
        -- cbn [dialled]. eapply Forall_impl; [|exact Hdial].
           intros h Hh. exists host. split; [now left | exact Hh].
        -- eapply Forall_impl; [|exact Hdial'].
           intros h (start & Hin & Hh). exists start. split; [now right | exact Hh].
      * destruct err as [e|].
        -- destruct Hcase as (-> & Hsender & Hstarts & Hstores).
           rewrite driveStarts_app, stores_app. cbn [driveStarts stores].
           rewrite Hd, Hs, Hstarts, Hstores.
           repeat split. exact Hsender.
        -- destruct Hcase as (k & h & pre & m2 & Hnth & Hpre & Hdrive & Hm' & Hsender & Hsucc & Hstarts & Hstores).
           exists (S k), h, ((Drive host :: t1) ++ pre), m2.
           rewrite <- extend_extend, !driveStarts_app, stores_app.
           cbn [driveStarts stores nth_error firstn].
           rewrite Hd, Hs, Hpre, Hstarts, Hstores.
           cbn [app]. repeat split; assumption.
    + exists res1, None, (stored host (extend m (Drive host :: t1))),
        ((Drive host :: t1) ++ [StorePrimaryHost host]).
      split; [reflexivity|]. unfold fallbackOutcome.
      split; [|split].
      * cbn [stored extend trace]. now rewrite app_assoc.
      * rewrite dialled_app. cbn [dialled]. rewrite app_nil_r.
        eapply Forall_impl; [|exact Hdial].
        intros h Hh. exists host. split; [now left | exact Hh].
      * exists O, host, [], (extend m (Drive host :: t1)).
        rewrite extend_nil, driveStarts_app, stores_app.
        cbn [driveStarts stores nth_error firstn]. rewrite Hd, Hs.
        repeat split; try reflexivity; try assumption. now apply Hok.
Qed.

(** What [Send] does, by the state of the cache and the fate of the drive
    that starts at the cached address. *)
Lemma Send_effect (packet : Packet) (m : Machine) :
  let cached := PrimaryHost (sender m) in
  exists res err m' t,
    Send packet m = Some ((res, err), m')
    /\ trace m' = trace m ++ t
    /\ ((cached = ""
         /\ fallbackOutcome packet (Hosts (sender m)) m res err m' t)
        \/ (cached <> ""
            /\ err = None
            /\ sendWithRedirects packet cached m = Some ((res, None), m')
            /\ sender m' = sender m
            /\ Response_ res = "success"
            /\ (exists t1, t = Drive cached :: t1
                           /\ driveStarts t1 = [] /\ stores t1 = []
                           /\ Forall (reached cached) (dialled t1)
                           /\ (0 <= MaxRedirects (sender m) ->
                               exists rest,
                                 t1 = Exchange cached (requestBuffer packet) :: rest)))
        \/ (cached <> ""
            /\ exists res1 e1 t1 t2,
                sendWithRedirects packet cached m
                = Some ((res1, Some e1), extend m (Drive cached :: t1))
                /\ driveStarts t1 = [] /\ stores t1 = []
                /\ Forall (reached cached) (dialled t1)
                /\ (0 <= MaxRedirects (sender m) ->
                    exists rest,
                      t1 = Exchange cached (requestBuffer packet) :: rest)
                /\ t = (Drive cached :: t1) ++ StorePrimaryHost "" :: t2
                /\ fallbackOutcome packet (Hosts (sender m))
                     (stored "" (extend m (Drive cached :: t1))) res err m' t2)).
Proof.
  intros cached. unfold Send, bind at 1, self.
  destruct (String.eqb (PrimaryHost (sender m)) "") eqn:Hcached; cbn [negb].
  - apply String.eqb_eq in Hcached.
    destruct (fallback_effect packet (Hosts (sender m)) zeroResponse m)
      as (res & err & m' & t & Hrun & Hout).
    exists res, err, m', t. split; [exact Hrun|].
    split; [apply Hout|]. left. split; assumption.
  - apply String.eqb_neq in Hcached. fold cached in Hcached |- *.
    unfold bind at 1.
    destruct (sendWithRedirects_effect packet cached m)
      as (res1 & err1 & t1 & Hrun & Hd & Hs & Hok & Hfirst & Hdial).
    rewrite Hrun. destruct err1 as [e1|].
    + unfold bind at 1, storePrimaryHost.
      change {| sender := withPrimaryHost "" (sender (extend m (Drive cached :: t1)));
                trace := trace (extend m (Drive cached :: t1)) ++ [StorePrimaryHost ""] |}
        with (stored "" (extend m (Drive cached :: t1))).
      destruct (fallback_effect packet (Hosts (sender m)) res1
                  (stored "" (extend m (Drive cached :: t1))))
        as (res & err & m' & t2 & Hrest & Hout).
      exists res, err, m', ((Drive cached :: t1) ++ StorePrimaryHost "" :: t2).
      split; [exact Hrest|]. split.
      * destruct Hout as (Htrace & _). rewrite Htrace.
        cbn [stored extend trace]. rewrite <- !app_assoc. reflexivity.
      * right. right. split; [exact Hcached|].
        exists res1, e1, t1, t2.
        split; [reflexivity|]. split; [exact Hd|]. split; [exact Hs|].
        split; [exact Hdial|]. split; [exact Hfirst|].
        split; [reflexivity | exact Hout].
    + exists res1, None, (extend m (Drive cached :: t1)), (Drive cached :: t1).
      split; [reflexivity|]. split; [reflexivity|].
      right. left. repeat split; try assumption; try reflexivity.
      * now apply Hok.
      * exists t1. repeat split; assumption.
Qed.

End Fallback.

Lemma since_trace (m m' : Machine) [t : list Event] :
  trace m' = trace m ++ t -> since m m' = t.
Proof.
  intros Htrace. unfold since. rewrite Htrace.
  rewrite skipn_app, skipn_all, Nat.sub_diag. reflexivity.
Qed.

Lemma firstn_S_nth_error {A : Type} (l : list A) (k : nat) [x : A] :
  nth_error l k = Some x -> firstn (S k) l = firstn k l ++ [x].
Proof.
  revert k. induction l as [|y l IH]; intros [|k] Hnth; cbn in *;
    try discriminate.
  - congruence.
  - now rewrite (IH k Hnth).
Qed.

Section Walk.

Context `{Build} `{Json} `{Peer}.

(** Drives that fail one after the other leave the sender as it is, start
    at the addresses in order and assign nothing. *)
Lemma failedDrives_effect (packet : Packet) (hosts : list string)
  (res res' : Response) (m m' : Machine) :
  failedDrives packet hosts res m res' m' ->
  exists t, m' = extend m t /\ driveStarts t = hosts /\ stores t = [].
Proof.
  revert res m. induction hosts as [|host rest IH]; intros res m; cbn [failedDrives].
  - intros (_ & ->). exists []. now rewrite extend_nil.
  - intros (res1 & e1 & m1 & Hdrive & Hrest).
    destruct (sendWithRedirects_effect packet host m)
      as (r & err & t1 & Hrun & Hd & Hs & _).
    rewrite Hrun in Hdrive. injection Hdrive as _ _ <-.
    destruct (IH _ _ Hrest) as (t & -> & Hstarts & Hstores).
    exists ((Drive host :: t1) ++ t). rewrite extend_extend.
    split; [reflexivity|].
    rewrite driveStarts_app, stores_app. cbn [driveStarts stores].
    now rewrite Hd, Hs, Hstarts, Hstores.
Qed.

(** The loop over the list goes past the addresses whose drives fail. *)
Lemma fallback_failedDrives (packet : Packet) (hosts rest : list string)
  (res res' : Response) (m m' : Machine) :
  failedDrives packet hosts res m res' m' ->
  fallback packet (hosts ++ rest) res m = fallback packet rest res' m'.
Proof.
  revert res m. induction hosts as [|host hosts IH]; intros res m;
    cbn [failedDrives app].
  - now intros (-> & ->).
  - intros (res1 & e1 & m1 & Hdrive & Hrest).
    cbn [fallback]. unfold bind at 1. rewrite Hdrive.
    now apply IH.
Qed.

(** The loop over the list stops at the first address whose drive
    succeeds and stores it. *)
Lemma fallback_first_success (packet : Packet) (hosts : list string) (k : nat)
  (host : string) (res0 resk res : Response) (m0 mk m2 : Machine) :
  nth_error hosts k = Some host ->
  failedDrives packet (firstn k hosts) res0 m0 resk mk ->
  sendWithRedirects packet host mk = Some ((res, None), m2) ->
  fallback packet hosts res0 m0 = Some ((res, None), stored host m2).
Proof.
  intros Hnth Hfailed Hdrive.
  rewrite <- (firstn_skipn k hosts) at 1.
  rewrite (fallback_failedDrives packet _ _ _ _ _ _ Hfailed).
  assert (Hskip : skipn k hosts = host :: skipn (S k) hosts).
  { clear -Hnth. revert k Hnth. induction hosts as [|x hosts IH]; intros [|k] Hnth;
      cbn in *; try discriminate.
    - congruence.
    - now apply IH. }
  rewrite Hskip. cbn [fallback]. unfold bind at 1. rewrite Hdrive.
  reflexivity.
Qed.

(** The loop over the list fails when every drive has failed. *)
Lemma fallback_all_failed (packet : Packet) (hosts : list string)
  (res0 res' : Response) (m0 m' : Machine) :
  failedDrives packet hosts res0 m0 res' m' ->
  fallback packet hosts res0 m0
  = Some ((res', Some (AllHostsFailed (Z.of_nat (List.length (Hosts (sender m0)))))),
          m').
Proof.
  intros Hfailed.
  rewrite <- (app_nil_r hosts) at 1.
  rewrite (fallback_failedDrives packet _ _ _ _ _ _ Hfailed).
  destruct (failedDrives_effect _ _ _ _ _ _ Hfailed) as (t & -> & _).
  reflexivity.
Qed.

(** A send that goes to the address list is the loop over the list from
    where it starts on it. *)
Lemma Send_listStart (packet : Packet) (m : Machine) (cleared : bool)
  (res0 : Response) (m0 : Machine) :
  listStart packet m cleared res0 m0 ->
  Send packet m = fallback packet (Hosts (sender m)) res0 m0
  /\ Hosts (sender m0) = Hosts (sender m)
  /\ exists t0,
       trace m0 = trace m ++ t0
       /\ stores t0 = clearing cleared
       /\ driveStarts t0 = if cleared then [PrimaryHost (sender m)] else [].
Proof.
  unfold listStart, Send, bind at 1, self. destruct cleared.
  - intros (Hcached & e1 & m1 & Hdrive & ->).
    apply String.eqb_neq in Hcached. rewrite Hcached. cbn [negb].
    unfold bind at 1. rewrite Hdrive.
    destruct (sendWithRedirects_effect packet (PrimaryHost (sender m)) m)
      as (r & err & t1 & Hrun & Hd & Hs & _).
    rewrite Hrun in Hdrive. injection Hdrive as _ _ <-.
    split; [reflexivity|]. split; [reflexivity|].
    exists ((Drive (PrimaryHost (sender m)) :: t1) ++ [StorePrimaryHost ""]).
    cbn [stored extend trace]. rewrite <- app_assoc.
    split; [reflexivity|].
    rewrite stores_app, driveStarts_app. cbn [stores driveStarts clearing].
    now rewrite Hd, Hs.
  - intros (Hcached & -> & ->). rewrite Hcached. cbn [String.eqb negb].
    split; [reflexivity|]. split; [reflexivity|].
    exists []. now rewrite app_nil_r.
Qed.

(** The drives over a list either all fail or fail up to a first one that
    succeeds. *)
Lemma drives_decided (packet : Packet) (hosts : list string) (res0 : Response)
  (m0 : Machine) :
  (exists res' m', failedDrives packet hosts res0 m0 res' m')
  \/ (exists k host resk mk res m2,
         nth_error hosts k = Some host
         /\ failedDrives packet (firstn k hosts) res0 m0 resk mk
         /\ sendWithRedirects packet host mk = Some ((res, None), m2)).
Proof.
  revert res0 m0. induction hosts as [|host rest IH]; intros res0 m0.
  - left. now exists res0, m0.
  - destruct (sendWithRedirects_effect packet host m0)
      as (r & err & t1 & Hrun & _).
    destruct err as [e1|].
    + destruct (IH r (extend m0 (Drive host :: t1)))
        as [(res' & m' & Hfailed) | (k & h & resk & mk & res & m2 & Hnth & Hfailed & Hgood)].
      * left. exists res', m'. cbn [failedDrives]. eauto 6.
      * right. exists (S k), h, resk, mk, res, m2. cbn [nth_error firstn failedDrives].
        split; [exact Hnth|]. split; [eauto 6 | exact Hgood].
    + right. exists O, host, res0, m0, r, (extend m0 (Drive host :: t1)).
      cbn [nth_error firstn failedDrives]. auto.
Qed.

(** A send either returns what the drive from the cached address
    returns, or goes to the address list. *)
Lemma Send_decided (packet : Packet) (m : Machine) :
  (PrimaryHost (sender m) <> ""
   /\ exists res m1,
        sendWithRedirects packet (PrimaryHost (sender m)) m = Some ((res, None), m1))
  \/ exists cleared res0 m0, listStart packet m cleared res0 m0.
Proof.
  destruct (String.eqb_spec (PrimaryHost (sender m)) "") as [Hcached|Hcached].
  - right. exists false, zeroResponse, m. now cbn [listStart].
  - destruct (sendWithRedirects_effect packet (PrimaryHost (sender m)) m)
      as (r & err & t1 & Hrun & _).
    destruct err as [e1|].
    + right. exists true, r, (stored "" (extend m (Drive (PrimaryHost (sender m)) :: t1))).
      cbn [listStart]. split; [exact Hcached|]. eauto.
    + left. split; [exact Hcached|]. eauto.
Qed.

(** The send whose drive from the cached address succeeds. *)
Lemma Send_cached_success (packet : Packet) (m m1 : Machine) (res : Response) :
  PrimaryHost (sender m) <> "" ->
  sendWithRedirects packet (PrimaryHost (sender m)) m = Some ((res, None), m1) ->
  Send packet m = Some ((res, None), m1) /\ stores (since m m1) = [].
Proof.
  intros Hcached Hdrive. unfold Send, bind at 1, self.
  apply String.eqb_neq in Hcached. rewrite Hcached. cbn [negb].
  unfold bind at 1. rewrite Hdrive. split; [reflexivity|].
  destruct (sendWithRedirects_effect packet (PrimaryHost (sender m)) m)
    as (r & err & t1 & Hrun & _ & Hs & _).
  rewrite Hrun in Hdrive. injection Hdrive as _ _ <-.
  rewrite since_trace with (t := Drive (PrimaryHost (sender m)) :: t1) by reflexivity.
  exact Hs.
Qed.

(** The send that finds a first address of the list whose drive
    succeeds. *)
Lemma Send_list_success (packet : Packet) (m : Machine) (cleared : bool)
  (res0 resk res : Response) (m0 mk m2 : Machine) (k : nat) (host : string) :
  listStart packet m cleared res0 m0 ->
  nth_error (Hosts (sender m)) k = Some host ->
  failedDrives packet (firstn k (Hosts (sender m))) res0 m0 resk mk ->
  sendWithRedirects packet host mk = Some ((res, None), m2) ->
  Send packet m = Some ((res, None), stored host m2)
  /\ stores (since m (stored host m2)) = clearing cleared ++ [host]
  /\ driveStarts (since m (stored host m2))
     = (if cleared then [PrimaryHost (sender m)] else [])
       ++ firstn (S k) (Hosts (sender m)).
Proof.
  intros Hstart Hnth Hfailed Hdrive.
  destruct (Send_listStart _ _ _ _ _ Hstart) as (-> & _ & t0 & Htrace & Hstores & Hstarts).
  split; [now apply (fallback_first_success packet _ k host res0 resk res m0 mk m2)|].
  destruct (failedDrives_effect _ _ _ _ _ _ Hfailed) as (t & -> & Hd & Hs).
  destruct (sendWithRedirects_effect packet host (extend m0 t))
    as (r & err & t1 & Hrun & Hd1 & Hs1 & _).
  rewrite Hrun in Hdrive. injection Hdrive as _ _ <-.
  rewrite since_trace
    with (t := t0 ++ t ++ (Drive host :: t1) ++ [StorePrimaryHost host]).
  - rewrite !stores_app, !driveStarts_app. cbn [stores driveStarts].
    rewrite Hstores, Hstarts, Hs, Hd, Hs1, Hd1.
    rewrite (firstn_S_nth_error _ k Hnth). cbn [app]. split; reflexivity.
  - cbn [stored extend trace]. rewrite Htrace. now rewrite <- !app_assoc.
Qed.

(** The send for which the drive from the cached address, if one is set,
    and the drives from all the addresses of the list fail. *)
Lemma Send_list_failure (packet : Packet) (m : Machine) (cleared : bool)
  (res0 res' : Response) (m0 m' : Machine) :
  listStart packet m cleared res0 m0 ->
  failedDrives packet (Hosts (sender m)) res0 m0 res' m' ->
  Send packet m
  = Some ((res', Some (AllHostsFailed (Z.of_nat (List.length (Hosts (sender m)))))),
          m')
  /\ stores (since m m') = clearing cleared
  /\ driveStarts (since m m')
     = (if cleared then [PrimaryHost (sender m)] else []) ++ Hosts (sender m).
Proof.
  intros Hstart Hfailed.
  destruct (Send_listStart _ _ _ _ _ Hstart) as (-> & Hhosts & t0 & Htrace & Hstores & Hstarts).
  rewrite (fallback_all_failed _ _ _ _ _ _ Hfailed), Hhosts.
  split; [reflexivity|].
  destruct (failedDrives_effect _ _ _ _ _ _ Hfailed) as (t & -> & Hd & Hs).
  rewrite since_trace with (t := t0 ++ t).
  - rewrite stores_app, driveStarts_app, Hstores, Hstarts, Hs, Hd.
    now rewrite app_nil_r.
  - cbn [extend trace]. rewrite Htrace. now rewrite <- app_assoc.
Qed.

End Walk.

Section Cache.

Context `{Build} `{Json} `{Peer}.

(** A send returns without error only with a response whose status is
    "success". *)
Lemma Send_success (packet : Packet) (m m' : Machine) (res : Response) :
  Send packet m = Some ((res, None), m') -> Response_ res = "success".
Proof.
  intros Hsend.
  destruct (Send_effect packet m) as (res' & err & m1 & t & Hrun & _ & Hcase).
  rewrite Hrun in Hsend. injection Hsend as -> -> ->.
  destruct Hcase as [(_ & Hout) | [(_ & _ & _ & _ & Hsucc & _) | (_ & r1 & e1 & t1 & t2 & _ & _ & _ & _ & _ & _ & Hout)]].
  - destruct Hout as (_ & _ & k & h & pre & m2 & _ & _ & _ & _ & _ & Hsucc & _).
    exact Hsucc.
  - exact Hsucc.
  - destruct Hout as (_ & _ & k & h & pre & m2 & _ & _ & _ & _ & _ & Hsucc & _).
    exact Hsucc.
Qed.

(** C6 (amended): when the drive from the cached primary, if one is set,
    and then the drives from all the addresses of the configured list
    fail, the send fails with an AllHostsFailedError whose count is the
    length of the configured list: the drive from the cached primary is
    not counted, though it is among the drives started.  Nothing else
    makes a send fail: a send that returns an error returns this one,
    after exactly these drives have failed. *)
Theorem Send_all_hosts_failed (packet : Packet) (m : Machine) :
  let e := AllHostsFailed (Z.of_nat (List.length (Hosts (sender m)))) in
  (forall cleared res0 m0 res' m',
      listStart packet m cleared res0 m0 ->
      failedDrives packet (Hosts (sender m)) res0 m0 res' m' ->
      Send packet m = Some ((res', Some e), m')
      /\ kind e = AllHostsFailedError
      /\ driveStarts (since m m')
         = (if cleared then [PrimaryHost (sender m)] else []) ++ Hosts (sender m))
  /\ (forall res e' m',
         Send packet m = Some ((res, Some e'), m') ->
         e' = e
         /\ exists cleared res0 m0,
              listStart packet m cleared res0 m0
              /\ failedDrives packet (Hosts (sender m)) res0 m0 res m'
              /\ (cleared = true <-> PrimaryHost (sender m) <> "")).
Proof.
  intros e. split.
  - intros cleared res0 m0 res' m' Hstart Hfailed.
    destruct (Send_list_failure packet m cleared res0 res' m0 m' Hstart Hfailed)
      as (Hrun & _ & Hstarts).
    split; [exact Hrun|]. split; [reflexivity | exact Hstarts].
  - intros res e' m' Hsend.
    destruct (Send_decided packet m)
      as [(Hcached & r & m1 & Hgood) | (cleared & res0 & m0 & Hstart)].
    + destruct (Send_cached_success packet m m1 r Hcached Hgood) as (Hrun & _).
      rewrite Hrun in Hsend. discriminate.
    + destruct (drives_decided packet (Hosts (sender m)) res0 m0)
        as [(res' & m2 & Hfailed) | (k & host & resk & mk & r & m2 & Hnth & Hfailed & Hgood)].
      * destruct (Send_list_failure packet m cleared res0 res' m0 m2 Hstart Hfailed)
          as (Hrun & _).
        rewrite Hrun in Hsend. injection Hsend as <- <- <-.
        split; [reflexivity|]. exists cleared, res0, m0.
        split; [exact Hstart|]. split; [exact Hfailed|].
        unfold listStart in Hstart. destruct cleared.
        -- destruct Hstart as (Hcached & _). now split.
        -- destruct Hstart as (Hcached & _). split; [discriminate|]. contradiction.
      * destruct (Send_list_success packet m cleared res0 resk r m0 mk m2 k host
                    Hstart Hnth Hfailed Hgood) as (Hrun & _).
        rewrite Hrun in Hsend. discriminate.
Qed.

(** C5 (amended): within one send the cached primary address is assigned
    zero, one or two times.  A send whose drive from the cached address
    succeeds assigns nothing.  Any other send goes to the configured list,
    after clearing the field exactly when a cached address was set (whose
    drive has then failed); there it sets the field exactly when the drive
    from an address of the list succeeds, to the first address whose drive
    does, and starts no drive after that one; when the drives from all the
    addresses fail it sets nothing.  Every send that returns is one of
    these three. *)
Theorem Send_assignments (packet : Packet) (m : Machine) :
  let cached := PrimaryHost (sender m) in
  let hosts := Hosts (sender m) in
  (forall res m1,
      cached <> "" ->
      sendWithRedirects packet cached m = Some ((res, None), m1) ->
      Send packet m = Some ((res, None), m1) /\ stores (since m m1) = [])
  /\ (forall cleared res0 m0,
         listStart packet m cleared res0 m0 ->
         (forall k host resk mk res m2,
             nth_error hosts k = Some host ->
             failedDrives packet (firstn k hosts) res0 m0 resk mk ->
             sendWithRedirects packet host mk = Some ((res, None), m2) ->
             Send packet m = Some ((res, None), stored host m2)
             /\ stores (since m (stored host m2)) = clearing cleared ++ [host]
             /\ driveStarts (since m (stored host m2))
                = (if cleared then [cached] else []) ++ firstn (S k) hosts)
         /\ (forall res' m',
                failedDrives packet hosts res0 m0 res' m' ->
                exists e,
                  Send packet m = Some ((res', Some e), m')
                  /\ stores (since m m') = clearing cleared))
  /\ (forall res err m',
         Send packet m = Some ((res, err), m') ->
         (cached <> "" /\ err = None
          /\ sendWithRedirects packet cached m = Some ((res, None), m')
          /\ stores (since m m') = [])
         \/ exists cleared res0 m0,
              listStart packet m cleared res0 m0
              /\ (cleared = true <-> cached <> "")
              /\ ((exists e, err = Some e
                             /\ failedDrives packet hosts res0 m0 res m'
                             /\ stores (since m m') = clearing cleared)
                  \/ (exists k host resk mk m2,
                         err = None
                         /\ nth_error hosts k = Some host
                         /\ failedDrives packet (firstn k hosts) res0 m0 resk mk
                         /\ sendWithRedirects packet host mk = Some ((res, None), m2)
                         /\ m' = stored host m2
                         /\ stores (since m m') = clearing cleared ++ [host]))).
Proof.
  intros cached hosts. split; [|split].
  - intros res m1. apply Send_cached_success.
  - intros cleared res0 m0 Hstart. split.
    + intros k host resk mk res m2. now apply Send_list_success.
    + intros res' m' Hfailed.
      destruct (Send_list_failure packet m cleared res0 res' m0 m' Hstart Hfailed)
        as (Hrun & Hstores & _).
      eexists. split; [exact Hrun | exact Hstores].
  - intros res err m' Hsend.
    destruct (Send_decided packet m)
      as [(Hcached & r & m1 & Hgood) | (cleared & res0 & m0 & Hstart)].
    + left. destruct (Send_cached_success packet m m1 r Hcached Hgood) as (Hrun & Hstores).
      rewrite Hrun in Hsend. injection Hsend as <- <- <-.
      repeat split; assumption.
    + right. exists cleared, res0, m0. split; [exact Hstart|]. split.
      { unfold listStart in Hstart. fold cached in Hstart. destruct cleared.
        - destruct Hstart as (Hcached & _). now split.
        - destruct Hstart as (Hcached & _). split; [discriminate|]. contradiction. }
      destruct (drives_decided packet hosts res0 m0)
        as [(res' & m2 & Hfailed) | (k & host & resk & mk & r & m2 & Hnth & Hfailed & Hgood)].
      * left.
        destruct (Send_list_failure packet m cleared res0 res' m0 m2 Hstart Hfailed)
          as (Hrun & Hstores & _).
        rewrite Hrun in Hsend. injection Hsend as <- <- <-.
        eexists. split; [reflexivity|]. split; assumption.
      * right.
        destruct (Send_list_success packet m cleared res0 resk r m0 mk m2 k host
                    Hstart Hnth Hfailed Hgood) as (Hrun & Hstores & _).
        rewrite Hrun in Hsend. injection Hsend as <- <- <-.
        exists k, host, resk, mk, m2. repeat split; assumption.
Qed.

End Cache.

(** C6 (counterexample): the cached primary c and the one configured
    address a both refuse; two addresses have been tried and the count
    reported is 1. *)
Lemma Send_count_leaves_out_cached :
  report (observe (@Send zabbix sampleJson nobody prueba)
            (boot (cachedSender "c:10051" ["a:10051"])))
  = Some ((zeroResponse, Some (AllHostsFailed 1)), "",
          ["c:10051"; "a:10051"], [""])
  /\ 1 <> Z.of_nat (List.length ["c:10051"; "a:10051"]).
Proof. split; [vm_compute; reflexivity | discriminate]. Qed.

(** C6 (witness): the cached primary c and the one configured address a
    both refuse. *)
Lemma Send_all_hosts_failed_witness :
  exists res' m',
    @Send zabbix sampleJson nobody prueba (boot (cachedSender "c:10051" ["a:10051"]))
    = Some ((res', Some (AllHostsFailed 1)), m')
    /\ kind (AllHostsFailed 1) = AllHostsFailedError
    /\ driveStarts (since (boot (cachedSender "c:10051" ["a:10051"])) m')
       = ["c:10051"; "a:10051"].
Proof.
  destruct (@Send_all_hosts_failed zabbix sampleJson nobody prueba
              (boot (cachedSender "c:10051" ["a:10051"]))) as (Hforward & _).
  do 2 eexists. eapply (Hforward true).
  - cbn [listStart]. split; [vm_compute; discriminate|].
    do 2 eexists. split; [run | reflexivity].
  - change (Hosts (sender (boot (cachedSender "c:10051" ["a:10051"]))))
      with ["a:10051"].
    cbn [failedDrives]. do 3 eexists. split; [run|]. split; reflexivity.
Defined.

(** C5 (counterexample): a send whose cached drive succeeds assigns the
    field zero times; a send whose cached drive fails and whose list
    address succeeds assigns it twice. *)
Lemma Send_assigns_zero_or_two_times :
  report (observe (@Send zabbix sampleJson (only "a:10051") prueba)
            (boot (cachedSender "a:10051" ["b:10051"])))
  = Some (({| Response_ := "success"; Info := ""; Redirect := None |}, None),
          "a:10051", ["a:10051"], [])
  /\ report (observe (@Send zabbix sampleJson (only "b:10051") prueba)
               (boot (cachedSender "a:10051" ["b:10051"])))
     = Some (({| Response_ := "success"; Info := ""; Redirect := None |}, None),
             "b:10051", ["a:10051"; "b:10051"], [""; "b:10051"])
  /\ List.length (@nil string) <> 1%nat
  /\ List.length [""; "b:10051"] <> 1%nat.
Proof.
  split; [vm_compute; reflexivity|]. split; [vm_compute; reflexivity|].
  split; discriminate.
Qed.

(** C5 (witness): a cached address that accepts; a cached address that
    refuses with a list address that accepts; no cached address and a
    list whose second address is the first to accept. *)
Lemma Send_assignments_witness :
  (exists res m1,
     @Send zabbix sampleJson (only "a:10051") prueba
       (boot (cachedSender "a:10051" ["b:10051"])) = Some ((res, None), m1)
     /\ stores (since (boot (cachedSender "a:10051" ["b:10051"])) m1) = [])
  /\ (exists res m2,
        @Send zabbix sampleJson (only "b:10051") prueba
          (boot (cachedSender "a:10051" ["b:10051"]))
        = Some ((res, None), stored "b:10051" m2)
        /\ stores (since (boot (cachedSender "a:10051" ["b:10051"]))
                     (stored "b:10051" m2)) = [""; "b:10051"]
        /\ driveStarts (since (boot (cachedSender "a:10051" ["b:10051"]))
                          (stored "b:10051" m2)) = ["a:10051"; "b:10051"])
  /\ (exists res m2,
        @Send zabbix sampleJson (only "b:10051") prueba
          (boot (NewSenderHosts ["a:10051"; "b:10051"; "c:10051"]))
        = Some ((res, None), stored "b:10051" m2)
        /\ stores (since (boot (NewSenderHosts ["a:10051"; "b:10051"; "c:10051"]))
                     (stored "b:10051" m2)) = ["b:10051"]
        /\ driveStarts (since (boot (NewSenderHosts ["a:10051"; "b:10051"; "c:10051"]))
                          (stored "b:10051" m2)) = ["a:10051"; "b:10051"]).
Proof.
  split; [|split].
  - destruct (@Send_assignments zabbix sampleJson (only "a:10051") prueba
                (boot (cachedSender "a:10051" ["b:10051"]))) as (Hcached & _).
    do 2 eexists. eapply Hcached; [vm_compute; discriminate | run].
  - destruct (@Send_assignments zabbix sampleJson (only "b:10051") prueba
                (boot (cachedSender "a:10051" ["b:10051"]))) as (_ & Hlist & _).
    do 2 eexists. eapply (Hlist true) with (k := 0%nat).
    + cbn [listStart]. split; [vm_compute; discriminate|].
      do 2 eexists. split; [run | reflexivity].
    + reflexivity.
    + cbn [firstn failedDrives]. split; reflexivity.
    + run.
  - destruct (@Send_assignments zabbix sampleJson (only "b:10051") prueba
                (boot (NewSenderHosts ["a:10051"; "b:10051"; "c:10051"])))
      as (_ & Hlist & _).
    do 2 eexists. eapply (Hlist false) with (k := 1%nat).
    + cbn [listStart]. repeat split.
    + reflexivity.
    + change (Hosts (sender (boot (NewSenderHosts ["a:10051"; "b:10051"; "c:10051"]))))
        with ["a:10051"; "b:10051"; "c:10051"].
      cbn [firstn failedDrives]. do 3 eexists. split; [run|]. split; reflexivity.
    + run.
Defined.

Section Primary.

Context `{Build} `{Json} `{Peer}.

Lemma sendWithRedirects_success [packet : Packet] [startHost : string]
  [m m2 : Machine] [res : Response] :
  sendWithRedirects packet startHost m = Some ((res, None), m2) ->
  0 <= MaxRedirects (sender m) /\ startHost <> "" /\ sender m2 = sender m.
Proof.
  intros Hgood.
  destruct (sendWithRedirects_effect packet startHost m)
    as (res' & err & t & Hrun & _ & _ & Hok & _).
  rewrite Hrun in Hgood. injection Hgood as -> -> <-.
  destruct (Hok eq_refl) as (_ & Hmax & Hhost).
  repeat split; assumption.
Qed.

(** A send that finds a cached primary starts its first drive and makes
    its first exchange there. *)
Lemma Send_cached_first (packet : Packet) (m : Machine) :
  PrimaryHost (sender m) <> "" ->
  0 <= MaxRedirects (sender m) ->
  exists res err m' rest,
    Send packet m = Some ((res, err), m')
    /\ since m m'
       = Drive (PrimaryHost (sender m))
         :: Exchange (PrimaryHost (sender m)) (requestBuffer packet) :: rest.
Proof.
  intros Hset Hmax.
  destruct (Send_effect packet m) as (res & err & m' & t & Hrun & Htrace & Hcase).
  exists res, err, m'. rewrite (since_trace m m' Htrace).
  destruct Hcase as [(Hcached & _) | [(_ & _ & _ & _ & _ & t1 & -> & _ & _ & _ & Hfirst) | (_ & r1 & e1 & t1 & t2 & _ & _ & _ & _ & Hfirst & -> & _)]].
  - contradiction.
  - destruct (Hfirst Hmax) as (rest & ->). now exists rest.
  - destruct (Hfirst Hmax) as (rest & ->). eexists. split; [exact Hrun|].
    cbn [app]. reflexivity.
Qed.

(** C3: a send always returns, and
    - when it succeeds, the cached primary it leaves is set and is the
      address at which the drive that succeeded was started (the last
      drive of the send), which is the cached primary it found or an
      address of the configured list, whatever addresses the redirects led
      to; the next send, of any packet, starts its first drive and makes
      its first exchange at that address, wherever it stands in the list;
    - when it finds a cached primary (and [MaxRedirects] is not
      negative), its first drive and its first exchange are at that
      address;
    - when the drive from the cached primary fails, the drives that follow
      start at the addresses of the configured list, from its first, in
      order and without leaving any out, up to the first that succeeds
      (which becomes the cached primary) or to the end of the list. *)
Theorem Send_primary_cache (packet : Packet) (m : Machine) :
  let cached := PrimaryHost (sender m) in
  exists res err m',
    Send packet m = Some ((res, err), m')
    /\ (err = None ->
        let start := PrimaryHost (sender m') in
        start <> ""
        /\ (exists pre m1 m2,
              trace m1 = trace m ++ pre
              /\ sendWithRedirects packet start m1 = Some ((res, None), m2)
              /\ (m' = m2 \/ m' = stored start m2)
              /\ driveStarts (since m m') = driveStarts pre ++ [start])
        /\ (start = cached \/ In start (Hosts (sender m)))
        /\ Hosts (sender m') = Hosts (sender m)
        /\ (forall next,
              exists res2 err2 m'' rest,
                Send next m' = Some ((res2, err2), m'')
                /\ since m' m''
                   = Drive start :: Exchange start (requestBuffer next) :: rest))
    /\ (cached <> "" -> 0 <= MaxRedirects (sender m) ->
        exists rest,
          since m m'
          = Drive cached :: Exchange cached (requestBuffer packet) :: rest)
    /\ (forall r e m1,
          cached <> "" ->
          sendWithRedirects packet cached m = Some ((r, Some e), m1) ->
          match err with
          | Some _ => driveStarts (since m m') = cached :: Hosts (sender m)
          | None =>
              exists k,
                nth_error (Hosts (sender m)) k = Some (PrimaryHost (sender m'))
                /\ driveStarts (since m m')
                   = cached :: firstn (S k) (Hosts (sender m))
          end).
Proof.
  intros cached.
  destruct (Send_effect packet m) as (res & err & m' & t & Hrun & Htrace & Hcase).
  exists res, err, m'. split; [exact Hrun|].
  rewrite (since_trace m m' Htrace). fold cached in Hcase.
  assert (Hnext : PrimaryHost (sender m') <> "" ->
                  0 <= MaxRedirects (sender m') ->
                  forall next,
                    exists res2 err2 m'' rest,
                      Send next m' = Some ((res2, err2), m'')
                      /\ since m' m''
                         = Drive (PrimaryHost (sender m'))
                           :: Exchange (PrimaryHost (sender m')) (requestBuffer next)
                           :: rest).
  { intros Hset Hmax next. now apply Send_cached_first. }
  destruct Hcase as [(Hcached & Hout) | [(Hcached & -> & Hdrive & Hsender & _ & t1 & -> & Hd & _ & _ & Hfirst) | (Hcached & r1 & e1 & t1 & t2 & Hdrive & Hd & _ & _ & Hfirst & -> & Hout)]].
  - (* no cached primary *)
    split; [|split].
    + intros ->.
      destruct Hout as (_ & _ & k & host & pre & m2 & Hnth & Hpre & Hgood & Hm' & Hsender & _ & Hstarts & _).
      assert (Hhost : PrimaryHost (sender m') = host) by now rewrite Hsender.
      destruct (sendWithRedirects_success Hgood) as (Hmax & Hne & _).
      cbv zeta. rewrite Hhost in *.
      split; [exact Hne|]. split; [|split; [|split]].
      * exists pre, (extend m pre), m2.
        split; [reflexivity|]. split; [exact Hgood|]. split; [now right|].
        now rewrite Hstarts, Hpre, (firstn_S_nth_error _ _ Hnth).
      * right. eapply nth_error_In. exact Hnth.
      * now rewrite Hsender.
      * apply Hnext; [exact Hne | now rewrite Hsender].
    + intros Hset. contradiction.
    + intros r e m1 Hset. contradiction.
  - (* the drive from the cached primary succeeds *)
    split; [|split].
    + intros _.
      destruct (sendWithRedirects_success Hdrive) as (Hmax & Hne & _).
      cbv zeta. rewrite Hsender in *. fold cached.
      split; [exact Hne|]. split; [|split; [|split]].
      * exists [], m, m'. rewrite app_nil_r.
        split; [reflexivity|]. split; [exact Hdrive|]. split; [now left|].
        cbn [driveStarts app]. now rewrite Hd.
      * now left.
      * reflexivity.
      * apply Hnext; assumption.
    + intros _ Hmax. destruct (Hfirst Hmax) as (rest & ->). now exists rest.
    + intros r e m1 _ Hfail. rewrite Hdrive in Hfail. discriminate.
  - (* the drive from the cached primary fails *)
    split; [|split].
    + intros ->.
      destruct Hout as (_ & _ & k & host & pre & m2 & Hnth & Hpre & Hgood & Hm' & Hsender & _ & Hstarts & _).
      assert (Hhost : PrimaryHost (sender m') = host) by now rewrite Hsender.
      destruct (sendWithRedirects_success Hgood) as (Hmax & Hne & _).
      cbv zeta. rewrite Hhost in *.
      split; [exact Hne|]. split; [|split; [|split]].
      * exists ((Drive cached :: t1) ++ StorePrimaryHost "" :: pre),
          (extend (stored "" (extend m (Drive cached :: t1))) pre), m2.
        split; [|split; [exact Hgood|split; [now right|]]].
        -- cbn [extend stored trace]. rewrite <- !app_assoc. reflexivity.
        -- rewrite !driveStarts_app. cbn [driveStarts].
           rewrite Hd, Hstarts, Hpre, (firstn_S_nth_error _ _ Hnth).
           reflexivity.
      * right. eapply nth_error_In. exact Hnth.
      * now rewrite Hsender.
      * apply Hnext; [exact Hne | now rewrite Hsender].
    + intros _ Hmax. destruct (Hfirst Hmax) as (rest & ->).
      eexists. cbn [app]. reflexivity.
    + intros r e m1 _ _.
      rewrite driveStarts_app. cbn [driveStarts]. rewrite Hd. cbn [app].
      destruct Hout as (_ & _ & Hout). destruct err as [e'|].
      * destruct Hout as (_ & _ & Hstarts & _). now rewrite Hstarts.
      * destruct Hout as (k & host & pre & m2 & Hnth & _ & _ & _ & Hsender & _ & Hstarts & _).
        exists k. rewrite Hsender, Hstarts. split; [exact Hnth | reflexivity].
Qed.

End Primary.

(** C3 (witness): the address list [a, b, c] where only c accepts: a
    send without a cached primary (and the send after it), a send that
    finds c cached, and a send that finds b cached. *)
Lemma Send_primary_cache_witness :
  (exists res err m',
     @Send zabbix sampleJson (only "c:10051") prueba (boot (NewSenderHosts abc))
     = Some ((res, err), m')
     /\ err = None
     /\ PrimaryHost (sender m') = "c:10051"
     /\ PrimaryHost (sender m') <> ""
     /\ (exists pre m1 m2,
           trace m1 = trace (boot (NewSenderHosts abc)) ++ pre
           /\ @sendWithRedirects zabbix sampleJson (only "c:10051") prueba
                (PrimaryHost (sender m')) m1 = Some ((res, None), m2)
           /\ (m' = m2 \/ m' = stored (PrimaryHost (sender m')) m2)
           /\ driveStarts (since (boot (NewSenderHosts abc)) m')
              = driveStarts pre ++ [PrimaryHost (sender m')])
     /\ (PrimaryHost (sender m') = PrimaryHost (sender (boot (NewSenderHosts abc)))
         \/ In (PrimaryHost (sender m')) (Hosts (sender (boot (NewSenderHosts abc)))))
     /\ Hosts (sender m') = Hosts (sender (boot (NewSenderHosts abc)))
     /\ (forall next,
           exists res2 err2 m'' rest,
             @Send zabbix sampleJson (only "c:10051") next m'
             = Some ((res2, err2), m'')
             /\ since m' m''
                = Drive (PrimaryHost (sender m'))
                  :: Exchange (PrimaryHost (sender m'))
                       (@requestBuffer sampleJson next) :: rest))
  /\ (exists res err m' rest,
        @Send zabbix sampleJson (only "c:10051") prueba
          (boot (cachedSender "c:10051" abc)) = Some ((res, err), m')
        /\ since (boot (cachedSender "c:10051" abc)) m'
           = Drive "c:10051"
             :: Exchange "c:10051" (@requestBuffer sampleJson prueba) :: rest)
  /\ (exists res err m',
        @Send zabbix sampleJson (only "c:10051") prueba
          (boot (cachedSender "b:10051" abc)) = Some ((res, err), m')
        /\ err = None
        /\ exists k,
             nth_error abc k = Some (PrimaryHost (sender m'))
             /\ driveStarts (since (boot (cachedSender "b:10051" abc)) m')
                = "b:10051" :: firstn (S k) abc).
Proof.
  split; [|split].
  - destruct (@Send_primary_cache zabbix sampleJson (only "c:10051") prueba
                (boot (NewSenderHosts abc)))
      as (res & err & m' & Hrun & Hgood & _).
    pose proof Hrun as Hval. vm_compute in Hval.
    assert (Herr : err = None) by congruence.
    exists res, err, m'. split; [exact Hrun|]. split; [exact Herr|].
    split; [|exact (Hgood Herr)].
    injection Hval as _ _ <-. reflexivity.
  - destruct (@Send_primary_cache zabbix sampleJson (only "c:10051") prueba
                (boot (cachedSender "c:10051" abc)))
      as (res & err & m' & Hrun & _ & Hfirst & _).
    destruct Hfirst as (rest & Hrest);
      [vm_compute; discriminate | vm_compute; discriminate |].
    exists res, err, m', rest. split; [exact Hrun | exact Hrest].
  - destruct (@Send_primary_cache zabbix sampleJson (only "c:10051") prueba
                (boot (cachedSender "b:10051" abc)))
      as (res & err & m' & Hrun & _ & _ & Hfall).
    pose proof Hrun as Hval. vm_compute in Hval.
    assert (Herr : err = None) by congruence.
    exists res, err, m'. split; [exact Hrun|]. split; [exact Herr|].
    rewrite Herr in Hfall.
    eapply Hfall; [vm_compute; discriminate | run].
Defined.

(** ** Addresses *)

Lemma Contains_append (a b : string) (c : ascii) :
  strings.Contains (a ++ b) c = strings.Contains a c || strings.Contains b c.
Proof.
  induction a as [|x a IH]; cbn; [reflexivity|].
  rewrite IH. now rewrite orb_assoc.
Qed.


Section Addresses.

Context `{Json} `{Peer}.


End Addresses.

(** ** Registration and the UpdateHost flag *)

Section Registration.

Context `{Build} `{Json} `{Peer}.

(** [RegisterHost] sends once: a send without error has the status
    "success", so the second request is never reached. *)
Lemma RegisterHost_sends_once (host hostmetadata : string) (m : Machine) :
  RegisterHost host hostmetadata m
  = match Send (activeChecks host hostmetadata) m with
    | Some ((_, Some e), m') => Some (Some (SendingPacket e), m')
    | Some ((_, None), m') => Some (None, m')
    | None => None
    end.
Proof.
  unfold RegisterHost, bind at 1.
  destruct (Send (activeChecks host hostmetadata) m) as [[[res [e|]] m']|] eqn:Hsend;
    try reflexivity.
  apply Send_success in Hsend. apply String.eqb_eq in Hsend.
  now rewrite Hsend.
Qed.

End Registration.

Section Flag.

Context `{Build} `{Json} `{Peer}.

Lemma sendOnce_flag (flag : bool) (packet : Packet) (host : string) (m : Machine) :
  sendOnce packet host (flagged flag m) = flaggedRun flag (sendOnce packet host m).
Proof.
  unfold sendOnce, bind, self, transfer, ret.
  cbn [flagged sender trace withUpdateHost ConnectTimeout WriteTimeout ReadTimeout].
  destruct (if String.eqb host "" then DialError "missing address"
            else exchange (trace m) host (requestBuffer packet))
    as [cause|cause|cause|response]; try reflexivity.
  destruct (Nat.ltb (List.length response) 13); [reflexivity|].
  destruct (sliceTo response 5) as [header|]; [|reflexivity].
  destruct (sliceFrom response 13) as [data|]; [|reflexivity].
  destruct (negb (bytes_Equal header getHeader)); [reflexivity|].
  destruct (json_Unmarshal data) as [res [cause|]]; reflexivity.
Qed.

Lemma redirectLoop_flag (flag : bool) (rounds : nat) (packet : Packet)
  (startHost currentHost : string) (res0 : Response) (m : Machine) :
  redirectLoop rounds packet startHost currentHost res0 (flagged flag m)
  = flaggedRun flag (redirectLoop rounds packet startHost currentHost res0 m).
Proof.
  revert currentHost res0 m.
  induction rounds as [|rounds IH]; intros currentHost res0 m; [reflexivity|].
  cbn [redirectLoop]. unfold bind. rewrite sendOnce_flag.
  destruct (sendOnce packet currentHost m) as [[[res [e|]] m1]|];
    cbn [flaggedRun]; try reflexivity.
  destruct (String.eqb (Response_ res) "success"); [reflexivity|].
  destruct (Redirect res) as [redirect|]; [|reflexivity].
  destruct (String.eqb (Address redirect) ""); [reflexivity|].
  destruct (parseHostPort (Address redirect)) as [newHost|e]; [|reflexivity].
  apply IH.
Qed.

Lemma sendWithRedirects_flag (flag : bool) (packet : Packet)
  (startHost : string) (m : Machine) :
  sendWithRedirects packet startHost (flagged flag m)
  = flaggedRun flag (sendWithRedirects packet startHost m).
Proof.
  unfold sendWithRedirects, bind, self, emit.
  cbn [flagged sender trace withUpdateHost MaxRedirects].
  apply (redirectLoop_flag flag _ packet startHost startHost zeroResponse
           {| sender := sender m; trace := trace m ++ [Drive startHost] |}).
Qed.

Lemma fallback_flag (flag : bool) (packet : Packet) (hosts : list string)
  (res0 : Response) (m : Machine) :
  fallback packet hosts res0 (flagged flag m)
  = flaggedRun flag (fallback packet hosts res0 m).
Proof.
  revert res0 m. induction hosts as [|host rest IH]; intros res0 m;
    [reflexivity|].
  cbn [fallback]. unfold bind. rewrite sendWithRedirects_flag.
  destruct (sendWithRedirects packet host m) as [[[res [e|]] m1]|];
    cbn [flaggedRun]; try reflexivity.
  apply IH.
Qed.

(** No send reads [UpdateHost]: with the flag set or cleared the same
    exchanges take place, the same value is returned, and the sender left
    behind has the same address list and the same cached primary. *)
Lemma Send_flag (flag : bool) (packet : Packet) (m : Machine) :
  Send packet (flagged flag m) = flaggedRun flag (Send packet m).
Proof.
  unfold Send, bind at 1, self. unfold bind at 3.
  cbn [flagged sender withUpdateHost PrimaryHost Hosts].
  change {| sender := withUpdateHost flag (sender m); trace := trace m |}
    with (flagged flag m).
  destruct (negb (String.eqb (PrimaryHost (sender m)) "")).
  - unfold bind. rewrite sendWithRedirects_flag.
    destruct (sendWithRedirects packet (PrimaryHost (sender m)) m)
      as [[[res [e|]] m1]|]; cbn [flaggedRun]; try reflexivity.
    apply (fallback_flag flag packet (Hosts (sender m)) res (stored "" m1)).
  - apply fallback_flag.
Qed.

End Flag.



(** C1 (the code at the failing input): the only configured address
    answers the first request "failed" and would answer a second one
    "success"; [RegisterHost] fails after the first request, the only
    one it makes. *)
Theorem RegisterHost_failed_first :
  dials (observe (@RegisterHost zabbix sampleJson (scripted [fails; succeeds])
                    "prueba" "prueba")
           (boot (NewSender "a")))
  = Some (Some (SendingPacket (AllHostsFailed 1)), ["a:10051"]).
Proof. vm_compute. reflexivity. Qed.

(** C7 (the code at the failing input): the configured address a
    redirects to b, which accepts.  With [UpdateHost] set or cleared the
    send succeeds through the redirect and leaves the address list [a] and
    the cached primary a: b is recorded nowhere. *)
Theorem Send_redirect_either_flag (flag : bool) :
  match observe (@Send zabbix sampleJson (scripted [redirects; succeeds]) prueba)
          (boot (withUpdateHost flag (NewSender "a"))) with
  | Some ((res, err), s, t) =>
      err = None
      /\ dialled t = ["a:10051"; "b:10051"]
      /\ Hosts s = ["a:10051"]
      /\ PrimaryHost s = "a:10051"
      /\ UpdateHost s = flag
  | None => False
  end.
Proof. destruct flag; vm_compute; repeat split. Qed.

(** * Further properties *)

(** ** The length field and the mock server *)

Lemma byteOf_small_shift (v n : Z) :
  0 <= v < 2 ^ 32 -> 32 <= n -> byteOf (Z.shiftr v n) = x00.
Proof.
  intros Hv Hn. rewrite Z.shiftr_div_pow2 by lia.
  rewrite Z.div_small; [reflexivity|].
  split; [lia|]. apply Z.lt_le_trans with (2 ^ 32); [lia|].
  apply Z.pow_le_mono_r; lia.
Qed.

Lemma ReadFull_app (a b : list byte) :
  io.ReadFull (List.length a) (a ++ b) = (Ok a, b).
Proof.
  unfold io.ReadFull. rewrite length_app.
  destruct (Nat.leb_spec (List.length a) (List.length a + List.length b)); [|lia].
  rewrite firstn_app, skipn_app, Nat.sub_diag, firstn_all, skipn_all.
  cbn. now rewrite app_nil_r.
Qed.

Section LengthField.

Context `{Json}.

Lemma Uint_DataLen_small (p : Packet) :
  Z.of_nat (List.length (json_Marshal p)) < 2 ^ 32 ->
  binary.Uint (DataLen p) = Z.of_nat (List.length (json_Marshal p)).
Proof.
  intros Hlen. unfold DataLen, uint32. rewrite Z.mod_small by lia.
  apply Uint_PutUint32_zero. lia.
Qed.

(** X1: for every packet, [DataLen] is 8 bytes of which the last four are
    zero, and read as a little-endian integer it is the byte length of the
    JSON encoding modulo 2^32. *)
Theorem DataLen_modulo (p : Packet) :
  List.length (DataLen p) = 8%nat
  /\ skipn 4 (DataLen p) = [x00; x00; x00; x00]
  /\ binary.Uint (DataLen p) = Z.of_nat (List.length (json_Marshal p)) mod 2 ^ 32.
Proof.
  split; [reflexivity|]. split; [reflexivity|].
  unfold DataLen, uint32. apply Uint_PutUint32_zero.
  apply Z.mod_pos_bound. lia.
Qed.

(** X2: for a packet whose JSON encoding is shorter than 2^32 bytes,
    [DataLen] returns the very bytes that [encodeDataLength] of the tests
    (which writes with PutUint64) returns for the length of the
    encoding. *)
Theorem DataLen_encodeDataLength (p : Packet) :
  Z.of_nat (List.length (json_Marshal p)) < 2 ^ 32 ->
  DataLen p = encodeDataLength (Z.of_nat (List.length (json_Marshal p))).
Proof.
  intros Hlen. unfold DataLen, encodeDataLength, uint32.
  rewrite Z.mod_small by lia.
  set (v := Z.of_nat (List.length (json_Marshal p))).
  assert (Hv : 0 <= v < 2 ^ 32) by (unfold v; lia).
  unfold binary.PutUint32, binary.PutUint64.
  rewrite (byteOf_small_shift v 32 Hv), (byteOf_small_shift v 40 Hv),
    (byteOf_small_shift v 48 Hv), (byteOf_small_shift v 56 Hv) by lia.
  reflexivity.
Qed.

Context `{RequestJson}.

(** X3: what [sendOnce] writes, the mock server of the tests reads back:
    for a packet whose JSON encoding is shorter than 2^32 bytes,
    [readZabbixRequest] on the request buffer followed by any further
    bytes hands exactly the JSON encoding of the packet to [json.Unmarshal]
    and leaves the further bytes unread. *)
Theorem readZabbixRequest_requestBuffer (p : Packet) (rest : list byte) :
  Z.of_nat (List.length (json_Marshal p)) < 2 ^ 32 ->
  readZabbixRequest (requestBuffer p ++ rest)
  = (match unmarshalRequest (json_Marshal p) with
     | Err cause => Err (UnmarshalRequest cause)
     | Ok request => Ok request
     end, rest).
Proof.
  intros Hlen. unfold readZabbixRequest, requestBuffer.
  rewrite <- !app_assoc.
  rewrite (ReadFull_app getHeader (DataLen p ++ json_Marshal p ++ rest)
           : io.ReadFull 5 _ = _).
  rewrite (ReadFull_app (DataLen p) (json_Marshal p ++ rest)
           : io.ReadFull 8 _ = _).
  rewrite (Uint_DataLen_small p Hlen), Nat2Z.id, ReadFull_app.
  destruct (unmarshalRequest (json_Marshal p)); reflexivity.
Qed.

End LengthField.

(** ** Responses and drives *)

Section Drives.

Context `{Build} `{Json} `{Peer}.

(** X4: a response made of the 5 header bytes, any 8 bytes and a body is
    decoded from the body alone: the attempt returns what [json.Unmarshal]
    makes of the body, with the error "response ... is not valid" exactly
    when [json.Unmarshal] fails.  The 8 length bytes are not looked at. *)
Theorem sendOnce_framed_response (packet : Packet) (host : string)
  (m m' : Machine) (lengthBytes data : list byte) :
  List.length lengthBytes = 8%nat ->
  transfer host (requestBuffer packet) m
  = Some (Received (getHeader ++ lengthBytes ++ data), m') ->
  sendOnce packet host m
  = Some (match json_Unmarshal data with
          | (res, Some cause) => (res, Some (InvalidResponse host cause))
          | (res, None) => (res, None)
          end, m').
Proof.
  intros Hlen Hrecv.
  unfold sendOnce, bind, self. cbn [sender]. rewrite Hrecv.
  set (response := getHeader ++ lengthBytes ++ data).
  assert (Hsize : (13 <= List.length response)%nat).
  { unfold response. rewrite !length_app, Hlen. cbn. lia. }
  destruct (Nat.ltb_spec (List.length response) 13); [lia|].
  unfold sliceTo, sliceFrom.
  destruct (Nat.leb_spec 5 (List.length response)); [|lia].
  destruct (Nat.leb_spec 13 (List.length response)); [|lia].
  assert (Hhead : firstn 5 response = getHeader) by reflexivity.
  assert (Hbody : skipn 13 response = data).
  { unfold response. change 13%nat with (8 + 5)%nat.
    rewrite <- skipn_skipn.
    change (skipn 5 (getHeader ++ lengthBytes ++ data)) with (lengthBytes ++ data).
    rewrite <- Hlen, skipn_app, skipn_all, Nat.sub_diag. reflexivity. }
  rewrite Hhead, Hbody. unfold bytes_Equal.
  destruct (list_eq_dec Byte.byte_eq_dec getHeader getHeader); [|contradiction].
  cbn [negb]. destruct (json_Unmarshal data) as [res [cause|]]; reflexivity.
Qed.

(** An attempt that fails does so with a ConnectError, an IOError or a
    ProtocolError. *)
Lemma sendOnce_kind (packet : Packet) (host : string) (m m' : Machine)
  (res : Response) (e : Error) :
  sendOnce packet host m = Some ((res, Some e), m') -> transportKind (kind e).
Proof.
  unfold sendOnce, bind, self, transfer, ret, transportKind. cbn [sender trace].
  destruct (if String.eqb host "" then DialError "missing address"
            else exchange (trace m) host (requestBuffer packet))
    as [cause|cause|cause|response].
  - intros [= _ <- _]. now left.
  - intros [= _ <- _]. right. now left.
  - intros [= _ <- _]. right. now left.
  - destruct (Nat.ltb (List.length response) 13);
      [intros [= _ <- _]; right; now right|].
    destruct (sliceTo response 5) as [header|]; [|discriminate].
    destruct (sliceFrom response 13) as [data|]; [|discriminate].
    destruct (negb (bytes_Equal header getHeader));
      [intros [= _ <- _]; right; now right|].
    destruct (json_Unmarshal data) as [r [cause|]]; [|discriminate].
    intros [= _ <- _]. right. now right.
Qed.

(** After a chain of redirects the loop goes on from where the chain
    ends, with as many iterations fewer as the chain is long. *)
Lemma redirectLoop_chain (k extra : nat) (packet : Packet)
  (startHost currentHost : string) (res0 : Response) (m : Machine)
  (final : string -> Machine -> Prop) :
  redirectChain k packet currentHost m final ->
  exists host mk resk,
    final host mk
    /\ redirectLoop (k + S extra) packet startHost currentHost res0 m
       = redirectLoop (S extra) packet startHost host resk mk.
Proof.
  revert currentHost res0 m.
  induction k as [|k IH]; intros currentHost res0 m Hchain.
  - exists currentHost, m, res0. split; [exact Hchain | reflexivity].
  - destruct Hchain as (r & redirect & newHost & m1 & Honce & Hstatus & Hred & Haddr & Hparse & Hrest).
    destruct (IH newHost r m1 Hrest) as (host & mk & resk & Hfinal & Hloop).
    exists host, mk, resk. split; [exact Hfinal|].
    rewrite <- Hloop.
    change (S k + S extra)%nat with (S (k + S extra)).
    generalize (k + S extra)%nat. intros n.
    cbn [redirectLoop]. unfold bind at 1. rewrite Honce.
    apply String.eqb_neq in Hstatus, Haddr.
    now rewrite Hstatus, Hred, Haddr, Hparse.
Qed.

(** X5: how a drive ends after [k] redirects, for any [k] up to
    [MaxRedirects]: the attempt at the address the chain leads to decides.
    A transport error is returned wrapped with that address; a "success"
    is returned as it is; a response without a usable redirect gives the
    error "failed without redirect" naming that address (not the starting
    one) and the status; a redirect whose address [parseHostPort] turns
    down gives the error of [parseHostPort].  No further attempt follows. *)
Theorem sendWithRedirects_ends (k : nat) (packet : Packet)
  (startHost host : string) (m mk m' : Machine) (res : Response)
  (err : option Error) :
  Z.of_nat k <= MaxRedirects (sender m) ->
  redirectChain k packet startHost (extend m [Drive startHost])
    (fun h mh => h = host /\ mh = mk) ->
  sendOnce packet host mk = Some ((res, err), m') ->
  (forall e, err = Some e ->
     sendWithRedirects packet startHost m
     = Some ((res, Some (SendOnceFailed host e)), m'))
  /\ (err = None -> Response_ res = "success" ->
      sendWithRedirects packet startHost m = Some ((res, None), m'))
  /\ (err = None -> Response_ res <> "success" ->
      (Redirect res = None
       \/ exists redirect, Redirect res = Some redirect /\ Address redirect = "") ->
      sendWithRedirects packet startHost m
      = Some ((res, Some (FailedWithoutRedirect host (Response_ res))), m')
      /\ kind (FailedWithoutRedirect host (Response_ res)) = RejectedError)
  /\ (forall redirect e,
        err = None -> Response_ res <> "success" ->
        Redirect res = Some redirect -> Address redirect <> "" ->
        parseHostPort (Address redirect) = Err e ->
        sendWithRedirects packet startHost m = Some ((res, Some e), m')).
Proof.
  intros Hk Hchain Honce.
  assert (Hloop : exists resk,
             sendWithRedirects packet startHost m
             = redirectLoop (S (Z.to_nat (MaxRedirects (sender m)) - k))
                 packet startHost host resk mk).
  { unfold sendWithRedirects, bind, self, emit. cbn [sender trace].
    change {| sender := sender m; trace := trace m ++ [Drive startHost] |}
      with (extend m [Drive startHost]).
    replace (Z.to_nat (MaxRedirects (sender m) + 1))
      with (k + S (Z.to_nat (MaxRedirects (sender m)) - k))%nat by lia.
    destruct (redirectLoop_chain k (Z.to_nat (MaxRedirects (sender m)) - k)
                packet startHost startHost zeroResponse _ _ Hchain)
      as (h & mh & resk & (-> & ->) & Heq).
    exists resk. exact Heq. }
  destruct Hloop as (resk & ->).
  cbn [redirectLoop]. unfold bind at 1 2 3 4. rewrite Honce.
  split; [|split; [|split]].
  - intros e ->. reflexivity.
  - intros -> Hsucc. apply String.eqb_eq in Hsucc. now rewrite Hsucc.
  - intros -> Hfail Hnone. apply String.eqb_neq in Hfail. rewrite Hfail.
    split; [|reflexivity].
    destruct Hnone as [-> | (redirect & -> & Haddr)]; [reflexivity|].
    rewrite Haddr. reflexivity.
  - intros redirect e -> Hfail Hred Haddr Hparse.
    apply String.eqb_neq in Hfail, Haddr.
    now rewrite Hfail, Hred, Haddr, Hparse.
Qed.

End Drives.

(** ** Attempts of a drive and of a send *)

Lemma buffers_app (t1 t2 : list Event) :
  buffers (t1 ++ t2) = buffers t1 ++ buffers t2.
Proof.
  induction t1 as [|[host buffer|startHost|host] t1 IH]; cbn;
    [reflexivity | now rewrite IH | assumption | assumption].
Qed.

Section Attempts.

Context `{Build} `{Json} `{Peer}.

Lemma redirectLoop_attempts (n : nat) (packet : Packet)
  (startHost currentHost : string) (res0 : Response) (m : Machine) :
  exists res err t,
    redirectLoop n packet startHost currentHost res0 m
    = Some ((res, err), extend m t)
    /\ (List.length (dialled t) <= n)%nat
    /\ Forall (fun buffer => buffer = requestBuffer packet) (buffers t)
    /\ ((forall addr e, parseHostPort addr = Err e -> kind e = InvalidRedirectError) ->
        forall e, err = Some e -> driveKind (kind e)).
Proof.
  revert currentHost res0 m.
  induction n as [|n IH]; intros currentHost res0 m.
  - exists res0, (Some (MaxRedirectsExceeded startHost)), [].
    cbn [redirectLoop]. unfold ret. rewrite extend_nil.
    split; [reflexivity|]. split; [cbn; lia|]. split; [constructor|].
    intros _ e [= <-]. unfold driveKind. cbn. tauto.
  - cbn [redirectLoop]. unfold bind at 1.
    destruct (sendOnce_effect packet currentHost m) as (res & err & Honce).
    rewrite Honce.
    set (ev := Exchange currentHost (requestBuffer packet)).
    assert (Hone : forall (res' : Response) (err' : option Error),
               (forall e, err' = Some e -> driveKind (kind e)) ->
               exists res1 err1 t,
                 Some ((res', err'), extend m [ev]) = Some ((res1, err1), extend m t)
                 /\ (List.length (dialled t) <= S n)%nat
                 /\ Forall (fun buffer => buffer = requestBuffer packet) (buffers t)
                 /\ ((forall addr e, parseHostPort addr = Err e ->
                                     kind e = InvalidRedirectError) ->
                     forall e, err1 = Some e -> driveKind (kind e))).
    { intros res' err' Hkind. exists res', err', [ev].
      split; [reflexivity|]. split; [cbn; lia|].
      split; [repeat constructor|]. intros _. exact Hkind. }
    destruct err as [failure|].
    { apply Hone. intros e [= <-]. left. cbn [kind].
      eapply sendOnce_kind. exact Honce. }
    destruct (String.eqb (Response_ res) "success"); [apply Hone; discriminate|].
    assert (Hrejected : forall e,
               Some (FailedWithoutRedirect currentHost (Response_ res)) = Some e ->
               driveKind (kind e)).
    { intros e [= <-]. unfold driveKind. cbn. tauto. }
    destruct (Redirect res) as [redirect|]; [|apply Hone; exact Hrejected].
    destruct (String.eqb (Address redirect) ""); [apply Hone; exact Hrejected|].
    destruct (parseHostPort (Address redirect)) as [newHost|failure] eqn:Hparse.
    + destruct (IH newHost res (extend m [ev]))
        as (res1 & err1 & t & Hrun & Hcount & Hbuf & Hkind).
      exists res1, err1, (ev :: t). rewrite Hrun, extend_extend.
      split; [reflexivity|]. split; [cbn; lia|].
      split; [constructor; [reflexivity | exact Hbuf] | exact Hkind].
    + exists res, (Some failure), [ev].
      split; [reflexivity|]. split; [cbn; lia|].
      split; [repeat constructor|].
      intros Hbuild e [= <-]. unfold driveKind.
      rewrite (Hbuild _ _ Hparse). tauto.
Qed.

(** X6: with [MaxRedirects] below the largest [int], a drive returns
    after at most [MaxRedirects + 1] attempts, none when [MaxRedirects] is
    negative, and writes the same request buffer in each; when
    [parseHostPort] fails with an InvalidRedirectError only (as both
    revisions do), a drive that fails does so with a ConnectError, IOError,
    ProtocolError, RejectedError, InvalidRedirectError or
    RedirectLimitExceeded. *)
Theorem sendWithRedirects_attempts (packet : Packet) (startHost : string)
  (m : Machine) :
  MaxRedirects (sender m) < maxInt ->
  exists res err t,
    sendWithRedirects packet startHost m
    = Some ((res, err), extend m (Drive startHost :: t))
    /\ Z.of_nat (List.length (dialled t)) <= Z.max 0 (MaxRedirects (sender m) + 1)
    /\ Forall (fun buffer => buffer = requestBuffer packet) (buffers t)
    /\ ((forall addr e, parseHostPort addr = Err e -> kind e = InvalidRedirectError) ->
        forall e, err = Some e -> driveKind (kind e)).
Proof.
  intros _. unfold sendWithRedirects, bind, self, emit. cbn [sender trace].
  change {| sender := sender m; trace := trace m ++ [Drive startHost] |}
    with (extend m [Drive startHost]).
  destruct (redirectLoop_attempts (Z.to_nat (MaxRedirects (sender m) + 1)) packet
              startHost startHost zeroResponse (extend m [Drive startHost]))
    as (res & err & t & Hrun & Hcount & Hbuf & Hkind).
  exists res, err, t. rewrite Hrun, extend_extend.
  split; [reflexivity|]. split; [lia|]. split; assumption.
Qed.

Lemma sendWithRedirects_bounded (packet : Packet) (startHost : string)
  (m : Machine) :
  exists res err t,
    sendWithRedirects packet startHost m
    = Some ((res, err), extend m (Drive startHost :: t))
    /\ (List.length (dialled t) <= iterations (sender m))%nat
    /\ Forall (fun buffer => buffer = requestBuffer packet) (buffers t).
Proof.
  unfold sendWithRedirects, bind, self, emit. cbn [sender trace].
  change {| sender := sender m; trace := trace m ++ [Drive startHost] |}
    with (extend m [Drive startHost]).
  destruct (redirectLoop_attempts (Z.to_nat (MaxRedirects (sender m) + 1)) packet
              startHost startHost zeroResponse (extend m [Drive startHost]))
    as (res & err & t & Hrun & Hcount & Hbuf & _).
  exists res, err, t. rewrite Hrun, extend_extend.
  split; [reflexivity|]. split; assumption.
Qed.

Lemma fallback_bounded (packet : Packet) (hosts : list string) (res0 : Response)
  (m : Machine) :
  exists res err m' t,
    fallback packet hosts res0 m = Some ((res, err), m')
    /\ trace m' = trace m ++ t
    /\ (List.length (dialled t) <= List.length hosts * iterations (sender m))%nat
    /\ Forall (fun buffer => buffer = requestBuffer packet) (buffers t).
Proof.
  revert res0 m. induction hosts as [|host rest IH]; intros res0 m.
  - do 2 eexists. exists m, []. split; [reflexivity|].
    rewrite app_nil_r. split; [reflexivity|]. split; [cbn; lia | constructor].
  - cbn [fallback]. unfold bind at 1.
    destruct (sendWithRedirects_bounded packet host m)
      as (res1 & err1 & t1 & Hrun & Hcount & Hbuf).
    rewrite Hrun. destruct err1 as [e1|].
    + destruct (IH res1 (extend m (Drive host :: t1)))
        as (res & err & m' & t & Hrest & Htrace & Hcount' & Hbuf').
      exists res, err, m', ((Drive host :: t1) ++ t).
      split; [exact Hrest|]. split; [|split].
      * rewrite Htrace. cbn [extend trace]. now rewrite app_assoc.
      * rewrite dialled_app, length_app.
        cbn [dialled List.length extend sender] in *. nia.
      * rewrite buffers_app. apply Forall_app. split; assumption.
    + do 2 eexists.
      exists (stored host (extend m (Drive host :: t1))),
        ((Drive host :: t1) ++ [StorePrimaryHost host]).
      split; [reflexivity|]. split; [|split].
      * cbn [stored extend trace]. now rewrite app_assoc.
      * rewrite dialled_app, length_app. cbn [dialled List.length]. nia.
      * rewrite buffers_app. cbn [buffers]. now rewrite app_nil_r.
Qed.

(** X7: with [MaxRedirects] below the largest [int], a send returns;
    every exchange it has made wrote the request buffer of the packet
    sent, unchanged from address to address and from redirect to redirect,
    and it has made at most [MaxRedirects + 1] attempts for each address
    of the list and for the cached primary, if one is set. *)
Theorem Send_exchanges (packet : Packet) (m : Machine) :
  MaxRedirects (sender m) < maxInt ->
  exists res err m',
    Send packet m = Some ((res, err), m')
    /\ Forall (fun buffer => buffer = requestBuffer packet) (buffers (since m m'))
    /\ (List.length (dialled (since m m'))
        <= (List.length (Hosts (sender m))
            + (if String.eqb (PrimaryHost (sender m)) "" then 0 else 1))
           * Z.to_nat (MaxRedirects (sender m) + 1))%nat.
Proof.
  intros _. fold (iterations (sender m)).
  unfold Send, bind at 1, self.
  destruct (String.eqb (PrimaryHost (sender m)) ""); cbn [negb].
  - destruct (fallback_bounded packet (Hosts (sender m)) zeroResponse m)
      as (res & err & m' & t & Hrun & Htrace & Hcount & Hbuf).
    exists res, err, m'. rewrite (since_trace m m' Htrace).
    split; [exact Hrun|]. split; [exact Hbuf | nia].
  - unfold bind at 1.
    destruct (sendWithRedirects_bounded packet (PrimaryHost (sender m)) m)
      as (res1 & err1 & t1 & Hrun & Hcount & Hbuf).
    rewrite Hrun. destruct err1 as [e1|].
    + unfold bind at 1, storePrimaryHost.
      destruct (fallback_bounded packet (Hosts (sender m)) res1
                  (stored "" (extend m (Drive (PrimaryHost (sender m)) :: t1))))
        as (res & err & m' & t2 & Hrest & Htrace & Hcount' & Hbuf').
      exists res, err, m'. split; [exact Hrest|].
      assert (Hsince : trace m'
                       = trace m ++ (Drive (PrimaryHost (sender m)) :: t1)
                                 ++ StorePrimaryHost "" :: t2).
      { rewrite Htrace. cbn [stored extend trace]. now rewrite <- !app_assoc. }
      rewrite (since_trace m m' Hsince). split.
      * rewrite buffers_app. cbn [buffers]. apply Forall_app. split; assumption.
      * rewrite dialled_app, length_app.
        unfold iterations in *.
        cbn [dialled List.length stored extend sender withPrimaryHost
             MaxRedirects] in *. nia.
    + exists res1, None, (extend m (Drive (PrimaryHost (sender m)) :: t1)).
      split; [reflexivity|]. rewrite since_trace with (t := Drive (PrimaryHost (sender m)) :: t1)
        by reflexivity.
      split; [exact Hbuf|]. unfold iterations in *. cbn [dialled]. nia.
Qed.

End Attempts.

(** ** The counter of the redirect loop *)

Lemma int_small (z : Z) : - 2 ^ 63 <= z < 2 ^ 63 -> int z = z.
Proof. intros Hz. unfold int. rewrite Z.mod_small; lia. Qed.

Lemma int_range (z : Z) : - 2 ^ 63 <= int z <= maxInt.
Proof.
  unfold int, maxInt. pose proof (Z.mod_pos_bound (z + 2 ^ 63) (2 ^ 64) ltac:(lia)). lia.
Qed.

Section Counter.

Context `{Build} `{Json} `{Peer}.

(** Below the largest [int] the loop with its counter does what the loop
    over the number of iterations left does. *)
Lemma countedLoop_redirectLoop (rounds : nat) :
  forall (fuel : nat) (packet : Packet) (startHost currentHost : string)
         (redirectCount : Z) (res0 : Response) (m : Machine),
    MaxRedirects (sender m) < maxInt ->
    - 2 ^ 63 <= redirectCount ->
    Z.of_nat rounds = Z.max 0 (MaxRedirects (sender m) + 1 - redirectCount) ->
    (rounds < fuel)%nat ->
    countedLoop fuel packet startHost currentHost redirectCount res0 m
    = returned (redirectLoop rounds packet startHost currentHost res0 m).
Proof.
  induction rounds as [|rounds IH];
    intros fuel packet startHost currentHost redirectCount res0 m Hmax Hlow Hrounds Hfuel;
    (destruct fuel as [|fuel]; [lia|]);
    cbn [countedLoop redirectLoop]; unfold bind at 1, self.
  - destruct (Z.leb_spec redirectCount (MaxRedirects (sender m))); [lia|].
    reflexivity.
  - destruct (Z.leb_spec redirectCount (MaxRedirects (sender m))); [|lia].
    unfold bind.
    destruct (sendOnce_effect packet currentHost m) as (res & err & Hrun).
    rewrite Hrun. destruct err as [e|]; [reflexivity|].
    destruct (String.eqb (Response_ res) "success"); [reflexivity|].
    destruct (Redirect res) as [redirect|]; [|reflexivity].
    destruct (String.eqb (Address redirect) ""); [reflexivity|].
    destruct (parseHostPort (Address redirect)) as [newHost|e]; [|reflexivity].
    unfold maxInt in Hmax.
    rewrite int_small by lia.
    apply IH; cbn [extend sender]; unfold maxInt; lia.
Qed.

(** At the largest [int] the guard of the loop holds for every value of
    the counter: no iteration ends the loop with the limit. *)
Lemma countedLoop_unlimited (fuel : nat) :
  forall (packet : Packet) (startHost currentHost : string) (redirectCount : Z)
         (res0 res : Response) (e : Error) (m m' : Machine),
    MaxRedirects (sender m) = maxInt ->
    redirectCount <= maxInt ->
    (forall addr cause, parseHostPort addr = Err cause ->
                        kind cause = InvalidRedirectError) ->
    countedLoop fuel packet startHost currentHost redirectCount res0 m
    = Some (Some (res, Some e), m') ->
    kind e <> RedirectLimitExceeded.
Proof.
  induction fuel as [|fuel IH];
    intros packet startHost currentHost redirectCount res0 res e m m' Hmax Hcount Hbuild;
    cbn [countedLoop]; [discriminate|].
  unfold bind at 1, self.
  destruct (Z.leb_spec redirectCount (MaxRedirects (sender m))); [|lia].
  unfold bind.
  destruct (sendOnce_effect packet currentHost m) as (res1 & err1 & Hrun).
  rewrite Hrun. destruct err1 as [e1|].
  { intros [= _ <- _]. cbn [kind].
    destruct (sendOnce_kind _ _ _ _ _ _ Hrun) as [Hk | [Hk | Hk]];
      rewrite Hk; discriminate. }
  destruct (String.eqb (Response_ res1) "success"); [discriminate|].
  destruct (Redirect res1) as [redirect|];
    [|intros [= _ <- _]; discriminate].
  destruct (String.eqb (Address redirect) "");
    [intros [= _ <- _]; discriminate|].
  destruct (parseHostPort (Address redirect)) as [newHost|cause] eqn:Hparse.
  - apply IH; [exact Hmax | apply int_range | exact Hbuild].
  - intros [= _ <- _]. rewrite (Hbuild _ _ Hparse). discriminate.
Qed.

(** At the largest [int], after a chain of redirects of any length the
    loop is still running. *)
Lemma countedLoop_running (n : nat) :
  forall (packet : Packet) (startHost currentHost : string) (redirectCount : Z)
         (res0 : Response) (m m' : Machine) (host : string),
    MaxRedirects (sender m) = maxInt ->
    redirectCount <= maxInt ->
    redirectChain n packet currentHost m (fun h mk => h = host /\ mk = m') ->
    countedLoop n packet startHost currentHost redirectCount res0 m
    = Some (None, m').
Proof.
  induction n as [|n IH];
    intros packet startHost currentHost redirectCount res0 m m' host Hmax Hcount;
    cbn [redirectChain countedLoop].
  - now intros (_ & ->).
  - intros (res & redirect & newHost & m1 & Hrun & Hstatus & Hred & Haddr & Hparse & Hchain).
    unfold bind at 1, self.
    destruct (Z.leb_spec redirectCount (MaxRedirects (sender m))); [|lia].
    unfold bind. rewrite Hrun.
    apply String.eqb_neq in Hstatus, Haddr.
    rewrite Hstatus, Hred, Haddr, Hparse.
    apply (IH _ _ _ _ _ _ _ host); [|apply int_range|exact Hchain].
    destruct (sendOnce_effect packet currentHost m) as (r & err & Hrun').
    rewrite Hrun' in Hrun. injection Hrun as _ _ <-. exact Hmax.
Qed.

(** X21: the loop of [sendWithRedirects] with its counter.  With
    [MaxRedirects] below the largest [int] it returns, within
    [MaxRedirects + 2] evaluations of its guard, what the loop over
    [MaxRedirects + 1] iterations returns.  With [MaxRedirects] the largest
    [int] the counter wraps around and the guard never fails: no drive ends
    with RedirectLimitExceeded (as long as [parseHostPort] fails with an
    InvalidRedirectError only, as both revisions do), and after a chain of
    redirects of any length the loop is still running. *)
Theorem sendWithRedirects_counter (packet : Packet) (startHost : string)
  (m : Machine) :
  (MaxRedirects (sender m) < maxInt ->
   forall fuel,
     (Z.to_nat (MaxRedirects (sender m) + 1) < fuel)%nat ->
     sendWithRedirects_counted fuel packet startHost m
     = returned (sendWithRedirects packet startHost m))
  /\ (MaxRedirects (sender m) = maxInt ->
      (forall fuel res e m',
          (forall addr cause, parseHostPort addr = Err cause ->
                              kind cause = InvalidRedirectError) ->
          sendWithRedirects_counted fuel packet startHost m
          = Some (Some (res, Some e), m') ->
          kind e <> RedirectLimitExceeded)
      /\ (forall n host m',
             redirectChain n packet startHost (extend m [Drive startHost])
               (fun h mk => h = host /\ mk = m') ->
             sendWithRedirects_counted n packet startHost m = Some (None, m'))).
Proof.
  unfold sendWithRedirects_counted, sendWithRedirects, bind, self, emit.
  cbn [sender trace].
  change {| sender := sender m; trace := trace m ++ [Drive startHost] |}
    with (extend m [Drive startHost]).
  split; [|split].
  - intros Hmax fuel Hfuel.
    apply countedLoop_redirectLoop; cbn [extend sender]; lia.
  - intros fuel res e m' Hbuild.
    apply countedLoop_unlimited; [assumption | unfold maxInt; lia | exact Hbuild].
  - intros n host m'.
    apply countedLoop_running; [assumption | unfold maxInt; lia].
Qed.

End Counter.

(** ** What a send leaves behind *)

Lemma withPrimaryHost_same (s : Sender) : withPrimaryHost (PrimaryHost s) s = s.
Proof. destruct s. reflexivity. Qed.

Section Frame.

Context `{Build} `{Json} `{Peer}.

(** The sender a send leaves and the error it returns. *)
Lemma Send_state (packet : Packet) (m : Machine) :
  exists res err m',
    Send packet m = Some ((res, err), m')
    /\ sender m' = withPrimaryHost (PrimaryHost (sender m')) (sender m)
    /\ match err with
       | None => PrimaryHost (sender m') <> "" /\ 0 <= MaxRedirects (sender m)
       | Some e =>
           PrimaryHost (sender m') = ""
           /\ e = AllHostsFailed (Z.of_nat (List.length (Hosts (sender m))))
       end.
Proof.
  destruct (Send_effect packet m) as (res & err & m' & t & Hrun & _ & Hcase).
  exists res, err, m'. split; [exact Hrun|].
  assert (Hfall : forall m0 t0,
             sender m0 = withPrimaryHost "" (sender m) ->
             fallbackOutcome packet (Hosts (sender m)) m0 res err m' t0 ->
             sender m' = withPrimaryHost (PrimaryHost (sender m')) (sender m)
             /\ match err with
                | None => PrimaryHost (sender m') <> "" /\ 0 <= MaxRedirects (sender m)
                | Some e =>
                    PrimaryHost (sender m') = ""
                    /\ e = AllHostsFailed (Z.of_nat (List.length (Hosts (sender m))))
                end).
  { intros m0 t0 Hm0 (_ & _ & Hout). destruct err as [e|].
    - destruct Hout as (-> & -> & _). rewrite Hm0. repeat split.
    - destruct Hout as (k & host & pre & m2 & _ & _ & Hgood & _ & Hsender & _).
      destruct (sendWithRedirects_success Hgood) as (Hmax & Hne & _).
      cbn [extend sender] in Hmax. rewrite Hm0 in Hmax.
      cbn [withPrimaryHost MaxRedirects] in Hmax.
      rewrite Hsender, Hm0. cbn [withPrimaryHost PrimaryHost].
      repeat split; assumption. }
  destruct Hcase as [(Hcached & Hout) | [(Hcached & -> & Hdrive & Hsender & _) | (Hcached & r1 & e1 & t1 & t2 & _ & _ & _ & _ & _ & Ht & Hout)]].
  - apply (Hfall m t); [|exact Hout].
    rewrite <- Hcached. symmetry. apply withPrimaryHost_same.
  - destruct (sendWithRedirects_success Hdrive) as (Hmax & Hne & _).
    rewrite Hsender. split; [symmetry; apply withPrimaryHost_same|].
    split; assumption.
  - eapply Hfall; [|exact Hout]. reflexivity.
Qed.

(** X8: a send changes nothing of the sender but the cached primary
    (the address list, the limit, the flag and the timeouts stay), and it
    leaves the cached primary set exactly when it succeeds: empty after
    a failure, whatever it was before. *)
Theorem Send_frame (packet : Packet) (m : Machine) :
  exists res err m',
    Send packet m = Some ((res, err), m')
    /\ sender m' = withPrimaryHost (PrimaryHost (sender m')) (sender m)
    /\ (err = None <-> PrimaryHost (sender m') <> "").
Proof.
  destruct (Send_state packet m) as (res & err & m' & Hrun & Hsender & Herr).
  exists res, err, m'. split; [exact Hrun|]. split; [exact Hsender|].
  destruct err as [e|].
  - destruct Herr as (Hempty & _). split; [discriminate | contradiction].
  - destruct Herr as (Hset & _). split; [intros _; exact Hset | reflexivity].
Qed.

Lemma sendWithRedirects_no_rounds (packet : Packet) (startHost : string)
  (m : Machine) :
  MaxRedirects (sender m) < 0 ->
  sendWithRedirects packet startHost m
  = Some ((zeroResponse, Some (MaxRedirectsExceeded startHost)),
          extend m [Drive startHost]).
Proof.
  intros Hmax. unfold sendWithRedirects, bind, self, emit. cbn [sender trace].
  replace (Z.to_nat (MaxRedirects (sender m) + 1)) with O by lia.
  reflexivity.
Qed.

Lemma fallback_no_rounds (packet : Packet) (hosts : list string)
  (res0 : Response) (m : Machine) :
  MaxRedirects (sender m) < 0 ->
  fallback packet hosts res0 m
  = Some ((match hosts with [] => res0 | _ => zeroResponse end,
           Some (AllHostsFailed (Z.of_nat (List.length (Hosts (sender m)))))),
          extend m (map Drive hosts)).
Proof.
  intros Hmax. revert res0 m Hmax.
  induction hosts as [|host rest IH]; intros res0 m Hmax.
  - cbn. unfold bind, self, ret. now rewrite extend_nil.
  - cbn [fallback]. unfold bind at 1.
    rewrite (sendWithRedirects_no_rounds packet host m Hmax).
    rewrite (IH zeroResponse (extend m [Drive host]) Hmax), extend_extend.
    cbn [extend sender map app]. now destruct rest.
Qed.

(** X9: with a negative [MaxRedirects] a send dials nothing: it returns
    the zero response and the error "all n hosts failed" and leaves the
    cached primary empty.  The same holds, for any [MaxRedirects], of a
    sender with no cached primary and an empty address list, which is left
    as it is. *)
Theorem Send_without_attempt (packet : Packet) (m : Machine) :
  (MaxRedirects (sender m) < 0 ->
   exists m',
     Send packet m
     = Some ((zeroResponse,
              Some (AllHostsFailed (Z.of_nat (List.length (Hosts (sender m)))))), m')
     /\ dialled (since m m') = []
     /\ PrimaryHost (sender m') = "")
  /\ (PrimaryHost (sender m) = "" -> Hosts (sender m) = [] ->
      Send packet m = Some ((zeroResponse, Some (AllHostsFailed 0)), m)).
Proof.
  assert (Hzero : forall hosts : list string,
             match hosts with [] => zeroResponse | _ => zeroResponse end
             = zeroResponse) by now intros [|].
  split.
  - intros Hmax. unfold Send, bind at 1, self.
    destruct (String.eqb (PrimaryHost (sender m)) "") eqn:Hcached; cbn [negb].
    + rewrite (fallback_no_rounds packet (Hosts (sender m)) zeroResponse m Hmax).
      rewrite Hzero. eexists. split; [reflexivity|].
      rewrite since_trace with (t := map Drive (Hosts (sender m))) by reflexivity.
      split; [|now apply String.eqb_eq].
      induction (Hosts (sender m)); [reflexivity | assumption].
    + unfold bind at 1.
      rewrite (sendWithRedirects_no_rounds packet (PrimaryHost (sender m)) m Hmax).
      unfold bind at 1, storePrimaryHost. cbn [extend sender trace].
      set (m1 := {| sender := withPrimaryHost "" (sender m);
                    trace := (trace m ++ [Drive (PrimaryHost (sender m))])
                             ++ [StorePrimaryHost ""] |}).
      rewrite (fallback_no_rounds packet (Hosts (sender m)) zeroResponse m1 Hmax).
      rewrite Hzero. eexists. split; [reflexivity|].
      rewrite since_trace
        with (t := [Drive (PrimaryHost (sender m)); StorePrimaryHost ""]
                   ++ map Drive (Hosts (sender m)))
        by (cbn [extend m1 trace]; now rewrite <- !app_assoc).
      split; [|reflexivity].
      cbn [app dialled]. induction (Hosts (sender m)); [reflexivity | assumption].
  - intros Hcached Hhosts. unfold Send, bind at 1, self.
    rewrite Hcached, Hhosts. cbn. unfold bind, self, ret.
    rewrite Hhosts. reflexivity.
Qed.

(** X10: [RegisterHost] is one send of the "active checks" packet: it
    makes the exchanges of that send and no other, returns nil exactly
    when the send succeeds, and otherwise returns "sending packet: all n
    hosts failed"; the error "autoregistration failed" is never
    returned. *)
Theorem RegisterHost_outcome (host hostmetadata : string) (m : Machine) :
  exists res err m',
    Send (activeChecks host hostmetadata) m = Some ((res, err), m')
    /\ RegisterHost host hostmetadata m
       = Some (match err with
               | None => None
               | Some _ =>
                   Some (SendingPacket
                           (AllHostsFailed (Z.of_nat (List.length (Hosts (sender m))))))
               end, m')
    /\ RegisterHost host hostmetadata m <> Some (Some AutoregistrationFailed, m').
Proof.
  destruct (Send_state (activeChecks host hostmetadata) m)
    as (res & err & m' & Hrun & _ & Herr).
  exists res, err, m'. split; [exact Hrun|].
  rewrite RegisterHost_sends_once, Hrun.
  destruct err as [e|].
  - destruct Herr as (_ & ->). split; [reflexivity | discriminate].
  - split; [reflexivity | discriminate].
Qed.

End Frame.

(** ** Batches of metrics *)

Lemma separate_present (metrics trapperMetrics activeMetrics : list Metric) :
  separate (map Some metrics) trapperMetrics activeMetrics
  = Some (trapperMetrics ++ filter (fun metric => negb (Active metric)) metrics,
          activeMetrics ++ filter Active metrics).
Proof.
  revert trapperMetrics activeMetrics.
  induction metrics as [|metric rest IH]; intros trapperMetrics activeMetrics.
  - cbn. now rewrite !app_nil_r.
  - cbn [map separate filter]. destruct (Active metric); cbn [negb];
      rewrite IH, <- ?app_assoc; reflexivity.
Qed.

Section Batches.

Context `{Build} `{Json} `{Peer}.

Lemma SendMetrics_batches_eq (metrics : list Metric) (m : Machine) :
  SendMetrics (map Some metrics) m
  = (trapper <- match filter (fun metric => negb (Active metric)) metrics with
                | [] => ret (zeroResponse, None)
                | data =>
                    Send {| Request := "sender data"; Data := data; Clock := 0;
                            NS := 0; Host := ""; HostMetadata := "" |}
                end;;
     active <- match filter Active metrics with
               | [] => ret (zeroResponse, None)
               | data =>
                   Send {| Request := "agent data"; Data := data; Clock := 0;
                           NS := 0; Host := ""; HostMetadata := "" |}
               end;;
     ret (active, trapper)) m.
Proof.
  unfold SendMetrics. rewrite separate_present. cbn [app].
  destruct (filter (fun metric => negb (Active metric)) metrics);
    destruct (filter Active metrics); reflexivity.
Qed.

(** X11: on a batch without nil pointers [SendMetrics] first sends the
    metrics whose flag [Active] is cleared, in the order of the batch, as
    one "sender data" packet, then those whose flag is set, in the order of
    the batch, as one "agent data" packet, both without a timestamp; a part
    that is empty is not sent and is reported as the zero response with a
    nil error. *)
Theorem SendMetrics_batches (metrics : list Metric) (m : Machine) :
  SendMetrics (map Some metrics) m
  = (trapper <- match filter (fun metric => negb (Active metric)) metrics with
                | [] => ret (zeroResponse, None)
                | data =>
                    Send {| Request := "sender data"; Data := data; Clock := 0;
                            NS := 0; Host := ""; HostMetadata := "" |}
                end;;
     active <- match filter Active metrics with
               | [] => ret (zeroResponse, None)
               | data =>
                   Send {| Request := "agent data"; Data := data; Clock := 0;
                           NS := 0; Host := ""; HostMetadata := "" |}
               end;;
     ret (active, trapper)) m.
Proof. apply SendMetrics_batches_eq. Qed.


(** X13: the two packets of a batch share the cached primary: when the
    batch has metrics of both kinds and the send of the "sender data"
    packet succeeds, the send of the "agent data" packet starts its first
    drive and makes its first exchange at the address the first send
    cached. *)
Theorem SendMetrics_shared_cache (metrics : list Metric) (m m1 : Machine)
  (resTrapper : Response) :
  filter Active metrics <> [] ->
  Send (NewPacket (filter (fun metric => negb (Active metric)) metrics) false []) m
  = Some ((resTrapper, None), m1) ->
  filter (fun metric => negb (Active metric)) metrics <> [] ->
  exists resActive errActive m' rest,
    SendMetrics (map Some metrics) m
    = Some (((resActive, errActive), (resTrapper, None)), m')
    /\ since m1 m'
       = Drive (PrimaryHost (sender m1))
         :: Exchange (PrimaryHost (sender m1))
              (requestBuffer (NewPacket (filter Active metrics) true []))
         :: rest.
Proof.
  intros Hactive Hsend Htrapper.
  destruct (Send_state (NewPacket (filter (fun metric => negb (Active metric)) metrics)
                          false []) m)
    as (res & err & m0 & Hrun & Hsender & Herr).
  rewrite Hsend in Hrun. injection Hrun as <- <- <-.
  destruct Herr as (Hset & Hmax).
  assert (Hmax1 : 0 <= MaxRedirects (sender m1)) by now rewrite Hsender.
  destruct (Send_cached_first (NewPacket (filter Active metrics) true []) m1 Hset Hmax1)
    as (resActive & errActive & m' & rest & Hsecond & Hfirst).
  exists resActive, errActive, m', rest. split; [|exact Hfirst].
  rewrite SendMetrics_batches_eq. unfold bind at 1.
  destruct (filter (fun metric => negb (Active metric)) metrics) as [|t0 ts] eqn:Hts;
    [contradiction|].
  change {| Request := "sender data"; Data := t0 :: ts; Clock := 0; NS := 0;
            Host := ""; HostMetadata := "" |}
    with (NewPacket (t0 :: ts) false []).
  rewrite Hsend. unfold bind at 1.
  destruct (filter Active metrics) as [|a0 al] eqn:Hal; [contradiction|].
  change {| Request := "agent data"; Data := a0 :: al; Clock := 0; NS := 0;
            Host := ""; HostMetadata := "" |}
    with (NewPacket (a0 :: al) true []).
  now rewrite Hsecond.
Qed.

End Batches.

(** ** Statistics of a batch *)

Section Acceptance.

Context `{Floats}.

Lemma GetInfo_segment_accepted (ret : ResponseInfo) (segment : string) :
  (exists ret', GetInfo_segment ret segment = Ok ret') <-> segmentAccepted segment.
Proof.
  unfold GetInfo_segment, segmentAccepted. cbv zeta.
  destruct (Nat.eqb_spec (List.length (strings.Split segment ":")) 2) as [Hlen|Hlen];
    cbn [negb].
  2: { split; [intros (ret' & Hbad); discriminate | intros (Hgood & _); contradiction]. }
  set (key := strings.TrimSpace (nth 0 (strings.Split segment ":") "")).
  set (value := strings.TrimSpace (nth 1 (strings.Split segment ":") "")).
  destruct (String.eqb_spec key "processed") as [Hkey|_].
  { split; [|intros _; now eexists].
    intros _. split; [exact Hlen|]. rewrite Hkey. discriminate. }
  destruct (String.eqb_spec key "failed") as [Hkey|_].
  { split; [|intros _; now eexists].
    intros _. split; [exact Hlen|]. rewrite Hkey. discriminate. }
  destruct (String.eqb_spec key "total") as [Hkey|_].
  { split; [|intros _; now eexists].
    intros _. split; [exact Hlen|]. rewrite Hkey. discriminate. }
  destruct (String.eqb_spec key "seconds spent") as [Hkey|Hkey].
  - destruct (ParseFloat value) as [f|cause].
    + split; [|intros _; now eexists].
      intros _. split; [exact Hlen|]. intros _. now exists f.
    + split; [intros (ret' & Hbad); discriminate|].
      intros (_ & Hfloat). destruct (Hfloat Hkey) as (f & Hf). discriminate.
  - split; [|intros _; now eexists].
    intros _. split; [exact Hlen|]. intros Hspent. contradiction.
Qed.

Lemma GetInfo_segments_accepted (sp : list string) (ret : ResponseInfo) :
  (exists info, GetInfo_segments sp ret = Ok info) <-> Forall segmentAccepted sp.
Proof.
  revert ret. induction sp as [|segment rest IH]; intros ret; cbn [GetInfo_segments].
  - split; [constructor | now eexists].
  - destruct (GetInfo_segment ret segment) as [ret'|e] eqn:Hsegment.
    + rewrite IH. split.
      * intros Hrest. constructor; [|exact Hrest].
        apply (GetInfo_segment_accepted ret). now exists ret'.
      * intros Hall. now inversion Hall.
    + split; [intros (info & Hbad); discriminate|].
      intros Hall. inversion Hall as [|? ? Hhead _]; subst.
      apply (GetInfo_segment_accepted ret) in Hhead.
      destruct Hhead as (ret' & Hgood). congruence.
Qed.

(** X14: [GetInfo] returns statistics exactly when the status is
    "success", the info string splits at its semicolons into 4 segments,
    each segment splits at its colons into 2 tokens, and every value whose
    trimmed key is "seconds spent" is a number for [strconv.ParseFloat].
    Whether the values of "processed", "failed" and "total" are integers
    plays no part. *)
Theorem GetInfo_accepts (r : Response) :
  (exists info, GetInfo r = Ok info)
  <-> Response_ r = "success"
      /\ List.length (strings.Split (Info r) ";") = 4%nat
      /\ Forall segmentAccepted (strings.Split (Info r) ";").
Proof.
  unfold GetInfo.
  destruct (String.eqb_spec (Response_ r) "success") as [Hstatus|Hstatus]; cbn [negb].
  2: { split; [intros (info & Hbad); discriminate | intros (Hgood & _); contradiction]. }
  destruct (Nat.eqb_spec (List.length (strings.Split (Info r) ";")) 4) as [Hlen|Hlen];
    cbn [negb].
  2: { split; [intros (info & Hbad); discriminate|].
       intros (_ & Hgood & _). contradiction. }
  rewrite GetInfo_segments_accepted. tauto.
Qed.

Context `{Build} `{Json} `{Peer}.

(** X15: the part of a batch that has no metrics is reported by
    [SendMetrics] as the zero response with a nil error, and [GetInfo] on
    that response fails: "Can not process info if response not Success". *)
Theorem SendMetrics_unsent (metrics : list Metric) (m : Machine) :
  exists active trapper m',
    SendMetrics (map Some metrics) m = Some ((active, trapper), m')
    /\ (filter (fun metric => negb (Active metric)) metrics = [] ->
        trapper = (zeroResponse, None))
    /\ (filter Active metrics = [] -> active = (zeroResponse, None))
    /\ GetInfo zeroResponse = Err (ResponseNotSuccess "").
Proof.
  rewrite SendMetrics_batches_eq.
  assert (Hsend : forall (data : list Metric) (packet : Packet) (m0 : Machine),
             exists out m1,
               match data with
               | [] => ret (zeroResponse, None)
               | _ => Send packet
               end m0 = Some (out, m1)
               /\ (data = [] -> out = (zeroResponse, @None Error))).
  { intros data packet m0. destruct data as [|d ds].
    - do 2 eexists. split; reflexivity.
    - destruct (Send_state packet m0) as (res & err & m1 & Hrun & _).
      exists (res, err), m1. split; [exact Hrun | discriminate]. }
  unfold bind at 1.
  destruct (filter (fun metric => negb (Active metric)) metrics) as [|t0 ts] eqn:Hts.
  - unfold ret at 1, bind at 1.
    destruct (Hsend (filter Active metrics)
                {| Request := "agent data"; Data := filter Active metrics;
                   Clock := 0; NS := 0; Host := ""; HostMetadata := "" |} m)
      as (active & m1 & Hrun & Hzero).
    destruct (filter Active metrics) as [|a0 al] eqn:Hal.
    + exists (zeroResponse, None), (zeroResponse, None), m. repeat split.
    + rewrite Hrun. exists active, (zeroResponse, None), m1. repeat split.
      discriminate.
  - destruct (Send_state {| Request := "sender data"; Data := t0 :: ts; Clock := 0;
                            NS := 0; Host := ""; HostMetadata := "" |} m)
      as (resT & errT & m1 & Hrun & _).
    rewrite Hrun. unfold bind at 1.
    destruct (filter Active metrics) as [|a0 al] eqn:Hal.
    + exists (zeroResponse, None), (resT, errT), m1.
      repeat split. discriminate.
    + destruct (Send_state {| Request := "agent data"; Data := a0 :: al; Clock := 0;
                              NS := 0; Host := ""; HostMetadata := "" |} m1)
        as (resA & errA & m2 & Hrun2 & _).
      rewrite Hrun2. exists (resA, errA), (resT, errT), m2.
      repeat split; discriminate.
Qed.

End Acceptance.

(** ** Normalized addresses *)

Lemma rev_onto_append (s acc : string) :
  rev_onto s acc = (rev_onto s "" ++ acc)%string.
Proof.
  revert acc. induction s as [|c s IH]; intros acc; cbn [rev_onto].
  - reflexivity.
  - rewrite (IH (String c acc)), (IH (String c "")), append_assoc. reflexivity.
Qed.

Lemma rev_string_cons (c : ascii) (s : string) :
  rev_string (String c s) = (rev_string s ++ String c "")%string.
Proof. unfold rev_string. cbn [rev_onto]. apply rev_onto_append. Qed.

Lemma append_empty_r (s : string) : (s ++ "")%string = s.
Proof. induction s as [|c s IH]; cbn; [reflexivity | now rewrite IH]. Qed.

Lemma rev_string_append (a b : string) :
  rev_string (a ++ b) = (rev_string b ++ rev_string a)%string.
Proof.
  induction a as [|c a IH]; cbn [append].
  - now rewrite append_empty_r.
  - now rewrite !rev_string_cons, IH, append_assoc.
Qed.

Lemma rev_string_involutive (s : string) : rev_string (rev_string s) = s.
Proof.
  induction s as [|c s IH]; [reflexivity|].
  now rewrite rev_string_cons, rev_string_append, IH.
Qed.

Lemma dropSpaceLeft_shorter (s r : string) :
  strings.dropSpaceLeft s = Some r -> (String.length r < String.length s)%nat.
Proof.
  unfold strings.dropSpaceLeft.
  destruct s as [|c0 [|c1 [|c2 r2]]]; try discriminate;
    repeat match goal with
           | |- context [if ?b then _ else _] => destruct b
           end;
    intros [= <-]; cbn; lia.
Qed.

Lemma dropSpaceRight_shorter (s r : string) :
  strings.dropSpaceRight s = Some r -> (String.length r < String.length s)%nat.
Proof.
  unfold strings.dropSpaceRight.
  destruct s as [|c0 [|c1 [|c2 r2]]]; try discriminate;
    repeat match goal with
           | |- context [if ?b then _ else _] => destruct b
           end;
    intros [= <-]; cbn; lia.
Qed.

Lemma dropSpaceRight_suffix (s r : string) :
  strings.dropSpaceRight s = Some r -> exists p, s = (p ++ r)%string.
Proof.
  unfold strings.dropSpaceRight.
  destruct s as [|c0 [|c1 [|c2 r2]]]; try discriminate;
    repeat match goal with
           | |- context [if ?b then _ else _] => destruct b
           end;
    intros [= <-];
    first [ now exists (String c0 "")
          | now exists (String c0 (String c1 ""))
          | now exists (String c0 (String c1 (String c2 ""))) ].
Qed.

Lemma dropSpaceLeft_prefix (s q r : string) :
  strings.dropSpaceLeft s = Some r -> strings.dropSpaceLeft (s ++ q) <> None.
Proof.
  unfold strings.dropSpaceLeft.
  destruct s as [|c0 [|c1 [|c2 r2]]]; try discriminate; cbn [append];
    repeat match goal with
           | |- context [if ?b then _ else _] => destruct b
           end;
    try discriminate; destruct q as [|d0 [|d1 q]]; discriminate.
Qed.

Section Trimming.

Variable drop : string -> option string.
Hypothesis drop_shorter :
  forall s r, drop s = Some r -> (String.length r < String.length s)%nat.

Lemma trimWith_done (fuel : nat) (s : string) :
  (String.length s <= fuel)%nat -> drop (strings.trimWith drop fuel s) = None.
Proof.
  revert s. induction fuel as [|fuel IH]; intros s Hfuel; cbn [strings.trimWith].
  - destruct (drop s) as [r|] eqn:Hdrop; [|reflexivity].
    apply drop_shorter in Hdrop. lia.
  - destruct (drop s) as [r|] eqn:Hdrop; [|exact Hdrop].
    apply IH. apply drop_shorter in Hdrop. lia.
Qed.

Lemma trimWith_fixed (fuel : nat) (s : string) :
  drop s = None -> strings.trimWith drop fuel s = s.
Proof. intros Hdrop. destruct fuel; cbn [strings.trimWith]; now rewrite ?Hdrop. Qed.

Lemma trimWith_suffix (fuel : nat) (s : string) :
  (forall s r, drop s = Some r -> exists p, s = (p ++ r)%string) ->
  exists p, s = (p ++ strings.trimWith drop fuel s)%string.
Proof.
  intros Hsuffix. revert s.
  induction fuel as [|fuel IH]; intros s; cbn [strings.trimWith].
  - now exists "".
  - destruct (drop s) as [r|] eqn:Hdrop; [|now exists ""].
    destruct (Hsuffix s r Hdrop) as (p & ->). destruct (IH r) as (p' & Hr).
    exists (p ++ p')%string. rewrite append_assoc. now rewrite <- Hr.
Qed.

End Trimming.

(** A string without white space at either end. *)
Lemma TrimSpace_fixed (s : string) :
  strings.dropSpaceLeft s = None ->
  strings.dropSpaceRight (rev_string s) = None ->
  strings.TrimSpace s = s.
Proof.
  intros Hleft Hright. unfold strings.TrimSpace. cbv zeta.
  rewrite (trimWith_fixed strings.dropSpaceLeft _ s Hleft).
  rewrite (trimWith_fixed strings.dropSpaceRight _ (rev_string s) Hright).
  apply rev_string_involutive.
Qed.

Lemma length_rev_string (s : string) : String.length (rev_string s) = String.length s.
Proof.
  induction s as [|c s IH]; [reflexivity|].
  rewrite rev_string_cons, length_append, IH. cbn. lia.
Qed.

Lemma TrimSpace_trimmed (s : string) :
  strings.dropSpaceLeft (strings.TrimSpace s) = None
  /\ strings.dropSpaceRight (rev_string (strings.TrimSpace s)) = None.
Proof.
  unfold strings.TrimSpace. cbv zeta.
  set (left := strings.trimWith strings.dropSpaceLeft (String.length s) s).
  set (right := strings.trimWith strings.dropSpaceRight (String.length left)
                  (rev_string left)).
  assert (Hleft : strings.dropSpaceLeft left = None)
    by (apply trimWith_done; [exact dropSpaceLeft_shorter | lia]).
  assert (Hright : strings.dropSpaceRight right = None)
    by (apply trimWith_done;
        [exact dropSpaceRight_shorter | rewrite length_rev_string; lia]).
  split; [|now rewrite rev_string_involutive].
  destruct (trimWith_suffix strings.dropSpaceRight (String.length left)
              (rev_string left) dropSpaceRight_suffix) as (p & Hp).
  fold right in Hp.
  assert (Hsplit : left = (rev_string right ++ rev_string p)%string).
  { rewrite <- (rev_string_involutive left), Hp. apply rev_string_append. }
  destruct (strings.dropSpaceLeft (rev_string right)) as [r|] eqn:Hdrop;
    [|reflexivity].
  apply (dropSpaceLeft_prefix _ (rev_string p)) in Hdrop.
  rewrite <- Hsplit in Hdrop. contradiction.
Qed.

Lemma TrimSpace_idempotent (s : string) :
  strings.TrimSpace (strings.TrimSpace s) = strings.TrimSpace s.
Proof. apply TrimSpace_fixed; apply TrimSpace_trimmed. Qed.

Lemma dropSpaceLeft_port (t : string) :
  t <> "" ->
  strings.dropSpaceLeft t = None ->
  strings.dropSpaceLeft (t ++ ":10051") = None.
Proof.
  unfold strings.dropSpaceLeft.
  destruct t as [|c0 [|c1 [|c2 r2]]]; [congruence| | |]; intros _; cbn [append];
    repeat match goal with
           | |- context [if ?b then _ else _] => destruct b eqn:?
           end;
    try discriminate; try reflexivity.
  - exfalso. cbn in *.
    rewrite ?andb_false_r, ?orb_false_r in *. discriminate.
  - exfalso. cbn in *.
    rewrite ?andb_false_r, ?orb_false_r in *. discriminate.
  - exfalso. cbn in *.
    rewrite ?andb_false_r, ?orb_false_r in *. discriminate.
Qed.

Lemma normalizeHost_shape (addr : string) :
  normalizeHost addr = ""
  \/ (strings.TrimSpace (normalizeHost addr) = normalizeHost addr
      /\ normalizeHost addr <> ""
      /\ strings.Contains (normalizeHost addr) ":" = true).
Proof.
  unfold normalizeHost.
  destruct (TrimSpace_trimmed addr) as (Hleft & Hright).
  set (t := strings.TrimSpace addr) in *.
  destruct (String.eqb_spec t "") as [Hempty|Hfull]; [now left|]. right.
  destruct (strings.Contains t ":") eqn:Hcolon.
  - split; [now apply TrimSpace_fixed|]. split; [exact Hfull | exact Hcolon].
  - split; [|split].
    + apply TrimSpace_fixed.
      * now apply dropSpaceLeft_port.
      * rewrite rev_string_append. reflexivity.
    + destruct t; [congruence | discriminate].
    + rewrite Contains_append, Hcolon. reflexivity.
Qed.

Lemma normalizeHost_fixed (addr : string) :
  normalizeHost (normalizeHost addr) = normalizeHost addr.
Proof.
  destruct (normalizeHost_shape addr) as [Hempty | (Htrim & Hfull & Hcolon)].
  - now rewrite Hempty.
  - generalize dependent (normalizeHost addr). intros n Htrim Hfull Hcolon.
    unfold normalizeHost. rewrite Htrim, Hcolon.
    apply String.eqb_neq in Hfull. now rewrite Hfull.
Qed.

(** X16: [normalizeHost] changes nothing of an address it has
    normalized, so a sender built from the address list of a sender has
    that same list, whatever the addresses are. *)
Theorem normalizeHost_idempotent (addr : string) (hosts : list string) :
  normalizeHost (normalizeHost addr) = normalizeHost addr
  /\ NewSender (normalizeHost addr) = NewSender addr
  /\ NewSenderHosts (Hosts (NewSenderHosts hosts)) = NewSenderHosts hosts.
Proof.
  split; [apply normalizeHost_fixed|]. split.
  - unfold NewSender. now rewrite normalizeHost_fixed.
  - unfold NewSenderHosts. cbn [Hosts]. rewrite map_map.
    f_equal. apply map_ext. intros host. apply normalizeHost_fixed.
Qed.

(** X17: under either revision, an address that [parseHostPort] has
    returned is returned as it is when it is parsed again. *)
Theorem parseHostPort_stable (addr host : string) :
  (@parseHostPort zabbix addr = Ok host -> @parseHostPort zabbix host = Ok host)
  /\ (@parseHostPort zabbix_sender addr = Ok host ->
      @parseHostPort zabbix_sender host = Ok host).
Proof.
  cbn [parseHostPort zabbix zabbix_sender]. split.
  - unfold parseHostPort_contains.
    destruct (strings.Contains addr ":") eqn:Hcolon; cbn [negb]; [|discriminate].
    intros [= <-]. now rewrite Hcolon.
  - unfold parseHostPort_split.
    destruct (net.SplitHostPort (normalizeHost addr)) as [[name port]|cause] eqn:Hsplit;
      [|discriminate].
    destruct (String.eqb name "" || String.eqb port "") eqn:Hparts; [discriminate|].
    intros [= <-]. now rewrite normalizeHost_fixed, Hsplit, Hparts.
Qed.

(** ** Bare host names *)

Lemma has_Contains (s : string) (c : ascii) : net.has s c = strings.Contains s c.
Proof.
  unfold net.has. induction s as [|c0 s IH]; cbn [net.IndexByte strings.Contains];
    [reflexivity|].
  destruct (Ascii.eqb c0 c); [reflexivity|]. cbn [orb]. rewrite <- IH.
  now destruct (net.IndexByte s c).
Qed.

Lemma LastIndexByte_append (a b : string) (c : ascii) (i : nat) :
  net.LastIndexByte b c = Some i ->
  net.LastIndexByte (a ++ b) c = Some (String.length a + i)%nat.
Proof.
  intros Hb. induction a as [|c0 a IH]; cbn [append net.LastIndexByte String.length];
    [exact Hb|].
  now rewrite IH.
Qed.

Lemma substring_prefix (a b : string) :
  substring 0 (String.length a) (a ++ b) = a.
Proof. induction a as [|c a IH]; cbn; [now destruct b | now rewrite IH]. Qed.

Lemma substring_whole (s : string) : substring 0 (String.length s) s = s.
Proof. induction s as [|c s IH]; cbn; [reflexivity | now rewrite IH]. Qed.

Lemma substring_skip (a b : string) (k n : nat) :
  substring (String.length a + k) n (a ++ b) = substring k n b.
Proof. induction a as [|c a IH]; cbn; [reflexivity | exact IH]. Qed.

Lemma SplitHostPort_unbracketed (c0 : ascii) (rest : string) :
  Ascii.eqb c0 "[" = false ->
  net.SplitHostPort (String c0 rest)
  = match net.LastIndexByte (String c0 rest) ":" with
    | None => Err "missing port in address"
    | Some i =>
        let host := net.between 0 i (String c0 rest) in
        if net.has host ":" then Err "too many colons in address"
        else if net.has (net.from 0 (String c0 rest)) "["
             then Err "unexpected '[' in address"
             else if net.has (net.from 0 (String c0 rest)) "]"
                  then Err "unexpected ']' in address"
                  else Ok (host, net.from (S i) (String c0 rest))
    end.
Proof.
  intros Hopen. unfold net.SplitHostPort.
  destruct (net.LastIndexByte (String c0 rest) ":") as [i|]; [|reflexivity].
  destruct c0 as [[] [] [] [] [] [] [] []]; try reflexivity; discriminate.
Qed.

(** X18: a redirect address that is a bare host name (not empty, no
    white space around it, no colon and no square bracket) is turned down
    by the first revision of [parseHostPort] and is given the default port
    by the second, which returns the name followed by ":10051"; that
    address splits into the name and the port "10051". *)
Theorem parseHostPort_bare_name (name : string) :
  name <> "" ->
  strings.TrimSpace name = name ->
  strings.Contains name ":" = false ->
  strings.Contains name "[" = false ->
  strings.Contains name "]" = false ->
  @parseHostPort zabbix name = Err (InvalidRedirectAddress name)
  /\ @parseHostPort zabbix_sender name = Ok (name ++ ":10051")%string
  /\ net.SplitHostPort (name ++ ":10051") = Ok (name, "10051").
Proof.
  intros Hne Htrim Hcolon Hopen Hclose.
  assert (Hsplit : net.SplitHostPort (name ++ ":10051") = Ok (name, "10051")).
  { destruct name as [|c0 rest] eqn:Hname; [congruence|]. rewrite <- Hname in *.
    assert (Hfirst : Ascii.eqb c0 "[" = false).
    { rewrite Hname in Hopen. cbn [strings.Contains] in Hopen.
      now apply orb_false_iff in Hopen. }
    replace (name ++ ":10051")%string with (String c0 (rest ++ ":10051"))
      by now rewrite Hname.
    rewrite (SplitHostPort_unbracketed c0 _ Hfirst).
    replace (String c0 (rest ++ ":10051")) with (name ++ ":10051")%string
      by now rewrite Hname.
    rewrite (LastIndexByte_append name ":10051" ":" 0 eq_refl), Nat.add_0_r.
    cbv zeta. unfold net.between, net.from.
    rewrite !Nat.sub_0_r, substring_prefix, !substring_whole, !has_Contains, Hcolon.
    rewrite !Contains_append, Hopen, Hclose. cbn [orb strings.Contains Ascii.eqb Bool.eqb].
    rewrite length_append.
    replace (S (String.length name)) with (String.length name + 1)%nat by lia.
    rewrite substring_skip.
    replace (String.length name + String.length ":10051" - (String.length name + 1))%nat
      with 5%nat by (cbn; lia).
    reflexivity. }
  split; [|split; [|exact Hsplit]].
  - cbn [parseHostPort zabbix]. unfold parseHostPort_contains. now rewrite Hcolon.
  - cbn [parseHostPort zabbix_sender]. unfold parseHostPort_split, normalizeHost.
    rewrite Htrim, Hcolon. apply String.eqb_neq in Hne. rewrite Hne, Hsplit.
    assert (Hname : String.eqb name "" = false) by exact Hne.
    now rewrite Hname.
Qed.

(** ** The info string of a server *)

Lemma code_chr (z : Z) : 0 <= z < 256 -> code (chr z) = z.
Proof.
  intros Hz. unfold code, chr. rewrite N_ascii_embedding; [lia|].
  change 256%N with (Z.to_N 256). lia.
Qed.

Lemma code_bound (c : ascii) : 0 <= code c < 256.
Proof.
  unfold code. pose proof (N_ascii_bounded c). lia.
Qed.

Lemma eqb_code (a b : ascii) : code a <> code b -> Ascii.eqb a b = false.
Proof.
  intros Hne. apply Ascii.eqb_neq. intros ->. contradiction.
Qed.

Lemma digit_chr (d : Z) : 0 <= d <= 9 -> strconv.digit (chr (48 + d)) = Some d.
Proof.
  intros Hd. unfold strconv.digit. rewrite code_chr by lia.
  destruct (Z.leb_spec 48 (48 + d)); [|lia].
  destruct (Z.leb_spec (48 + d) 57); [|lia].
  cbn [andb]. f_equal. lia.
Qed.

Lemma width_nonneg (fuel : nat) (n : Z) : 0 <= width fuel n.
Proof.
  revert n. induction fuel as [|fuel IH]; intros n; cbn [width]; [lia|].
  destruct (n <? 10); [lia|]. specialize (IH (n / 10)). lia.
Qed.

Lemma parseDigits_decimalDigits (fuel : nat) (n a : Z) (acc : string) :
  0 <= n < 10 ^ Z.of_nat fuel ->
  0 <= a ->
  a * 10 ^ width fuel n + n <= strconv.maxUint64 ->
  strconv.parseDigits (decimalDigits fuel n acc) a
  = strconv.parseDigits acc (a * 10 ^ width fuel n + n).
Proof.
  revert n a acc. induction fuel as [|fuel IH]; intros n a acc Hn Ha Hmax.
  - cbn in *. f_equal. lia.
  - cbn [decimalDigits width] in *.
    assert (Hdigit : 0 <= n mod 10 <= 9) by (pose proof (Z.mod_pos_bound n 10); lia).
    assert (Hstep : forall v,
               0 <= v -> v * 10 + n mod 10 <= strconv.maxUint64 ->
               strconv.parseDigits (String (chr (48 + n mod 10)) acc) v
               = strconv.parseDigits acc (v * 10 + n mod 10)).
    { intros v Hv Hfit. cbn [strconv.parseDigits]. rewrite digit_chr by exact Hdigit.
      unfold strconv.maxUint64 in *.
      destruct (Z.geb_spec v (18446744073709551615 / 10 + 1)) as [Hcut|_].
      { change (18446744073709551615 / 10 + 1) with 1844674407370955162 in Hcut. lia. }
      destruct (Z.gtb_spec (v * 10 + n mod 10) 18446744073709551615); [lia|].
      reflexivity. }
    destruct (Z.ltb_spec n 10) as [Hsmall|Hbig].
    + rewrite Hstep; [|lia|rewrite Z.mod_small by lia; lia].
      rewrite Z.mod_small by lia. f_equal; lia.
    + assert (Hdiv : 0 <= n / 10 < 10 ^ Z.of_nat fuel).
      { split; [apply Z.div_pos; lia|].
        apply Z.div_lt_upper_bound; [lia|].
        rewrite Nat2Z.inj_succ, Z.pow_succ_r in Hn by lia. lia. }
      pose proof (width_nonneg fuel (n / 10)) as Hw.
      rewrite Z.pow_add_r in Hmax by lia.
      pose proof (Z.div_mod n 10 ltac:(lia)) as Hsplit.
      assert (Hpow : 0 < 10 ^ width fuel (n / 10)) by (apply Z.pow_pos_nonneg; lia).
      rewrite IH; [|exact Hdiv|exact Ha|nia].
      rewrite Hstep; [|nia|nia].
      f_equal; rewrite Z.pow_add_r by lia; nia.
Qed.

Lemma every_weaken (P Q : ascii -> Prop) (s : string) :
  (forall c, P c -> Q c) -> every P s -> every Q s.
Proof.
  intros Hweaken. induction s as [|c s IH]; cbn [every]; [easy|].
  intros [Hc Hs]. split; [now apply Hweaken|now apply IH].
Qed.

Lemma every_rev_onto (P : ascii -> Prop) (s acc : string) :
  every P s -> every P acc -> every P (rev_onto s acc).
Proof.
  revert acc. induction s as [|c s IH]; intros acc Hs Hacc; cbn [rev_onto]; [exact Hacc|].
  destruct Hs as [Hc Hs]. apply IH; [exact Hs|]. now split.
Qed.

Lemma figure_chr (d : Z) : 0 <= d <= 9 -> figure (chr (48 + d)).
Proof. intros Hd. unfold figure. rewrite code_chr; lia. Qed.

Lemma every_decimalDigits (fuel : nat) (n : Z) (acc : string) :
  every figure acc -> every figure (decimalDigits fuel n acc).
Proof.
  revert n acc. induction fuel as [|fuel IH]; intros n acc Hacc; cbn [decimalDigits];
    [exact Hacc|].
  assert (Hnext : every figure (String (chr (48 + n mod 10)) acc)).
  { split; [|exact Hacc]. apply figure_chr. pose proof (Z.mod_pos_bound n 10). lia. }
  destruct (n <? 10); [exact Hnext|]. now apply IH.
Qed.

Lemma decimalDigits_cons (fuel : nat) (n : Z) (c : ascii) (acc : string) :
  exists c' rest, decimalDigits fuel n (String c acc) = String c' rest.
Proof.
  revert n c acc. induction fuel as [|fuel IH]; intros n c acc; cbn [decimalDigits];
    [now exists c, acc|].
  destruct (n <? 10); [eauto|]. apply IH.
Qed.

Lemma decimalDigits_head (fuel : nat) (n : Z) :
  exists c rest, decimalDigits (S fuel) n "" = String c rest /\ figure c.
Proof.
  pose proof (every_decimalDigits (S fuel) n "" I) as Hevery.
  cbn [decimalDigits] in *.
  destruct (n <? 10).
  - destruct Hevery as [Hc _]. eauto.
  - destruct (decimalDigits_cons fuel (n / 10) (chr (48 + n mod 10)) "") as (c & rest & Heq).
    rewrite Heq in *. destruct Hevery as [Hc _]. eauto.
Qed.

Lemma every_counter (n : Z) : every numeral (counter n).
Proof.
  unfold counter, jsonInt. destruct (n <? 0).
  - split; [now left|].
    apply (every_weaken figure); [now right|]. now apply every_decimalDigits.
  - apply (every_weaken figure); [now right|]. now apply every_decimalDigits.
Qed.

(** What [strconv.Atoi] reads in a counter. *)
Lemma ParseUint_decimalDigits (n : Z) :
  0 <= n <= strconv.maxUint64 ->
  strconv.ParseUint (decimalDigits 20 n "") = (n, None).
Proof.
  intros Hn. destruct (decimalDigits_head 19 n) as (c & rest & Heq & _).
  unfold strconv.ParseUint. rewrite Heq. rewrite <- Heq.
  rewrite parseDigits_decimalDigits;
    [cbn [strconv.parseDigits]; f_equal; lia
    |unfold strconv.maxUint64 in Hn; change (Z.of_nat 20) with 20; lia
    |lia
    |lia].
Qed.

Lemma Atoi_counter (n : Z) :
  - 2 ^ 63 <= n < 2 ^ 63 -> strconv.Atoi (counter n) = (n, None).
Proof.
  intros Hn. unfold strconv.Atoi, counter, jsonInt.
  destruct (Z.ltb_spec n 0) as [Hneg|Hpos].
  - unfold strconv.ParseInt. change (Ascii.eqb "-" "-") with true.
    change (Ascii.eqb "-" "+") with false. cbn [orb negb andb].
    rewrite ParseUint_decimalDigits by (unfold strconv.maxUint64; lia).
    destruct (Z.gtb_spec (- n) (2 ^ 63)); [lia|].
    f_equal. lia.
  - destruct (decimalDigits_head 19 n) as (c & rest & Heq & Hc).
    unfold strconv.ParseInt. rewrite Heq.
    assert (Hminus : Ascii.eqb c "-" = false) by (apply eqb_code; unfold figure in Hc; cbn; lia).
    assert (Hplus : Ascii.eqb c "+" = false) by (apply eqb_code; unfold figure in Hc; cbn; lia).
    rewrite Hminus, Hplus. cbn [orb negb andb]. rewrite <- Heq.
    rewrite ParseUint_decimalDigits by (unfold strconv.maxUint64; lia).
    destruct (Z.geb_spec n (2 ^ 63)); [lia|]. reflexivity.
Qed.

(** Bytes that are no white space and start no white space rune. *)
Lemma dropSpaceLeft_ascii (c : ascii) (rest : string) :
  code c < 128 -> strings.asciiSpace c = false ->
  strings.dropSpaceLeft (String c rest) = None.
Proof.
  intros Hc Hspace. unfold strings.dropSpaceLeft. rewrite Hspace.
  destruct rest as [|c1 [|c2 r2]]; try reflexivity; cbv zeta.
  - replace (code c =? 194) with false by (symmetry; apply Z.eqb_neq; lia).
    reflexivity.
  - replace (code c =? 194) with false by (symmetry; apply Z.eqb_neq; lia).
    replace (code c =? 225) with false by (symmetry; apply Z.eqb_neq; lia).
    replace (code c =? 226) with false by (symmetry; apply Z.eqb_neq; lia).
    replace (code c =? 227) with false by (symmetry; apply Z.eqb_neq; lia).
    reflexivity.
Qed.

Lemma dropSpaceRight_ascii (c : ascii) (rest : string) :
  code c < 128 -> strings.asciiSpace c = false ->
  strings.dropSpaceRight (String c rest) = None.
Proof.
  intros Hc Hspace. unfold strings.dropSpaceRight. rewrite Hspace.
  destruct rest as [|c1 [|c2 r2]]; try reflexivity; cbv zeta.
  - replace (code c =? 133) with false by (symmetry; apply Z.eqb_neq; lia).
    replace (code c =? 160) with false by (symmetry; apply Z.eqb_neq; lia).
    cbn [orb]. now rewrite andb_false_r.
  - replace (code c =? 133) with false by (symmetry; apply Z.eqb_neq; lia).
    replace (code c =? 160) with false by (symmetry; apply Z.eqb_neq; lia).
    replace (code c =? 128) with false by (symmetry; apply Z.eqb_neq; lia).
    replace (128 <=? code c) with false by (symmetry; apply Z.leb_gt; lia).
    replace (code c =? 168) with false by (symmetry; apply Z.eqb_neq; lia).
    replace (code c =? 169) with false by (symmetry; apply Z.eqb_neq; lia).
    replace (code c =? 175) with false by (symmetry; apply Z.eqb_neq; lia).
    replace (code c =? 159) with false by (symmetry; apply Z.eqb_neq; lia).
    cbn [orb andb]. now rewrite !andb_false_r.
Qed.

Lemma numeral_plain (c : ascii) :
  numeral c -> code c < 128 /\ strings.asciiSpace c = false.
Proof.
  unfold numeral, figure, strings.asciiSpace. intros Hc. split; [lia|]. cbv zeta.
  replace (code c =? 32) with false by (symmetry; apply Z.eqb_neq; lia).
  replace (code c <=? 13) with false by (symmetry; apply Z.leb_gt; lia).
  now rewrite andb_false_r.
Qed.

Lemma TrimSpace_numerals (s : string) : every numeral s -> strings.TrimSpace s = s.
Proof.
  intros Hs. apply TrimSpace_fixed.
  - destruct s as [|c rest]; [reflexivity|]. destruct Hs as [Hc _].
    apply numeral_plain in Hc. now apply dropSpaceLeft_ascii.
  - assert (Hrev : every numeral (rev_string s)) by now apply every_rev_onto.
    destruct (rev_string s) as [|c rest]; [reflexivity|]. destruct Hrev as [Hc _].
    apply numeral_plain in Hc. now apply dropSpaceRight_ascii.
Qed.

Lemma TrimSpace_after_space (s : string) :
  strings.TrimSpace (String " " s) = strings.TrimSpace s.
Proof. reflexivity. Qed.

Lemma Contains_numerals (s : string) (sep : ascii) :
  every numeral s -> ~ numeral sep -> strings.Contains s sep = false.
Proof.
  intros Hs Hsep. induction s as [|c s IH]; cbn [strings.Contains]; [reflexivity|].
  destruct Hs as [Hc Hs]. rewrite (IH Hs).
  destruct (Ascii.eqb_spec c sep) as [->|_]; [contradiction|reflexivity].
Qed.

(** Pieces between separators. *)
Lemma Split_whole (s : string) (sep : ascii) :
  strings.Contains s sep = false -> strings.Split s sep = [s].
Proof.
  induction s as [|c s IH]; cbn [strings.Contains strings.Split]; [reflexivity|].
  intros Hno. apply orb_false_iff in Hno as [Hc Hs].
  rewrite Hc, (IH Hs). reflexivity.
Qed.

Lemma Split_append (a b : string) (sep : ascii) :
  strings.Contains a sep = false ->
  strings.Split (a ++ String sep b) sep = a :: strings.Split b sep.
Proof.
  induction a as [|c a IH]; cbn [strings.Contains strings.Split append].
  - intros _. now rewrite Ascii.eqb_refl.
  - intros Hno. apply orb_false_iff in Hno as [Hc Ha].
    rewrite Hc, (IH Ha). reflexivity.
Qed.

Lemma Split_field (key value : string) :
  strings.Contains key ":" = false -> strings.Contains value ":" = false ->
  strings.Split (key ++ String ":" (String " " value)) ":" = [key; String " " value].
Proof.
  intros Hkey Hvalue. rewrite Split_append by exact Hkey.
  now rewrite Split_whole by exact Hvalue.
Qed.

Lemma Split_infoOf (processed failed total : Z) (seconds : string) :
  strings.Contains seconds ";" = false ->
  strings.Split (infoOf processed failed total seconds) ";"
  = [ "processed: " ++ counter processed; " failed: " ++ counter failed;
      " total: " ++ counter total; " seconds spent: " ++ seconds ]%string.
Proof.
  intros Hseconds.
  assert (Hcounter : forall label n,
             strings.Contains label ";" = false ->
             strings.Contains (label ++ counter n) ";" = false).
  { intros label n Hlabel. rewrite Contains_append, Hlabel.
    apply Contains_numerals; [apply every_counter|].
    unfold numeral, figure. cbn. lia. }
  unfold infoOf.
  change ("; failed: " ++ counter failed ++ "; total: " ++ counter total
          ++ "; seconds spent: " ++ seconds)%string
    with (String ";" (" failed: " ++ counter failed ++ "; total: " ++ counter total
                      ++ "; seconds spent: " ++ seconds))%string.
  rewrite <- append_assoc, Split_append by now apply Hcounter.
  f_equal.
  change ("; total: " ++ counter total ++ "; seconds spent: " ++ seconds)%string
    with (String ";" (" total: " ++ counter total ++ "; seconds spent: " ++ seconds))%string.
  rewrite <- append_assoc, Split_append by now apply Hcounter.
  f_equal.
  change ("; seconds spent: " ++ seconds)%string
    with (String ";" (" seconds spent: " ++ seconds))%string.
  rewrite <- append_assoc, Split_append by now apply Hcounter.
  f_equal.
  apply Split_whole. now rewrite Contains_append, Hseconds.
Qed.

Section Documented.

Context `{Floats}.

Lemma GetInfo_segment_counter (label : string) (n : Z) (ret : ResponseInfo) :
  strings.Contains label ":" = false ->
  - 2 ^ 63 <= n < 2 ^ 63 ->
  GetInfo_segment ret (label ++ String ":" (String " " (counter n)))
  = let key := strings.TrimSpace label in
    if String.eqb key "processed" then Ok (withProcessed n ret)
    else if String.eqb key "failed" then Ok (withFailed n ret)
    else if String.eqb key "total" then Ok (withTotal n ret)
    else if String.eqb key "seconds spent" then
      match ParseFloat (counter n) with
      | Err cause => Err (SecondsSpent (counter n) cause)
      | Ok f => Ok (withSpent (nanoseconds f) ret)
      end
    else Ok ret.
Proof.
  intros Hlabel Hn. unfold GetInfo_segment.
  rewrite Split_field;
    [|exact Hlabel
     |apply Contains_numerals; [apply every_counter|unfold numeral, figure; cbn; lia]].
  cbn [List.length Nat.eqb negb nth]. cbv zeta.
  rewrite (TrimSpace_after_space (counter n)), (TrimSpace_numerals _ (every_counter n)).
  now rewrite (Atoi_counter n Hn).
Qed.

Lemma GetInfo_segment_seconds (seconds : string) (f : float64) (ret : ResponseInfo) :
  strings.Contains seconds ":" = false ->
  strings.TrimSpace seconds = seconds ->
  ParseFloat seconds = Ok f ->
  GetInfo_segment ret (" seconds spent: " ++ seconds) = Ok (withSpent (nanoseconds f) ret).
Proof.
  intros Hcolon Htrimmed Hfloat. unfold GetInfo_segment.
  change (" seconds spent: " ++ seconds)%string
    with (" seconds spent" ++ String ":" (String " " seconds))%string.
  rewrite Split_field; [|reflexivity|exact Hcolon].
  cbn [List.length Nat.eqb negb nth]. cbv zeta.
  rewrite (TrimSpace_after_space seconds), Htrimmed.
  change (strings.TrimSpace " seconds spent") with "seconds spent".
  cbn [String.eqb Ascii.eqb Bool.eqb]. now rewrite Hfloat.
Qed.

Lemma GetInfo_segment_rejected (seconds cause : string) (ret : ResponseInfo) :
  strings.Contains seconds ":" = false ->
  strings.TrimSpace seconds = seconds ->
  ParseFloat seconds = Err cause ->
  GetInfo_segment ret (" seconds spent: " ++ seconds)
  = Err (SecondsSpent seconds cause).
Proof.
  intros Hcolon Htrimmed Hfloat. unfold GetInfo_segment.
  change (" seconds spent: " ++ seconds)%string
    with (" seconds spent" ++ String ":" (String " " seconds))%string.
  rewrite Split_field; [|reflexivity|exact Hcolon].
  cbn [List.length Nat.eqb negb nth]. cbv zeta.
  rewrite (TrimSpace_after_space seconds), Htrimmed.
  change (strings.TrimSpace " seconds spent") with "seconds spent".
  cbn [String.eqb Ascii.eqb Bool.eqb]. now rewrite Hfloat.
Qed.

(** X19: a successful response whose info is the documented text
    "processed: P; failed: F; total: T; seconds spent: S", with the three
    counters written in decimal (64-bit integers) and S a text without
    separators or outer white space: when [strconv.ParseFloat] takes S,
    [GetInfo] returns statistics whose counters are exactly P, F and T;
    when it turns S down, [GetInfo] fails with the error of the seconds.
    The duration is a matter of floating point arithmetic and is not
    spoken of. *)
Theorem GetInfo_documented (r : Response) (processed failed total : Z)
    (seconds : string) :
  Response_ r = "success" ->
  Info r = infoOf processed failed total seconds ->
  - 2 ^ 63 <= processed < 2 ^ 63 ->
  - 2 ^ 63 <= failed < 2 ^ 63 ->
  - 2 ^ 63 <= total < 2 ^ 63 ->
  strings.Contains seconds ";" = false ->
  strings.Contains seconds ":" = false ->
  strings.TrimSpace seconds = seconds ->
  (forall f,
      ParseFloat seconds = Ok f ->
      exists info,
        GetInfo r = Ok info
        /\ Processed info = processed /\ Failed info = failed
        /\ Total info = total)
  /\ (forall cause,
         ParseFloat seconds = Err cause ->
         GetInfo r = Err (SecondsSpent seconds cause)).
Proof.
  intros Hstatus Hinfo Hprocessed Hfailed Htotal Hsemicolon Hcolon Htrimmed.
  unfold GetInfo. rewrite Hstatus, Hinfo, Split_infoOf by exact Hsemicolon.
  cbn [String.eqb Ascii.eqb Bool.eqb negb List.length Nat.eqb GetInfo_segments].
  change ("processed: " ++ counter processed)%string
    with ("processed" ++ String ":" (String " " (counter processed)))%string.
  change (" failed: " ++ counter failed)%string
    with (" failed" ++ String ":" (String " " (counter failed)))%string.
  change (" total: " ++ counter total)%string
    with (" total" ++ String ":" (String " " (counter total)))%string.
  rewrite (GetInfo_segment_counter "processed") by (reflexivity || assumption).
  change (strings.TrimSpace "processed") with "processed".
  cbn [String.eqb Ascii.eqb Bool.eqb GetInfo_segments]. cbv zeta.
  rewrite (GetInfo_segment_counter " failed") by (reflexivity || assumption).
  change (strings.TrimSpace " failed") with "failed".
  cbn [String.eqb Ascii.eqb Bool.eqb GetInfo_segments]. cbv zeta.
  rewrite (GetInfo_segment_counter " total") by (reflexivity || assumption).
  change (strings.TrimSpace " total") with "total".
  cbn [String.eqb Ascii.eqb Bool.eqb GetInfo_segments]. cbv zeta.
  split.
  - intros f Hfloat.
    rewrite (GetInfo_segment_seconds seconds f) by assumption.
    eexists. split; [reflexivity|]. repeat split.
  - intros cause Hfloat.
    now rewrite (GetInfo_segment_rejected seconds cause) by assumption.
Qed.

End Documented.

(** ** Instances *)

(** X2 (witness): the registration packet of the examples. *)
Lemma DataLen_encodeDataLength_witness :
  Z.of_nat (List.length (@json_Marshal sampleJson prueba)) < 2 ^ 32
  /\ @DataLen sampleJson prueba
     = encodeDataLength (Z.of_nat (List.length (@json_Marshal sampleJson prueba))).
Proof.
  split; [vm_compute; reflexivity|].
  apply (@DataLen_encodeDataLength sampleJson prueba). vm_compute. reflexivity.
Defined.

(** X3 (witness): the registration request followed by three further
    bytes. *)
Lemma readZabbixRequest_requestBuffer_witness :
  Z.of_nat (List.length (@json_Marshal sampleJson prueba)) < 2 ^ 32
  /\ @readZabbixRequest sampleRequestJson
       (@requestBuffer sampleJson prueba ++ [x5a; x42; x58])
     = (match @unmarshalRequest sampleRequestJson (@json_Marshal sampleJson prueba) with
        | Err cause => Err (UnmarshalRequest cause)
        | Ok request => Ok request
        end, [x5a; x42; x58]).
Proof.
  split; [vm_compute; reflexivity|].
  apply (@readZabbixRequest_requestBuffer sampleJson sampleRequestJson prueba
           [x5a; x42; x58]).
  vm_compute. reflexivity.
Defined.

(** X4 (witness): the response the mock server writes for a success. *)
Lemma sendOnce_framed_response_witness :
  List.length (encodeDataLength (len (jsonText "{'response':'success'}"))) = 8%nat
  /\ @sendOnce sampleJson (scripted [succeeds]) prueba "a:10051" (boot (NewSender "a"))
     = Some (({| Response_ := "success"; Info := ""; Redirect := None |}, None),
             extend (boot (NewSender "a"))
               [Exchange "a:10051" (@requestBuffer sampleJson prueba)]).
Proof.
  split; [reflexivity|].
  apply (@sendOnce_framed_response sampleJson (scripted [succeeds]) prueba
           "a:10051" (boot (NewSender "a")) _
           (encodeDataLength (len (jsonText "{'response':'success'}")))
           (list_byte_of_string (jsonText "{'response':'success'}")));
    reflexivity.
Defined.

(** X5 (witness): a redirects to b, and b answers "failed" without a
    redirect: the error names b. *)
Lemma sendWithRedirects_ends_witness :
  @sendWithRedirects zabbix sampleJson (scripted [redirects; fails])
    prueba "a:10051" (boot (NewSender "a"))
  = Some (({| Response_ := "failed"; Info := ""; Redirect := None |},
           Some (FailedWithoutRedirect "b:10051" "failed")),
          extend (boot (NewSender "a"))
            [Drive "a:10051";
             Exchange "a:10051" (@requestBuffer sampleJson prueba);
             Exchange "b:10051" (@requestBuffer sampleJson prueba)]).
Proof.
  destruct (@sendWithRedirects_ends zabbix sampleJson (scripted [redirects; fails])
              1 prueba "a:10051" "b:10051" (boot (NewSender "a"))
              (extend (boot (NewSender "a"))
                 [Drive "a:10051";
                  Exchange "a:10051" (@requestBuffer sampleJson prueba)])
              (extend (boot (NewSender "a"))
                 [Drive "a:10051";
                  Exchange "a:10051" (@requestBuffer sampleJson prueba);
                  Exchange "b:10051" (@requestBuffer sampleJson prueba)])
              {| Response_ := "failed"; Info := ""; Redirect := None |} None)
    as (_ & _ & Hrejected & _).
  - vm_compute. discriminate.
  - cbn [redirectChain]. redirected. split; reflexivity.
  - vm_compute. reflexivity.
  - apply Hrejected; [reflexivity | vm_compute; discriminate | now left].
Defined.

(** X6 (witness): both revisions of [parseHostPort] fail with an
    InvalidRedirectError only; a drive against a peer that refuses. *)
Lemma sendWithRedirects_attempts_witness :
  (forall addr e, @parseHostPort zabbix addr = Err e -> kind e = InvalidRedirectError)
  /\ (forall addr e,
         @parseHostPort zabbix_sender addr = Err e -> kind e = InvalidRedirectError)
  /\ MaxRedirects (sender (boot (NewSender "a"))) < maxInt
  /\ exists res err t,
       @sendWithRedirects zabbix sampleJson nobody prueba "a:10051"
         (boot (NewSender "a"))
       = Some ((res, err), extend (boot (NewSender "a")) (Drive "a:10051" :: t))
       /\ Z.of_nat (List.length (dialled t)) <= 4
       /\ Forall (fun buffer => buffer = @requestBuffer sampleJson prueba) (buffers t)
       /\ forall e, err = Some e -> driveKind (kind e).
Proof.
  assert (Hfirst : forall addr e,
             @parseHostPort zabbix addr = Err e -> kind e = InvalidRedirectError).
  { intros addr e. cbn [parseHostPort zabbix]. unfold parseHostPort_contains.
    destruct (negb (strings.Contains addr ":")); [|discriminate].
    intros [= <-]. reflexivity. }
  split; [exact Hfirst|]. split; [|split; [reflexivity|]].
  - intros addr e. cbn [parseHostPort zabbix_sender]. unfold parseHostPort_split.
    destruct (net.SplitHostPort (normalizeHost addr)) as [[name port]|cause];
      [|intros [= <-]; reflexivity].
    destruct (String.eqb name "" || String.eqb port ""); [|discriminate].
    intros [= <-]. reflexivity.
  - destruct (@sendWithRedirects_attempts zabbix sampleJson nobody prueba "a:10051"
                (boot (NewSender "a")) eq_refl)
      as (res & err & t & Hrun & Hcount & Hbuf & Hkind).
    exists res, err, t. split; [exact Hrun|]. split; [exact Hcount|].
    split; [exact Hbuf | exact (Hkind Hfirst)].
Defined.

(** X7 (witness): a send over three addresses that refuse, with the
    default limit of 3. *)
Lemma Send_exchanges_witness :
  MaxRedirects (sender (boot (NewSenderHosts abc))) < maxInt
  /\ exists res err m',
       @Send zabbix sampleJson nobody prueba (boot (NewSenderHosts abc))
       = Some ((res, err), m')
       /\ Forall (fun buffer => buffer = @requestBuffer sampleJson prueba)
            (buffers (since (boot (NewSenderHosts abc)) m'))
       /\ (List.length (dialled (since (boot (NewSenderHosts abc)) m')) <= 12)%nat.
Proof.
  split; [reflexivity|].
  exact (@Send_exchanges zabbix sampleJson nobody prueba (boot (NewSenderHosts abc))
           eq_refl).
Defined.

(** X9 (witness): a sender whose limit is -1, and a sender without
    addresses. *)
Lemma Send_without_attempt_witness :
  (MaxRedirects (withMaxRedirects (-1) (cachedSender "c:10051" abc)) < 0
   /\ exists m',
        @Send zabbix sampleJson (only "c:10051") prueba
          (boot (withMaxRedirects (-1) (cachedSender "c:10051" abc)))
        = Some ((zeroResponse, Some (AllHostsFailed 3)), m')
        /\ dialled (since (boot (withMaxRedirects (-1) (cachedSender "c:10051" abc))) m')
           = []
        /\ PrimaryHost (sender m') = "")
  /\ (PrimaryHost (NewSenderHosts []) = "" /\ Hosts (NewSenderHosts []) = []
      /\ @Send zabbix sampleJson (only "c:10051") prueba (boot (NewSenderHosts []))
         = Some ((zeroResponse, Some (AllHostsFailed 0)), boot (NewSenderHosts []))).
Proof.
  split.
  - split; [reflexivity|].
    apply (@Send_without_attempt zabbix sampleJson (only "c:10051") prueba
             (boot (withMaxRedirects (-1) (cachedSender "c:10051" abc)))).
    reflexivity.
  - split; [reflexivity|]. split; [reflexivity|].
    apply (@Send_without_attempt zabbix sampleJson (only "c:10051") prueba
             (boot (NewSenderHosts []))); reflexivity.
Defined.


(** X13 (witness): an active and a trapper metric sent to the address
    list [b, a] where only a accepts: the "agent data" packet goes to a
    first. *)
Lemma SendMetrics_shared_cache_witness :
  filter Active [ping; pong] <> []
  /\ filter (fun metric => negb (Active metric)) [ping; pong] <> []
  /\ exists resTrapper m1 resActive errActive m' rest,
       @Send zabbix sampleJson (only "a:10051")
         (NewPacket (filter (fun metric => negb (Active metric)) [ping; pong]) false [])
         (boot (NewSenderHosts ["b:10051"; "a:10051"]))
       = Some ((resTrapper, None), m1)
       /\ PrimaryHost (sender m1) = "a:10051"
       /\ @SendMetrics zabbix sampleJson (only "a:10051") (map Some [ping; pong])
            (boot (NewSenderHosts ["b:10051"; "a:10051"]))
          = Some (((resActive, errActive), (resTrapper, None)), m')
       /\ since m1 m'
          = Drive (PrimaryHost (sender m1))
            :: Exchange (PrimaryHost (sender m1))
                 (@requestBuffer sampleJson (NewPacket (filter Active [ping; pong]) true []))
            :: rest.
Proof.
  split; [discriminate|]. split; [discriminate|].
  destruct (@Send zabbix sampleJson (only "a:10051")
              (NewPacket (filter (fun metric => negb (Active metric)) [ping; pong]) false [])
              (boot (NewSenderHosts ["b:10051"; "a:10051"])))
    as [[[resTrapper errTrapper] m1]|] eqn:Hsend.
  2: { vm_compute in Hsend. discriminate. }
  assert (Herr : errTrapper = None) by (vm_compute in Hsend; congruence).
  assert (Hcached : PrimaryHost (sender m1) = "a:10051").
  { vm_compute in Hsend. injection Hsend as _ _ <-. reflexivity. }
  subst errTrapper.
  destruct (@SendMetrics_shared_cache zabbix sampleJson (only "a:10051") [ping; pong]
              (boot (NewSenderHosts ["b:10051"; "a:10051"])) m1 resTrapper)
    as (resActive & errActive & m' & rest & Hrun & Hfirst);
    [discriminate | exact Hsend | discriminate |].
  exists resTrapper, m1, resActive, errActive, m', rest.
  split; [reflexivity|]. split; [exact Hcached|]. split; assumption.
Defined.

(** X14 (witness): the info string of the tests. *)
Lemma GetInfo_accepts_witness :
  exists info,
    @GetInfo sampleFloats
      {| Response_ := "success";
         Info := "processed: 1; failed: 0; total: 1; seconds spent: 0.000030";
         Redirect := None |} = Ok info.
Proof.
  apply (proj2 (@GetInfo_accepts sampleFloats
                  {| Response_ := "success";
                     Info := "processed: 1; failed: 0; total: 1; seconds spent: 0.000030";
                     Redirect := None |})).
  split; [reflexivity|]. split; [reflexivity|].
  change (Forall (@segmentAccepted sampleFloats)
            ["processed: 1"; " failed: 0"; " total: 1"; " seconds spent: 0.000030"]).
  constructor; [|constructor; [|constructor; [|constructor; [|constructor]]]];
    (split; [reflexivity|]).
  - intros Hkey. vm_compute in Hkey. discriminate.
  - intros Hkey. vm_compute in Hkey. discriminate.
  - intros Hkey. vm_compute in Hkey. discriminate.
  - intros _. exists 30000. reflexivity.
Defined.

(** X15 (witness): a batch of one active metric. *)
Lemma SendMetrics_unsent_witness :
  filter (fun metric => negb (Active metric)) [ping] = []
  /\ exists active m',
       @SendMetrics zabbix sampleJson (only "a:10051") (map Some [ping])
         (boot (NewSender "a")) = Some ((active, (zeroResponse, None)), m')
       /\ @GetInfo sampleFloats zeroResponse = Err (ResponseNotSuccess "").
Proof.
  split; [reflexivity|].
  destruct (@SendMetrics_unsent sampleFloats zabbix sampleJson (only "a:10051") [ping]
              (boot (NewSender "a")))
    as (active & trapper & m' & Hrun & Htrapper & _ & Hinfo).
  rewrite (Htrapper eq_refl) in Hrun.
  exists active, m'. split; assumption.
Defined.

(** X17 (witness): an address with a port, under either revision. *)
Lemma parseHostPort_stable_witness :
  (@parseHostPort zabbix "b:10051" = Ok "b:10051"
   /\ @parseHostPort zabbix "b:10051" = Ok "b:10051")
  /\ (@parseHostPort zabbix_sender " b " = Ok "b:10051"
      /\ @parseHostPort zabbix_sender "b:10051" = Ok "b:10051").
Proof.
  destruct (parseHostPort_stable "b:10051" "b:10051") as (Hfirst & _).
  destruct (parseHostPort_stable " b " "b:10051") as (_ & Hsecond).
  split; (split; [reflexivity|]); [apply Hfirst | apply Hsecond]; reflexivity.
Defined.

(** X18 (witness): the host name proxy2. *)
Lemma parseHostPort_bare_name_witness :
  ("proxy2" <> "" /\ strings.TrimSpace "proxy2" = "proxy2"
   /\ strings.Contains "proxy2" ":" = false
   /\ strings.Contains "proxy2" "[" = false
   /\ strings.Contains "proxy2" "]" = false)
  /\ @parseHostPort zabbix "proxy2" = Err (InvalidRedirectAddress "proxy2")
  /\ @parseHostPort zabbix_sender "proxy2" = Ok "proxy2:10051"
  /\ net.SplitHostPort "proxy2:10051" = Ok ("proxy2", "10051").
Proof.
  split; [repeat split; discriminate || reflexivity|].
  apply (parseHostPort_bare_name "proxy2"); discriminate || reflexivity.
Defined.

(** X19 (witness): the info string of the tests, whose seconds are a
    number, and the same counters with seconds that are none. *)
Lemma GetInfo_documented_witness :
  (exists info,
     @GetInfo sampleFloats
       {| Response_ := "success";
          Info := "processed: 1; failed: 0; total: 1; seconds spent: 0.000030";
          Redirect := None |} = Ok info
     /\ Processed info = 1 /\ Failed info = 0 /\ Total info = 1)
  /\ @GetInfo sampleFloats
       {| Response_ := "success";
          Info := "processed: -7; failed: 250; total: 243; seconds spent: soon";
          Redirect := None |}
     = Err (SecondsSpent "soon" "invalid syntax").
Proof.
  split.
  - apply (@GetInfo_documented sampleFloats _ 1 0 1 "0.000030") with (f := 30000);
      try reflexivity; lia.
  - apply (@GetInfo_documented sampleFloats _ (-7) 250 243 "soon");
      try reflexivity; lia.
Defined.

(** X21 (witness): the default limit against a peer that redirects
    twice and then accepts; the largest [int] as the limit against a peer
    that redirects. *)
Lemma sendWithRedirects_counter_witness :
  (MaxRedirects (sender (boot (NewSender "a"))) < maxInt
   /\ (Z.to_nat (MaxRedirects (sender (boot (NewSender "a"))) + 1) < 5)%nat
   /\ @sendWithRedirects_counted zabbix sampleJson
        (scripted [redirects; redirects; succeeds]) 5 prueba "a:10051"
        (boot (NewSender "a"))
      = returned (@sendWithRedirects zabbix sampleJson
                    (scripted [redirects; redirects; succeeds]) prueba "a:10051"
                    (boot (NewSender "a"))))
  /\ (MaxRedirects (sender (boot (withMaxRedirects maxInt (NewSender "a")))) = maxInt
      /\ exists m',
           @sendWithRedirects_counted zabbix sampleJson
             (scripted [redirects; redirects; redirects; redirects; redirects])
             5 prueba "a:10051" (boot (withMaxRedirects maxInt (NewSender "a")))
           = Some (None, m')).
Proof.
  split.
  - split; [reflexivity|]. split; [vm_compute; lia|].
    apply (@sendWithRedirects_counter zabbix sampleJson
             (scripted [redirects; redirects; succeeds]) prueba "a:10051"
             (boot (NewSender "a"))); [reflexivity | vm_compute; lia].
  - split; [reflexivity|]. eexists.
    eapply (@sendWithRedirects_counter zabbix sampleJson
             (scripted [redirects; redirects; redirects; redirects; redirects])
             prueba "a:10051" (boot (withMaxRedirects maxInt (NewSender "a"))));
      [reflexivity|].
    cbn [redirectChain].
    redirected. redirected. redirected. redirected. redirected.
    split; reflexivity.
Defined.
